(** * WhatsApp lead dashboard (front end): the lead page, the visit booking
      modal and the analytics insights, embedded from the TypeScript sources;
      with them the sales coach panel, the API client, the dashboard page and
      the team page.

    The pages are React components; what is embedded here is their logic:
    the event handlers and data fetchers, as functions over the component
    state, with the calls they make (network requests, console output, the
    [onSuccess] callback) recorded in a trace.

    - JavaScript values are a tagged union [JSValue]; what [JSON.parse]
      returns is such a value, and numbers are IEEE binary64 floats.
    - Strings are sequences of UTF-16 code units.
    - Expressions that may throw live in [result]; statements live in the
      monad [M], whose completions are normal, [return] or [throw], as in
      the language. [try]/[catch]/[finally] are combinators of [M].
    - What the JavaScript runtime decides (how a date string is read, how a
      number prints, the text of the errors the engine raises) is a
      [Runtime] record that the functions take as a parameter.
    - What the backend answers is an argument of each fetcher: the outcome
      of the [fetch] it makes.

    The sources hold the lead page twice: [PageA] is the file whose visit
    fetcher is [loadVisitBanner], [PageB] the file with the normalizing
    [fetchMessages] and [fetchLatestVisit]. *)

From Stdlib Require Import List ZArith NArith Bool String Ascii Lia.
From Stdlib Require Import Floats Uint63 DecimalString.
Import ListNotations.

Set Implicit Arguments.
Set Warnings "-register-all".
Local Open Scope string_scope.
Local Open Scope list_scope.


(* ================================================================== *)
(** ** Strings *)

(** A JavaScript string: its UTF-16 code units. *)
Definition jsstring : Type := list N.

(** A literal of the source text. *)
Definition lit (s : string) : jsstring :=
  List.map N_of_ascii (list_ascii_of_string s).

Coercion lit : string >-> jsstring.

Fixpoint jsstring_eqb (a b : jsstring) : bool :=
  match a, b with
  | [], [] => true
  | x :: a', y :: b' => N.eqb x y && jsstring_eqb a' b'
  | _, _ => false
  end.

Definition is_empty (s : jsstring) : bool :=
  match s with [] => true | _ => false end.

(** ECMAScript WhiteSpace and LineTerminator code points, the ones
    [String.prototype.trim] removes: TAB, LF, VT, FF, CR, SP, NBSP,
    U+1680, U+2000..U+200A, LS, PS, U+202F, U+205F, U+3000 and the BOM. *)
Definition is_whitespace (c : N) : bool :=
  (N.eqb c 9 || N.eqb c 10 || N.eqb c 11 || N.eqb c 12 || N.eqb c 13
   || N.eqb c 32 || N.eqb c 160 || N.eqb c 5760
   || (N.leb 8192 c && N.leb c 8202)
   || N.eqb c 8232 || N.eqb c 8233 || N.eqb c 8239 || N.eqb c 8287
   || N.eqb c 12288 || N.eqb c 65279)%bool.

Fixpoint trimStart (s : jsstring) : jsstring :=
  match s with
  | c :: s' => if is_whitespace c then trimStart s' else s
  | [] => []
  end.

Definition trimEnd (s : jsstring) : jsstring := rev (trimStart (rev s)).

(** [s.trim()] *)
Definition trim (s : jsstring) : jsstring := trimEnd (trimStart s).

(** The decimal digits of a non-negative integer, as a template literal
    prints it. *)
Definition digits (n : N) : jsstring :=
  lit (NilEmpty.string_of_uint (N.to_uint n)).

(* ================================================================== *)
(** ** Values *)

Inductive JSValue : Type :=
| JUndefined
| JNull
| JBool (b : bool)
| JNum (n : float)
| JStr (s : jsstring)
| JArr (items : list JSValue)
| JObj (props : list (jsstring * JSValue)).

(** The length of an array or string, as a number. *)
Definition Num_of_nat (n : nat) : float :=
  PrimFloat.of_uint63 (Uint63.of_Z (Z.of_nat n)).

(** [ToBoolean]: what [!v], [v || w] and [if (v)] look at. *)
Definition ToBoolean (v : JSValue) : bool :=
  match v with
  | JUndefined | JNull => false
  | JBool b => b
  | JNum n => negb (PrimFloat.is_zero n || PrimFloat.is_nan n)
  | JStr s => negb (is_empty s)
  | JArr _ | JObj _ => true
  end.

Definition is_nullish (v : JSValue) : bool :=
  match v with JUndefined | JNull => true | _ => false end.

(** [Array.isArray(v)] *)
Definition isArray (v : JSValue) : bool :=
  match v with JArr _ => true | _ => false end.

(** [typeof v === "string"] *)
Definition is_string (v : JSValue) : bool :=
  match v with JStr _ => true | _ => false end.

(** [v === p] where [p] is a primitive (a string, a number, [null],
    [undefined], a boolean), which is every comparison the sources make:
    an array or an object is never strictly equal to a primitive. *)
Definition strict_equals (v p : JSValue) : bool :=
  match v, p with
  | JUndefined, JUndefined => true
  | JNull, JNull => true
  | JBool a, JBool b => Bool.eqb a b
  | JNum a, JNum b => PrimFloat.eqb a b
  | JStr a, JStr b => jsstring_eqb a b
  | _, _ => false
  end.

(** The first binding of a key. The objects [JSON.parse] builds have no
    duplicate keys. *)
Fixpoint lookup (k : jsstring) (props : list (jsstring * JSValue)) : JSValue :=
  match props with
  | [] => JUndefined
  | (k', v) :: rest => if jsstring_eqb k k' then v else lookup k rest
  end.

(* ================================================================== *)
(** ** Errors and expressions that may throw *)

Inductive Exn : Type :=
| UserError (message : jsstring)    (* [new Error(message)] thrown by a page *)
| FetchFailed (message : jsstring)  (* the rejection of [fetch] *)
| TypeError                         (* raised by the engine *)
| SyntaxError                       (* raised by [JSON.parse] / [res.json()] *)
| RangeError.                       (* raised by [toISOString] *)

Inductive result (A : Type) : Type :=
| Ok (a : A)
| Raise (e : Exn).

Arguments Ok {A} a.
Arguments Raise {A} e.

Definition rbind {A B} (r : result A) (k : A -> result B) : result B :=
  match r with
  | Ok a => k a
  | Raise e => Raise e
  end.

Notation "'let?' x ':=' r 'in' k" := (rbind r (fun x => k))
  (at level 10, x name, r at level 100, k at level 200).

(** [v.k] for an own, non-index property name [k]: a [TypeError] on [null]
    and [undefined]; on an array or a string only [length] is such a
    property; numbers and booleans have none. Inherited methods ([map],
    [toString], ...) are not values of this model, and none of the names the
    sources read is one. *)
Definition get (v : JSValue) (k : jsstring) : result JSValue :=
  match v with
  | JUndefined | JNull => Raise TypeError
  | JObj props => Ok (lookup k props)
  | JArr items =>
      Ok (if jsstring_eqb k "length" then JNum (Num_of_nat (List.length items))
          else JUndefined)
  | JStr s =>
      Ok (if jsstring_eqb k "length" then JNum (Num_of_nat (List.length s))
          else JUndefined)
  | JBool _ | JNum _ => Ok JUndefined
  end.

(** [v?.k] *)
Definition get_opt (v : JSValue) (k : jsstring) : result JSValue :=
  if is_nullish v then Ok JUndefined else get v k.

(** [a ?? b]: [b] is evaluated only when [a] is [null] or [undefined]. *)
Definition nullish_or (a b : result JSValue) : result JSValue :=
  let? x := a in if is_nullish x then b else Ok x.

(** [a || b] on values. *)
Definition logical_or (a b : result JSValue) : result JSValue :=
  let? x := a in if ToBoolean x then Ok x else b.

(** [a && b] on conditions. *)
Definition and_then (a b : result bool) : result bool :=
  let? x := a in if x then b else Ok false.

(** [a || b] on conditions. *)
Definition or_else (a b : result bool) : result bool :=
  let? x := a in if x then Ok true else b.

Infix "??" := nullish_or (at level 45, left associativity).

(* ================================================================== *)
(** ** The runtime *)

Record Runtime : Type := {
  (** [new Date(v).getTime()]; [None] is [NaN] (an invalid date). The time
      values of valid dates are integers of magnitude at most 8.64e15, which
      binary64 subtracts exactly. *)
  Date_getTime : JSValue -> option Z;
  (** [new Date(s).toISOString()]; [None] is the [RangeError] of an invalid
      date. *)
  Date_toISOString : jsstring -> option jsstring;
  (** [String(n)] for a number. *)
  Number_toString : float -> jsstring;
  (** [String(v)] for an array or an object; a [TypeError] when the value
      cannot be converted. *)
  Object_toString : JSValue -> result jsstring;
  (** The [message] of an error the engine raises. *)
  engine_message : Exn -> jsstring
}.

(** [err.message] *)
Definition message_of (rt : Runtime) (e : Exn) : jsstring :=
  match e with
  | UserError m | FetchFailed m => m
  | _ => engine_message rt e
  end.

(** [err.message || fallback] *)
Definition message_or (rt : Runtime) (e : Exn) (fallback : jsstring) : jsstring :=
  if is_empty (message_of rt e) then fallback else message_of rt e.

(* ================================================================== *)
(** ** Effects *)

Inductive Method := GET | POST.

Inductive Payload : Type :=
| NoBody
| FormUrlEncoded (fields : list (jsstring * jsstring))
| JsonBody (v : JSValue).

(** A request; [path] is what follows [API_URL]. Every request of the
    sources is sent with [credentials: "include"]. *)
Record Request : Type := {
  method : Method;
  path : jsstring;
  payload : Payload
}.

(** The body of a response, by what [JSON.parse] makes of its text. *)
Inductive Body : Type :=
| EmptyBody            (* the empty text *)
| NotJson              (* a non-empty text that [JSON.parse] rejects *)
| Json (v : JSValue).  (* a text that parses to [v] *)

(** A response that arrived: its status and its body, which can be read
    ([res.text()], [res.json()]) without a transport error. *)
Record Response : Type := {
  status : N;
  body : Body
}.

(** [res.ok] *)
Definition ok (r : Response) : bool :=
  (N.leb 200 (status r) && N.leb (status r) 299)%bool.

(** What a [fetch] settles to. *)
Inductive FetchOutcome : Type :=
| NetworkFailure (message : jsstring)
| Responded (r : Response).

Inductive Level := Log | Warn | Error.

(** What a handler does to the outside. A console call is recorded with the
    literal text it starts with (the empty text when its first argument is
    not a literal); the values it prints after that are not part of the
    model. *)
Inductive Event : Type :=
| Fetch (req : Request)
| Console (lvl : Level) (label : string)
| OnSuccess.                               (* the modal's callback *)

Definition is_fetch (e : Event) : bool :=
  match e with Fetch _ => true | _ => false end.

(** The requests of a trace, in order. *)
Definition requests (t : list Event) : list Event := filter is_fetch t.

(* ================================================================== *)
(** ** Statements *)

Inductive Completion (A : Type) : Type :=
| Normal (a : A)
| Return
| Throw (e : Exn).

Arguments Normal {A} a.
Arguments Return {A}.
Arguments Throw {A} e.

(** A statement over a component state [S]: its completion, the state after
    it and the events it produced. State written before a [throw] stays
    written. *)
Definition M (S A : Type) : Type := S -> Completion A * S * list Event.

Section Statements.
Context {S : Type}.

Definition ret {A} (a : A) : M S A := fun s => (Normal a, s, []).

Definition bind {A B} (m : M S A) (k : A -> M S B) : M S B :=
  fun s =>
    match m s with
    | (Normal a, s1, t1) =>
        let '(c, s2, t2) := k a s1 in (c, s2, t1 ++ t2)
    | (Return, s1, t1) => (Return, s1, t1)
    | (Throw e, s1, t1) => (Throw e, s1, t1)
    end.

Definition throw {A} (e : Exn) : M S A := fun s => (Throw e, s, []).

Definition return_ {A} : M S A := fun s => (Return, s, []).

Definition modify (f : S -> S) : M S unit := fun s => (Normal tt, f s, []).

Definition read : M S S := fun s => (Normal s, s, []).

Definition emit (e : Event) : M S unit := fun s => (Normal tt, s, [e]).

(** An expression evaluated as part of a statement. *)
Definition lift {A} (r : result A) : M S A :=
  match r with
  | Ok a => ret a
  | Raise e => throw e
  end.

(** [try { m } catch (err) { h err }] *)
Definition try_catch {A} (m : M S A) (h : Exn -> M S A) : M S A :=
  fun s =>
    match m s with
    | (Throw e, s1, t1) =>
        let '(c, s2, t2) := h e s1 in (c, s2, t1 ++ t2)
    | r => r
    end.

(** [try { m } finally { f }]: [f] runs whatever [m] completed with, and
    an abrupt completion of [f] replaces that of [m]. *)
Definition try_finally {A} (m : M S A) (f : M S unit) : M S A :=
  fun s =>
    let '(c, s1, t1) := m s in
    match f s1 with
    | (Normal _, s2, t2) => (c, s2, t1 ++ t2)
    | (Return, s2, t2) => (Return, s2, t1 ++ t2)
    | (Throw e, s2, t2) => (Throw e, s2, t1 ++ t2)
    end.

(** The body of an [async function] returning nothing: [return] ends it
    normally (the promise resolves), a [throw] that leaves it rejects the
    promise. *)
Definition async (m : M S unit) : M S unit :=
  fun s =>
    match m s with
    | (Return, s1, t1) => (Normal tt, s1, t1)
    | r => r
    end.

Definition console (lvl : Level) (label : string) : M S unit :=
  emit (Console lvl label).

(** [await fetch(...)] *)
Definition fetch (req : Request) (o : FetchOutcome) : M S Response :=
  bind (emit (Fetch req))
       (fun _ => match o with
                 | NetworkFailure msg => throw (FetchFailed msg)
                 | Responded r => ret r
                 end).

(** [await res.json()] *)
Definition res_json (r : Response) : M S JSValue :=
  match body r with
  | Json v => ret v
  | EmptyBody | NotJson => throw SyntaxError
  end.
End Statements.

Notation "x <- m ;; k" := (bind m (fun x => k))
  (at level 100, m at next level, right associativity).
Notation "m ;; k" := (bind m (fun _ => k))
  (at level 100, right associativity).

(** The state a statement leaves, and the events it produced. *)
Definition state_after {S A} (r : Completion A * S * list Event) : S := snd (fst r).
Definition completion {S A} (r : Completion A * S * list Event) : Completion A := fst (fst r).
Definition trace {S A} (r : Completion A * S * list Event) : list Event := snd r.

(* ================================================================== *)
(** ** Arrays *)

(** [arr.filter(f)] on the elements; an exception of the callback ends it. *)
Fixpoint array_filter (f : JSValue -> result bool) (l : list JSValue)
  : result (list JSValue) :=
  match l with
  | [] => Ok []
  | v :: rest =>
      let? keep := f v in
      let? rest' := array_filter f rest in
      Ok (if keep then v :: rest' else rest')
  end.

(** [arr.map(f)] on the elements. *)
Fixpoint array_map {B : Type} (f : JSValue -> result B) (l : list JSValue)
  : result (list B) :=
  match l with
  | [] => Ok []
  | v :: rest =>
      let? b := f v in
      let? rest' := array_map f rest in
      Ok (b :: rest')
  end.

(** [v.filter(f)]: only an array has the method. *)
Definition call_filter (v : JSValue) (f : JSValue -> result bool)
  : result (list JSValue) :=
  match v with
  | JArr items => array_filter f items
  | _ => Raise TypeError
  end.

(** SortCompare: the comparator's number, with [NaN] (here [None]) read
    as [+0]. *)
Definition sort_compare (cmp : JSValue -> JSValue -> result (option Z))
  (x y : JSValue) : result Z :=
  let? v := cmp x y in
  Ok (match v with Some z => z | None => 0%Z end).

Fixpoint insert_sorted (cmp : JSValue -> JSValue -> result (option Z))
  (x : JSValue) (l : list JSValue) : result (list JSValue) :=
  match l with
  | [] => Ok [x]
  | y :: rest =>
      let? c := sort_compare cmp x y in
      if (c <=? 0)%Z then Ok (x :: y :: rest)
      else let? rest' := insert_sorted cmp x rest in Ok (y :: rest')
  end.

Fixpoint sort_defined (cmp : JSValue -> JSValue -> result (option Z))
  (l : list JSValue) : result (list JSValue) :=
  match l with
  | [] => Ok []
  | x :: rest =>
      let? rest' := sort_defined cmp rest in
      insert_sorted cmp x rest'
  end.

Definition is_undefined (v : JSValue) : bool :=
  match v with JUndefined => true | _ => false end.

(** [arr.sort(cmp)]. The sort is stable, and [undefined] elements go last
    without being compared. For a consistent comparator that fixes the
    result, which this insertion sort computes; for an inconsistent one the
    language leaves the order to the engine, and this is one such order. *)
Definition array_sort (cmp : JSValue -> JSValue -> result (option Z))
  (l : list JSValue) : result (list JSValue) :=
  let? sorted := sort_defined cmp (filter (fun v => negb (is_undefined v)) l) in
  Ok (sorted ++ filter is_undefined l).

(** [arr[0]] *)
Definition first (l : list JSValue) : JSValue :=
  match l with
  | v :: _ => v
  | [] => JUndefined
  end.

(* ================================================================== *)
(** ** The lead page: state *)

(** The [useState] cells of [LeadPage]. *)
Record PageState : Type := {
  lead : JSValue;            (* LeadData | null *)
  loading : bool;
  error : option jsstring;   (* string | null *)
  input : jsstring;
  sending : bool;
  latestVisit : JSValue;     (* Visit | null *)
  showVisitModal : bool
}.

Definition setLead (v : JSValue) : M PageState unit :=
  modify (fun s => {| lead := v; loading := loading s; error := error s;
                      input := input s; sending := sending s;
                      latestVisit := latestVisit s;
                      showVisitModal := showVisitModal s |}).

Definition setLoading (b : bool) : M PageState unit :=
  modify (fun s => {| lead := lead s; loading := b; error := error s;
                      input := input s; sending := sending s;
                      latestVisit := latestVisit s;
                      showVisitModal := showVisitModal s |}).

Definition setError (e : option jsstring) : M PageState unit :=
  modify (fun s => {| lead := lead s; loading := loading s; error := e;
                      input := input s; sending := sending s;
                      latestVisit := latestVisit s;
                      showVisitModal := showVisitModal s |}).

Definition setInput (i : jsstring) : M PageState unit :=
  modify (fun s => {| lead := lead s; loading := loading s; error := error s;
                      input := i; sending := sending s;
                      latestVisit := latestVisit s;
                      showVisitModal := showVisitModal s |}).

Definition setSending (b : bool) : M PageState unit :=
  modify (fun s => {| lead := lead s; loading := loading s; error := error s;
                      input := input s; sending := b;
                      latestVisit := latestVisit s;
                      showVisitModal := showVisitModal s |}).

Definition setLatestVisit (v : JSValue) : M PageState unit :=
  modify (fun s => {| lead := lead s; loading := loading s; error := error s;
                      input := input s; sending := sending s;
                      latestVisit := v;
                      showVisitModal := showVisitModal s |}).

(** The state of a freshly mounted page. *)
Definition initial_page : PageState :=
  {| lead := JNull; loading := false; error := None; input := [];
     sending := false; latestVisit := JNull; showVisitModal := false |}.

(** The comparator both pages sort visits with:
    [(a, b) => new Date(b.date).getTime() - new Date(a.date).getTime()]. *)
Definition newest_first (rt : Runtime) (a b : JSValue) : result (option Z) :=
  let? db := get b "date" in
  let? da := get a "date" in
  Ok (match Date_getTime rt db, Date_getTime rt da with
      | Some tb, Some ta => Some (tb - ta)%Z
      | _, _ => None
      end).

Definition GET_visits : Request :=
  {| method := GET; path := "/api/visits"; payload := NoBody |}.

Definition GET_messages (leadId : jsstring) : Request :=
  {| method := GET;
     path := lit "/api/leads/" ++ leadId ++ lit "/messages";
     payload := NoBody |}.

(* ================================================================== *)
(** ** The lead page, first file: [fetchMessages], [loadVisitBanner],
       [handleSend] *)

Module PageA.
Section Page.
Variable rt : Runtime.
(** [params.id], the lead of the route. *)
Variable leadId : jsstring.

Definition fetchMessages (o : FetchOutcome) : M PageState unit :=
  async (
    if is_empty leadId then return_ else
    try_finally
      (try_catch
         (setLoading true ;;
          setError None ;;
          res <- fetch (GET_messages leadId) o ;;
          (if negb (ok res)
           then throw (UserError (lit "API error: " ++ digits (status res)))
           else ret tt) ;;
          data <- res_json res ;;
          setLead data)
         (fun err =>
            console Error "" ;;
            setError (Some (message_or rt err "Failed to load messages"))))
      (setLoading false)).

(** The callback of [allVisits.filter]: does the visit belong to the lead?
    [v.leadId] is read once here; the source reads it again at each use,
    with the same result. *)
Definition belongs (currentLeadId : jsstring) (v : JSValue) : result bool :=
  let? l := get v "leadId" in
  if negb (ToBoolean l) then Ok false
  else if is_string l then Ok (strict_equals l (JStr currentLeadId))
  else
    let? i := get l "_id" in
    Ok (strict_equals i (JStr currentLeadId)).

Definition loadVisitBanner (currentLeadId : jsstring) (o : FetchOutcome)
  : M PageState unit :=
  async (
    try_catch
      (res <- fetch GET_visits o ;;
       if negb (ok res) then
         console Error "Failed to load visits" ;;
         return_
       else
         data <- res_json res ;;
         allVisits <- lift (logical_or (get data "visits") (Ok (JArr []))) ;;
         visitsForLead <- lift (call_filter allVisits (belongs currentLeadId)) ;;
         if Nat.eqb (List.length visitsForLead) 0 then
           setLatestVisit JNull ;;
           return_
         else
           sorted <- lift (array_sort (newest_first rt) visitsForLead) ;;
           setLatestVisit (first sorted))
      (fun err => console Error "loadVisitBanner error:")).

Definition POST_reply (text : jsstring) : Request :=
  {| method := POST;
     path := lit "/leads/" ++ leadId ++ lit "/reply";
     payload := FormUrlEncoded [(lit "message", text)] |}.

Definition handleSend (reply refetch : FetchOutcome) : M PageState unit :=
  async (
    st <- read ;;
    let text := trim (input st) in
    if (is_empty text || is_empty leadId)%bool then return_ else
    try_finally
      (try_catch
         (setSending true ;;
          res <- fetch (POST_reply text) reply ;;
          if negb (ok res) then
            console Error "Send reply failed"
          else
            setInput [] ;;
            fetchMessages refetch)
         (fun err => console Error "Send reply error:"))
      (setSending false)).

(** The effect that loads the banner when the lead changes. *)
Definition on_lead_change (o : FetchOutcome) : M PageState unit :=
  if is_empty leadId then ret tt else loadVisitBanner leadId o.
End Page.
End PageA.

(* ================================================================== *)
(** ** The lead page, second file: the normalizing [fetchMessages],
       [fetchLatestVisit], [handleSend] *)

Module PageB.
Section Page.
Variable rt : Runtime.
Variable leadId : jsstring.

(** [text ? JSON.parse(text) : null] *)
Definition parse_or_null (b : Body) : M PageState JSValue :=
  match b with
  | EmptyBody => ret JNull
  | NotJson => throw SyntaxError
  | Json v => ret v
  end.

(** The condition of the third branch:
    [data.messages === undefined && data.messages === null
     && data.messages?.length === 0]. *)
Definition fallback_condition (data : JSValue) : result bool :=
  and_then
    (let? m := get data "messages" in Ok (strict_equals m JUndefined))
    (and_then
       (let? m := get data "messages" in Ok (strict_equals m JNull))
       (let? m := get data "messages" in
        let? len := get_opt m "length" in
        Ok (strict_equals len (JNum 0%float)))).

(** The "defensive normalization" of the parsed payload into
    [{ leadId, name, messages }], or [null]. *)
Definition normalize (data : JSValue) : result JSValue :=
  if negb (ToBoolean data) then Ok JNull
  else
    let? m := get data "messages" in
    if isArray m then
      let? l := get data "leadId" ?? Ok (JStr leadId) in
      let? n := get data "name" ?? get data "leadName" ?? get data "name" in
      let? ms := get data "messages" in
      Ok (JObj [(lit "leadId", l); (lit "name", n); (lit "messages", ms)])
    else if isArray data then
      Ok (JObj [(lit "leadId", JStr leadId); (lit "name", JUndefined);
                (lit "messages", data)])
    else
      let? c := fallback_condition data in
      if c then
        let? n := get data "name" ?? Ok JUndefined in
        Ok (JObj [(lit "leadId", JStr leadId); (lit "name", n);
                  (lit "messages", JArr [])])
      else
        let? msgs :=
          get data "messages"
          ?? (let? d := get data "data" in get_opt d "messages")
          ?? Ok (JArr []) in
        let? l := get data "leadId" ?? Ok (JStr leadId) in
        let? n := get data "name" ?? Ok JUndefined in
        Ok (JObj [(lit "leadId", l); (lit "name", n); (lit "messages", msgs)]).

Definition fetchMessages (o : FetchOutcome) : M PageState unit :=
  async (
    if is_empty leadId then
      console Warn "fetchMessages: no leadId (page mounted without id)" ;;
      return_
    else
      console Log "fetchMessages: calling" ;;
      try_finally
        (try_catch
           (setLoading true ;;
            setError None ;;
            res <- fetch (GET_messages leadId) o ;;
            console Log "fetchMessages: status" ;;
            console Log "fetchMessages: raw response text:" ;;
            data <- try_catch
                      (parse_or_null (body res))
                      (fun parseErr =>
                         console Error "fetchMessages: JSON parse error" ;;
                         throw (UserError "Invalid JSON from messages endpoint")) ;;
            normalized <- lift (normalize data) ;;
            console Log "fetchMessages: normalized:" ;;
            setLead normalized)
           (fun err =>
              console Error "fetchMessages error:" ;;
              setError (Some (message_or rt err "Failed to load messages"))))
        (setLoading false)).

(** What a bubble of the render reads of its message: whether it is the
    agent's ([msg.from === "bot" || msg.from === "agent"]) and [msg.text]. *)
Definition bubble (msg : JSValue) : result (bool * JSValue) :=
  let? isAgent :=
    or_else (let? f := get msg "from" in Ok (strict_equals f (JStr "bot")))
            (let? f := get msg "from" in Ok (strict_equals f (JStr "agent"))) in
  let? text := get msg "text" in
  Ok (isAgent, text).

(** The bubbles of the render, [lead?.messages?.map(msg => ...)]: nothing
    when there is no list; only an array has [map]. *)
Definition render_messages (st : PageState) : result (list (bool * JSValue)) :=
  let? ms := get_opt (lead st) "messages" in
  if is_nullish ms then Ok []
  else match ms with
       | JArr items => array_map bubble items
       | _ => Raise TypeError
       end.

(** The callback of [allVisits.filter]; a populated lead is recognised by
    [_id] or by [id]. *)
Definition belongs (currentLeadId : jsstring) (v : JSValue) : result bool :=
  let? l := get v "leadId" in
  if negb (ToBoolean l) then Ok false
  else if is_string l then Ok (strict_equals l (JStr currentLeadId))
  else
    or_else
      (let? i := get l "_id" in Ok (strict_equals i (JStr currentLeadId)))
      (let? i := get l "id" in Ok (strict_equals i (JStr currentLeadId))).

Definition fetchLatestVisit (currentLeadId : jsstring) (o : FetchOutcome)
  : M PageState unit :=
  async (
    if is_empty currentLeadId then return_ else
    console Log "fetchLatestVisit: calling" ;;
    try_catch
      (res <- fetch GET_visits o ;;
       if negb (ok res) then
         console Error "fetchLatestVisit: failed status" ;;
         return_
       else
         data <- res_json res ;;
         allVisits <- lift (get_opt data "visits" ?? Ok (JArr [])) ;;
         visitsForLead <- lift (call_filter allVisits (belongs currentLeadId)) ;;
         if Nat.eqb (List.length visitsForLead) 0 then
           setLatestVisit JNull ;;
           console Log "fetchLatestVisit: 0 visits for lead" ;;
           return_
         else
           sorted <- lift (array_sort (newest_first rt) visitsForLead) ;;
           console Log "fetchLatestVisit: newest for lead" ;;
           setLatestVisit (first sorted))
      (fun err => console Error "fetchLatestVisit error:")).

Definition POST_reply (text : jsstring) : Request :=
  {| method := POST;
     path := lit "/api/leads/" ++ leadId ++ lit "/reply";
     payload := FormUrlEncoded [(lit "message", text)] |}.

Definition handleSend (reply refetch : FetchOutcome) : M PageState unit :=
  async (
    st <- read ;;
    let text := trim (input st) in
    if (is_empty text || is_empty leadId)%bool then return_ else
    console Log "handleSend: POST to" ;;
    try_finally
      (try_catch
         (setSending true ;;
          res <- fetch (POST_reply text) reply ;;
          console Log "handleSend: status" ;;
          console Log "handleSend: raw response:" ;;
          if negb (ok res) then
            setError (Some (lit "Send failed: " ++ digits (status res))) ;;
            return_
          else
            setInput [] ;;
            fetchMessages refetch)
         (fun err =>
            console Error "handleSend error:" ;;
            setError (Some (message_or rt err "Send failed"))))
      (setSending false)).
End Page.
End PageB.

(* ================================================================== *)
(** ** The visit booking modal *)

Module VisitBookingModal.

(** The [useState] cells of the modal. *)
Record ModalState : Type := {
  date : jsstring;           (* the datetime-local string *)
  timeSlot : jsstring;
  familyComing : bool;
  pickupRequired : bool;
  notes : jsstring;
  loading : bool;
  error : option jsstring
}.

Definition setLoading (b : bool) : M ModalState unit :=
  modify (fun s => {| date := date s; timeSlot := timeSlot s;
                      familyComing := familyComing s;
                      pickupRequired := pickupRequired s; notes := notes s;
                      loading := b; error := error s |}).

Definition setError (e : option jsstring) : M ModalState unit :=
  modify (fun s => {| date := date s; timeSlot := timeSlot s;
                      familyComing := familyComing s;
                      pickupRequired := pickupRequired s; notes := notes s;
                      loading := loading s; error := e |}).

Section Modal.
Variable rt : Runtime.
Variable leadId : jsstring.

(** [new Date(date).toISOString()] *)
Definition toISOString (d : jsstring) : result jsstring :=
  match Date_toISOString rt d with
  | Some iso => Ok iso
  | None => Raise RangeError
  end.

(** The message of [new Error(v)]: [v] as a string. *)
Definition ToString (v : JSValue) : result jsstring :=
  match v with
  | JStr s => Ok s
  | JUndefined => Ok (lit "undefined")
  | JNull => Ok (lit "null")
  | JBool true => Ok (lit "true")
  | JBool false => Ok (lit "false")
  | JNum n => Ok (Number_toString rt n)
  | JArr _ | JObj _ => Object_toString rt v
  end.

Definition POST_book (st : ModalState) (isoDate : jsstring) : Request :=
  {| method := POST;
     path := lit "/api/visits/" ++ leadId ++ lit "/book";
     payload := JsonBody (JObj [(lit "date", JStr isoDate);
                                (lit "timeSlot", JStr (timeSlot st));
                                (lit "familyComing", JBool (familyComing st));
                                (lit "pickupRequired", JBool (pickupRequired st));
                                (lit "notes", JStr (notes st))]) |}.

(** [!res.ok || !data.ok] *)
Definition booking_failed (res : Response) (data : JSValue) : result bool :=
  or_else (Ok (negb (ok res)))
          (let? k := get data "ok" in Ok (negb (ToBoolean k))).

(** [data.error || `Booking failed (${res.status})`] *)
Definition failure_text (res : Response) (data : JSValue) : result JSValue :=
  logical_or (get data "error")
             (Ok (JStr (lit "Booking failed (" ++ digits (status res) ++ lit ")"))).

Definition handleSubmit (o : FetchOutcome) : M ModalState unit :=
  async (
    setError None ;;
    st <- read ;;
    if (is_empty (date st) || is_empty (timeSlot st))%bool then
      setError (Some (lit "Please pick a date and time slot.")) ;;
      return_
    else
      try_finally
        (try_catch
           (setLoading true ;;
            isoDate <- lift (toISOString (date st)) ;;
            res <- fetch (POST_book st isoDate) o ;;
            data <- try_catch (res_json res) (fun _ => ret (JObj [])) ;;
            failed <- lift (booking_failed res data) ;;
            if failed then
              text <- lift (failure_text res data) ;;
              message <- lift (ToString text) ;;
              throw (UserError message)
            else
              emit OnSuccess)
           (fun err =>
              console Error "Visit booking error:" ;;
              setError (Some (message_or rt err "Failed to book visit"))))
        (setLoading false)).
End Modal.
End VisitBookingModal.

(* ================================================================== *)
(** ** The analytics dashboard: the insights tab *)

Module InsightsTab.

Record Metrics : Type := {
  totalLeads : float;
  hotLeads : float;
  warmLeads : float;
  coldLeads : float;
  fakeLeads : float;
  convertedLeads : float;
  conversionRate : float;
  followupsSent : float;
  followupsScheduled : float;
  whatsappIn : float;
  whatsappOutAI : float;
  stageChanges : float
}.

(** A small integer as a number. *)
Definition Num_of_Z (z : Z) : float :=
  if (z <? 0)%Z then (- PrimFloat.of_uint63 (Uint63.of_Z (- z)))%float
  else PrimFloat.of_uint63 (Uint63.of_Z z).

(** [Math.round(x)]: [x] itself when it is not finite or is an integer,
    otherwise the integer nearest to [x], the larger one on a tie, with
    the sign of [x] when that integer is zero. A finite [x] is
    [(-1)^s * m * 2^e]; below [e = 0] the nearest integer is
    [floor (x + 1/2)], at most [2^53] in magnitude, hence a number. *)
Definition Math_round (x : float) : float :=
  match Prim2SF x with
  | S754_finite s m e =>
      if (0 <=? e)%Z then x
      else
        let q := if s then Zneg m else Zpos m in
        let r := ((2 * q + 2 ^ (- e)) / 2 ^ (1 - e))%Z in
        if (r =? 0)%Z then (if s then PrimFloat.neg_zero else PrimFloat.zero)
        else Num_of_Z r
  | _ => x
  end.

Definition hundred : float := 100%float.

Section Tab.
Variable rt : Runtime.
Variable metrics : Metrics.

Definition hotShare : jsstring :=
  if (0 <? totalLeads metrics)%float
  then Number_toString rt
         (Math_round ((hotLeads metrics / totalLeads metrics) * hundred)%float)
       ++ lit "%"
  else lit "0%".

Definition fakeRate : jsstring :=
  if (0 <? totalLeads metrics)%float
  then Number_toString rt
         (Math_round ((fakeLeads metrics / totalLeads metrics) * hundred)%float)
       ++ lit "%"
  else lit "0%".

Definition aiReplyCoverage : jsstring :=
  if (0 <? whatsappIn metrics)%float
  then Number_toString rt
         (Math_round ((whatsappOutAI metrics / whatsappIn metrics) * hundred)%float)
       ++ lit "%"
  else lit "0%".
End Tab.
End InsightsTab.

(* ================================================================== *)
(** ** A runtime for the worked examples

    An engine whose clock is UTC. It reads the two forms of a date the
    language prescribes, [YYYY-MM-DD] (midnight UTC) and
    [YYYY-MM-DDTHH:mm:ss.sssZ], and takes a date given as any other text, or
    not as a string, as invalid; it prints integers as the language does. *)

Module SampleRuntime.

Definition digit (c : N) : option Z :=
  if (N.leb 48 c && N.leb c 57)%bool then Some (Z.of_N c - 48)%Z else None.

Fixpoint number (l : list N) (acc : Z) : option Z :=
  match l with
  | [] => Some acc
  | c :: rest =>
      match digit c with
      | Some d => number rest (10 * acc + d)%Z
      | None => None
      end
  end.

Definition is_leap (y : Z) : bool :=
  ((y mod 4 =? 0) && (negb (y mod 100 =? 0) || (y mod 400 =? 0)))%Z%bool.

Definition days_in_month (y m : Z) : Z :=
  if (m =? 2)%Z then (if is_leap y then 29 else 28)%Z
  else if ((m =? 4) || (m =? 6) || (m =? 9) || (m =? 11))%Z%bool then 30%Z
  else 31%Z.

(** Days from 1970-01-01 to the civil date [y]-[m]-[d]. *)
Definition days_from_civil (y m d : Z) : Z :=
  (let y' := if m <=? 2 then y - 1 else y in
   let era := y' / 400 in
   let yoe := y' - era * 400 in
   let mp := if m <=? 2 then m + 9 else m - 3 in
   let doy := (153 * mp + 2) / 5 + d - 1 in
   let doe := yoe * 365 + yoe / 4 - yoe / 100 + doy in
   era * 146097 + doe - 719468)%Z.

Definition ms_per_day : Z := 86400000.

(** The time value of [YYYY-MM-DD]. *)
Definition date_only (s : jsstring) : option Z :=
  match s with
  | [y1; y2; y3; y4; dash1; m1; m2; dash2; d1; d2] =>
      if (N.eqb dash1 45 && N.eqb dash2 45)%bool then
        match number [y1; y2; y3; y4] 0, number [m1; m2] 0, number [d1; d2] 0 with
        | Some y, Some m, Some d =>
            if ((1 <=? m) && (m <=? 12) && (1 <=? d) && (d <=? days_in_month y m))%Z%bool
            then Some (days_from_civil y m d * ms_per_day)%Z
            else None
        | _, _, _ => None
        end
      else None
  | _ => None
  end.

(** The time value of [YYYY-MM-DDTHH:mm:ss.sssZ], the form [toISOString]
    writes. *)
Definition date_time (s : jsstring) : option Z :=
  match date_only (firstn 10 s), skipn 10 s with
  | Some day, [t; h1; h2; c1; n1; n2; c2; s1; s2; dot; f1; f2; f3; z] =>
      match number [h1; h2] 0, number [n1; n2] 0, number [s1; s2] 0,
            number [f1; f2; f3] 0 with
      | Some h, Some n, Some sec, Some ms =>
          if (N.eqb t 84 && N.eqb c1 58 && N.eqb c2 58 && N.eqb dot 46
              && N.eqb z 90 && (h <? 24)%Z && (n <? 60)%Z && (sec <? 60)%Z)%bool
          then Some (day + ((h * 60 + n) * 60 + sec) * 1000 + ms)%Z
          else None
      | _, _, _, _ => None
      end
  | _, _ => None
  end.

Definition getTime (v : JSValue) : option Z :=
  match v with
  | JStr s =>
      match date_only s with
      | Some t => Some t
      | None => date_time s
      end
  | _ => None
  end.

(** [YYYY-MM-DDTHH:mm], the value of a datetime-local input, on a UTC
    clock. *)
Definition toISOString (s : jsstring) : option jsstring :=
  match date_only (firstn 10 s), skipn 10 s with
  | Some _, [t; h1; h2; colon; n1; n2] =>
      match number [h1; h2] 0, number [n1; n2] 0 with
      | Some h, Some n =>
          if (N.eqb t 84 && N.eqb colon 58 && (h <? 24)%Z && (n <? 60)%Z)%bool
          then Some (s ++ lit ":00.000Z")
          else None
      | _, _ => None
      end
  | _, _ => None
  end.

(** Integers print as their digits; the fraction of another number is
    dropped, which no example prints. *)
Definition print_number (x : float) : jsstring :=
  match Prim2SF x with
  | S754_nan => lit "NaN"
  | S754_zero _ => lit "0"
  | S754_infinity false => lit "Infinity"
  | S754_infinity true => lit "-Infinity"
  | S754_finite s m e =>
      (if s then lit "-" else []) ++ digits (Z.to_N (Z.shiftl (Zpos m) e))
  end.

Fixpoint String_of (v : JSValue) : jsstring :=
  match v with
  | JUndefined => lit "undefined"
  | JNull => lit "null"
  | JBool true => lit "true"
  | JBool false => lit "false"
  | JNum n => print_number n
  | JStr s => s
  | JArr items =>
      (fix join (l : list JSValue) : jsstring :=
         match l with
         | [] => []
         | x :: rest =>
             (if is_nullish x then [] else String_of x)
             ++ match rest with [] => [] | _ => lit "," ++ join rest end
         end) items
  | JObj _ => lit "[object Object]"
  end.

Definition message (e : Exn) : jsstring :=
  match e with
  | TypeError => lit "Cannot read properties of null"
  | SyntaxError => lit "Unexpected end of JSON input"
  | RangeError => lit "Invalid time value"
  | UserError m | FetchFailed m => m
  end.

Definition rt : Runtime :=
  {| Date_getTime := getTime;
     Date_toISOString := toISOString;
     Number_toString := print_number;
     Object_toString := fun v => Ok (String_of v);
     engine_message := message |}.
End SampleRuntime.

(* ================================================================== *)
(** ** Notions the properties are stated with *)

(** A string of white space only (the empty string included). *)
Definition blank (s : jsstring) : bool := forallb is_whitespace s.

(** The fetch did not bring a usable response: the request failed, or the
    status is not a success status. *)
Definition fetch_failed (o : FetchOutcome) : bool :=
  match o with
  | NetworkFailure _ => true
  | Responded r => negb (ok r)
  end.

(** The visits a filter callback keeps. *)
Definition candidates (belongs : JSValue -> result bool) (visits : list JSValue)
  : list JSValue :=
  filter (fun v => match belongs v with Ok true => true | _ => false end) visits.

(** The time value of a visit's [date], when the date is valid. *)
Definition time_of (rt : Runtime) (v : JSValue) : option Z :=
  match get v "date" with
  | Ok d => Date_getTime rt d
  | Raise _ => None
  end.

(** [v] is one of [cands], it has a date, and no dated visit of [cands] is
    later. *)
Definition is_latest (rt : Runtime) (cands : list JSValue) (v : JSValue) : Prop :=
  In v cands /\
  exists t, time_of rt v = Some t /\
            forall w t', In w cands -> time_of rt w = Some t' -> (t' <= t)%Z.

(** The conversation shown is an empty list and an error is signalled. *)
Definition empty_with_error (st : PageState) : Prop :=
  get (lead st) "messages" = Ok (JArr []) /\ error st <> None.

(** An object payload that carries no messages: neither [messages] nor
    [data.messages] holds a value. *)
Definition without_messages (props : list (jsstring * JSValue)) : Prop :=
  is_nullish (lookup "messages" props) = true /\
  exists d, get_opt (lookup "data" props) "messages" = Ok d /\ is_nullish d = true.

(** The shapes of a visit's reference to its lead. *)
Definition refers_bare (leadId : jsstring) (v : JSValue) : Prop :=
  get v "leadId" = Ok (JStr leadId).

Definition refers_embedded (leadId : jsstring) (v : JSValue) : Prop :=
  exists lprops, get v "leadId" = Ok (JObj lprops) /\
                 lookup "_id" lprops = JStr leadId.

(** No reference: [leadId] is absent, [null] or empty. *)
Definition no_reference (v : JSValue) : Prop :=
  exists l, get v "leadId" = Ok l /\ ToBoolean l = false.

(** A reference to another lead, bare or embedded. *)
Definition refers_elsewhere (leadId : jsstring) (v : JSValue) : Prop :=
  (exists other, get v "leadId" = Ok (JStr other) /\ other <> leadId) \/
  (exists lprops, get v "leadId" = Ok (JObj lprops) /\
                  lookup "_id" lprops <> JStr leadId /\
                  lookup "id" lprops <> JStr leadId).

(** The body as [handleSubmit] reads it: what [res.json()] gives, and the
    empty object when that fails. *)
Definition body_or_empty (res : Response) : JSValue :=
  match body res with
  | Json v => v
  | EmptyBody | NotJson => JObj []
  end.

(** What [handleSubmit] makes of the answer: nothing to report, or the
    exception its [try] block ends with. *)
Definition booking_verdict (rt : Runtime) (res : Response) : result unit :=
  let data := body_or_empty res in
  let? failed := VisitBookingModal.booking_failed res data in
  if failed then
    let? text := VisitBookingModal.failure_text res data in
    let? message := VisitBookingModal.ToString rt text in
    Raise (UserError message)
  else Ok tt.

(** The modal after the submission: not loading, with the given error. *)
Definition submitted (st : VisitBookingModal.ModalState) (e : option jsstring)
  : VisitBookingModal.ModalState :=
  {| VisitBookingModal.date := VisitBookingModal.date st;
     VisitBookingModal.timeSlot := VisitBookingModal.timeSlot st;
     VisitBookingModal.familyComing := VisitBookingModal.familyComing st;
     VisitBookingModal.pickupRequired := VisitBookingModal.pickupRequired st;
     VisitBookingModal.notes := VisitBookingModal.notes st;
     VisitBookingModal.loading := false;
     VisitBookingModal.error := e |}.

(** The events of [handleSend] on the second page up to the answer of the
    backend. *)
Definition sending_events (leadId text : jsstring) : list Event :=
  [Console Log "handleSend: POST to";
   Fetch (PageB.POST_reply leadId text);
   Console Log "handleSend: status";
   Console Log "handleSend: raw response:"].

(** The template [`${Math.round((num / den) * 100)}%`]. *)
Definition percent_of (rt : Runtime) (num den : float) : jsstring :=
  Number_toString rt
    (InsightsTab.Math_round ((num / den) * InsightsTab.hundred)%float)
  ++ lit "%".

(** What the insights tab shows, each with the counts it is computed from. *)
Definition shown (rt : Runtime) (m : InsightsTab.Metrics)
  : list (jsstring * float * float) :=
  [(InsightsTab.hotShare rt m, InsightsTab.hotLeads m, InsightsTab.totalLeads m);
   (InsightsTab.fakeRate rt m, InsightsTab.fakeLeads m, InsightsTab.totalLeads m);
   (InsightsTab.aiReplyCoverage rt m, InsightsTab.whatsappOutAI m,
    InsightsTab.whatsappIn m)].

(* ================================================================== *)
(** ** Data of the worked examples *)

Module Examples.
Definition L1 : jsstring := lit "L1".

Definition hello : JSValue :=
  JObj [(lit "from", JStr (lit "lead")); (lit "text", JStr (lit "hello"))].

(** A page that has loaded a conversation of one message. *)
Definition loaded_page : PageState :=
  {| lead := JObj [(lit "leadId", JStr L1); (lit "name", JStr (lit "Asha"));
                   (lit "messages", JArr [hello])];
     loading := false; error := None; input := [];
     sending := false; latestVisit := JNull; showVisitModal := false |}.

Definition respond (s : N) (b : Body) : FetchOutcome :=
  Responded {| status := s; body := b |}.

(** [{ "name": "Asha", "messages": [hello] }], without [leadId]. *)
Definition payload_without_leadId : JSValue :=
  JObj [(lit "name", JStr (lit "Asha")); (lit "messages", JArr [hello])].

(** [{ "leadId": "L7", "messages": [] }]: the payload names its lead. *)
Definition payload_of_L7 : JSValue :=
  JObj [(lit "leadId", JStr (lit "L7")); (lit "messages", JArr [])].

(** A page on which the operator typed [text]. *)
Definition typed (text : jsstring) : PageState :=
  {| lead := JNull; loading := false; error := None; input := text;
     sending := false; latestVisit := JNull; showVisitModal := false |}.

Definition visit (id : string) (leadRef : JSValue) (d : string) : JSValue :=
  JObj [(lit "_id", JStr (lit id)); (lit "date", JStr (lit d));
        (lit "timeSlot", JStr (lit "morning"));
        (lit "visitStatus", JStr (lit "pending"));
        (lit "leadId", leadRef)].

Definition visit_jan1 : JSValue := visit "v1" (JStr L1) "2024-01-01".
Definition visit_jan3 : JSValue :=
  visit "v3" (JObj [(lit "_id", JStr L1); (lit "name", JStr (lit "Asha"))]) "2024-01-03".
Definition visit_undated : JSValue := visit "v0" (JStr L1) "soon".
Definition visit_other : JSValue := visit "v9" (JStr (lit "L2")) "2024-02-01".
Definition visit_unowned : JSValue :=
  JObj [(lit "_id", JStr (lit "v8")); (lit "date", JStr (lit "2024-03-01"))].

Definition visits_payload (vs : list JSValue) : Body :=
  Json (JObj [(lit "visits", JArr vs)]).
End Examples.

Module ModalExamples.
(** The form as it opens, and with a date picked. *)
Definition opened : VisitBookingModal.ModalState :=
  {| VisitBookingModal.date := [];
     VisitBookingModal.timeSlot := lit "morning";
     VisitBookingModal.familyComing := false;
     VisitBookingModal.pickupRequired := false;
     VisitBookingModal.notes := [];
     VisitBookingModal.loading := false;
     VisitBookingModal.error := None |}.

Definition picked : VisitBookingModal.ModalState :=
  {| VisitBookingModal.date := lit "2024-01-03T10:30";
     VisitBookingModal.timeSlot := lit "morning";
     VisitBookingModal.familyComing := true;
     VisitBookingModal.pickupRequired := false;
     VisitBookingModal.notes := lit "gate 2";
     VisitBookingModal.loading := false;
     VisitBookingModal.error := None |}.

(** HTTP 200 with [{ "ok": false, "error": "Slot taken" }]. *)
Definition refused : Response :=
  {| status := 200;
     body := Json (JObj [(lit "ok", JBool false);
                         (lit "error", JStr (lit "Slot taken"))]) |}.

(** HTTP 200 with [{ "ok": true }]. *)
Definition accepted : Response :=
  {| status := 200; body := Json (JObj [(lit "ok", JBool true)]) |}.

(** HTTP 200 with a page of HTML. *)
Definition html : Response := {| status := 200; body := NotJson |}.
End ModalExamples.

Module MetricsExamples.
Definition counts (total hot fake wa_in wa_out : float) : InsightsTab.Metrics :=
  {| InsightsTab.totalLeads := total;
     InsightsTab.hotLeads := hot;
     InsightsTab.warmLeads := 0;
     InsightsTab.coldLeads := 0;
     InsightsTab.fakeLeads := fake;
     InsightsTab.convertedLeads := 0;
     InsightsTab.conversionRate := 0;
     InsightsTab.followupsSent := 0;
     InsightsTab.followupsScheduled := 0;
     InsightsTab.whatsappIn := wa_in;
     InsightsTab.whatsappOutAI := wa_out;
     InsightsTab.stageChanges := 0 |}.

(** No lead and no message yet. *)
Definition quiet : InsightsTab.Metrics := counts 0 0 0 0 0.

(** 200 leads, 29 of them hot and one fake; 40 messages in, 10 AI replies. *)
Definition busy : InsightsTab.Metrics := counts 200 29 1 40 10.

(** Counts beyond the range of a number: [JSON.parse] reads the literal
    [1e999] as [Infinity]. *)
Definition overflowed : InsightsTab.Metrics :=
  counts PrimFloat.infinity PrimFloat.infinity 0 0 0.

(** A total below zero. *)
Definition negative : InsightsTab.Metrics := counts (-4) 1 0 0 0.
End MetricsExamples.

(* ================================================================== *)
(** ** The lead page: what the render reads and the handlers it wires *)

Definition setShowVisitModal (b : bool) : M PageState unit :=
  modify (fun s => {| lead := lead s; loading := loading s; error := error s;
                      input := input s; sending := sending s;
                      latestVisit := latestVisit s;
                      showVisitModal := b |}).

(** The first file. *)
Module PageA_view.
Section View.
Variable rt : Runtime.
Variable leadId : jsstring.

(** [{lead?.phone || ""}] *)
Definition header_phone (st : PageState) : result JSValue :=
  logical_or (get_opt (lead st) "phone") (Ok (JStr [])).

(** The condition of the notice [No messages yet for this lead.]:
    [!loading && lead?.messages?.length === 0]. *)
Definition empty_notice (st : PageState) : result bool :=
  and_then (Ok (negb (loading st)))
    (let? ms := get_opt (lead st) "messages" in
     let? len := get_opt ms "length" in
     Ok (strict_equals len (JNum 0%float))).

(** The bubbles, [lead?.messages?.map(msg => ...)]: the same expression as
    in the second file. *)
Definition render_messages (st : PageState) : result (list (bool * JSValue)) :=
  PageB.render_messages st.

(** [disabled={sending || !input.trim()}] of the send button. *)
Definition send_disabled (st : PageState) : bool :=
  (sending st || is_empty (trim (input st)))%bool.

(** [onKeyDown] of the input box:
    [if (e.key === "Enter") { e.preventDefault(); handleSend(); }].
    [preventDefault] acts on the browser's event only. *)
Definition onKeyDown (key : jsstring) (reply refetch : FetchOutcome)
  : M PageState unit :=
  if jsstring_eqb key "Enter" then PageA.handleSend rt leadId reply refetch
  else ret tt.

(** [onSuccess] of the modal:
    [setShowVisitModal(false); loadVisitBanner(leadId);]. *)
Definition onSuccess (o : FetchOutcome) : M PageState unit :=
  setShowVisitModal false ;;
  PageA.loadVisitBanner rt leadId o.
End View.
End PageA_view.

(** The second file. *)
Module PageB_view.
Section View.
Variable rt : Runtime.
Variable leadId : jsstring.

(** [{lead?.phone || ""}] *)
Definition header_phone (st : PageState) : result JSValue :=
  logical_or (get_opt (lead st) "phone") (Ok (JStr [])).

(** The condition of the notice:
    [!loading && (!lead || (lead.messages && lead.messages.length === 0))],
    as a condition: whether its value is truthy. *)
Definition empty_notice (st : PageState) : result bool :=
  and_then (Ok (negb (loading st)))
    (or_else (Ok (negb (ToBoolean (lead st))))
       (let? ms := get (lead st) "messages" in
        if ToBoolean ms then
          let? len := get ms "length" in
          Ok (strict_equals len (JNum 0%float))
        else Ok false)).

(** [disabled={sending || !input.trim()}] of the send button. *)
Definition send_disabled (st : PageState) : bool :=
  (sending st || is_empty (trim (input st)))%bool.

(** [onKeyDown] of the input box. *)
Definition onKeyDown (key : jsstring) (reply refetch : FetchOutcome)
  : M PageState unit :=
  if jsstring_eqb key "Enter" then PageB.handleSend rt leadId reply refetch
  else ret tt.

(** [onSuccess] of the modal:
    [setShowVisitModal(false); await fetchLatestVisit(leadId);]. *)
Definition onSuccess (o : FetchOutcome) : M PageState unit :=
  async (
    setShowVisitModal false ;;
    PageB.fetchLatestVisit rt leadId o).
End View.
End PageB_view.

(* ================================================================== *)
(** ** The API client ([lib/api.ts])

    Its requests go to the constant base of that file; [path] is what
    follows it. Each function returns what [res.json()] gives. *)

Module api.

Definition GET_lead (id : jsstring) : Request :=
  {| method := GET; path := lit "/api/leads/" ++ id; payload := NoBody |}.

Definition GET_summary : Request :=
  {| method := GET; path := lit "/api/analytics/summary"; payload := NoBody |}.

Definition GET_coach (leadId : jsstring) : Request :=
  {| method := GET; path := lit "/api/coach/" ++ leadId; payload := NoBody |}.

(** [body: JSON.stringify({ message })] *)
Definition POST_reply (leadId : jsstring) (message : JSValue) : Request :=
  {| method := POST;
     path := lit "/api/leads/" ++ leadId ++ lit "/reply";
     payload := JsonBody (JObj [(lit "message", message)]) |}.

Section Calls.
Context {S : Type}.

Definition fetchLeadDetail (id : jsstring) (o : FetchOutcome) : M S JSValue :=
  res <- fetch (GET_lead id) o ;;
  (if negb (ok res)
   then throw (UserError (lit "Failed to load lead: " ++ digits (status res)))
   else ret tt) ;;
  res_json res.

Definition fetchAnalyticsSummary (o : FetchOutcome) : M S JSValue :=
  res <- fetch GET_summary o ;;
  (if negb (ok res)
   then throw (UserError (lit "Failed to load analytics"))
   else ret tt) ;;
  res_json res.

Definition fetchCoachAdvice (leadId : jsstring) (o : FetchOutcome) : M S JSValue :=
  res <- fetch (GET_coach leadId) o ;;
  (if negb (ok res)
   then throw (UserError (lit "Failed to load coach advice"))
   else ret tt) ;;
  res_json res.

Definition sendCoachReply (leadId : jsstring) (message : JSValue)
  (o : FetchOutcome) : M S JSValue :=
  res <- fetch (POST_reply leadId message) o ;;
  (if negb (ok res)
   then throw (UserError (lit "Failed to send reply"))
   else ret tt) ;;
  res_json res.
End Calls.
End api.

(* ================================================================== *)
(** ** The sales coach panel *)

Module SalesCoachPanel.

(** The [useState] cells of the panel. What the backend sends is stored
    as it comes, so the cells it fills hold values. *)
Record PanelState : Type := {
  advice : JSValue;          (* CoachAdvice | null *)
  loading : bool;
  sending : bool;
  error : JSValue;           (* string | null *)
  selectedReply : JSValue;   (* string *)
  lead : JSValue
}.

Definition setAdvice (v : JSValue) : M PanelState unit :=
  modify (fun s => {| advice := v; loading := loading s; sending := sending s;
                      error := error s; selectedReply := selectedReply s;
                      lead := lead s |}).

Definition setLoading (b : bool) : M PanelState unit :=
  modify (fun s => {| advice := advice s; loading := b; sending := sending s;
                      error := error s; selectedReply := selectedReply s;
                      lead := lead s |}).

Definition setSending (b : bool) : M PanelState unit :=
  modify (fun s => {| advice := advice s; loading := loading s; sending := b;
                      error := error s; selectedReply := selectedReply s;
                      lead := lead s |}).

Definition setError (v : JSValue) : M PanelState unit :=
  modify (fun s => {| advice := advice s; loading := loading s;
                      sending := sending s; error := v;
                      selectedReply := selectedReply s; lead := lead s |}).

Definition setSelectedReply (v : JSValue) : M PanelState unit :=
  modify (fun s => {| advice := advice s; loading := loading s;
                      sending := sending s; error := error s;
                      selectedReply := v; lead := lead s |}).

Definition setLead (v : JSValue) : M PanelState unit :=
  modify (fun s => {| advice := advice s; loading := loading s;
                      sending := sending s; error := error s;
                      selectedReply := selectedReply s; lead := v |}).

(** The panel as it mounts. *)
Definition initial_panel : PanelState :=
  {| advice := JNull; loading := false; sending := false; error := JNull;
     selectedReply := JStr []; lead := JNull |}.

(** [v.trim()]: only a string has the method. *)
Definition call_trim (v : JSValue) : result jsstring :=
  match v with
  | JStr s => Ok (trim s)
  | _ => Raise TypeError
  end.

Section Panel.
Variable rt : Runtime.
Variable leadId : jsstring.

(** The poller of the lead snapshot. *)
Definition fetchLeadDetails (o : FetchOutcome) : M PanelState unit :=
  async (
    try_catch
      (res <- fetch (GET_messages leadId) o ;;
       if ok res then
         data <- res_json res ;;
         setLead data
       else ret tt)
      (fun err => console Error "Lead detail load error:")).

(** [res.ok && res.advice], on the payload [res]. *)
Definition has_advice (res : JSValue) : result bool :=
  and_then (let? k := get res "ok" in Ok (ToBoolean k))
           (let? a := get res "advice" in Ok (ToBoolean a)).

(** The loader of the advice. [cancelled] is the flag of the effect as it
    stands when the awaited call settles: every reading of it comes after
    that, in one run. *)
Definition load (cancelled : bool) (o : FetchOutcome) : M PanelState unit :=
  async (
    try_finally
      (try_catch
         (setLoading true ;;
          setError JNull ;;
          res <- api.fetchCoachAdvice leadId o ;;
          if negb cancelled then
            found <- lift (has_advice res) ;;
            if found then
              a <- lift (get res "advice") ;;
              setAdvice a ;;
              reply <- lift (logical_or
                               (let? a' := get res "advice" in get a' "suggestedReply")
                               (Ok (JStr []))) ;;
              setSelectedReply reply
            else
              e <- lift (logical_or
                           (get res "error")
                           (Ok (JStr (lit "No AI advice available for this lead.")))) ;;
              setError e
          else ret tt)
         (fun err =>
            if negb cancelled then
              console Error "" ;;
              setError (JStr (message_or rt err "Failed to load AI coach"))
            else ret tt))
      (if negb cancelled then setLoading false else ret tt)).

Definition handleSend (o : FetchOutcome) : M PanelState unit :=
  async (
    st <- read ;;
    text <- lift (call_trim (selectedReply st)) ;;
    if is_empty text then return_ else
    try_finally
      (try_catch
         (setSending true ;;
          setError JNull ;;
          res <- api.sendCoachReply leadId (selectedReply st) o ;;
          k <- lift (get res "ok") ;;
          if negb (ToBoolean k) then
            text <- lift (logical_or (get res "error")
                                     (Ok (JStr (lit "Failed to send")))) ;;
            message <- lift (VisitBookingModal.ToString rt text) ;;
            throw (UserError message)
          else ret tt)
         (fun err =>
            console Error "" ;;
            setError (JStr (message_or rt err "Failed to send reply"))))
      (setSending false)).

End Panel.
End SalesCoachPanel.

(* ================================================================== *)
(** ** The analytics dashboard: the page *)

Module DashboardPage.

Inductive TabKey := overview | insights.

Record DashboardState : Type := {
  tab : TabKey;
  data : JSValue;            (* AnalyticsResponse | null *)
  loading : bool;
  error : option jsstring
}.

Definition setData (v : JSValue) : M DashboardState unit :=
  modify (fun s => {| tab := tab s; data := v; loading := loading s;
                      error := error s |}).

Definition setLoading (b : bool) : M DashboardState unit :=
  modify (fun s => {| tab := tab s; data := data s; loading := b;
                      error := error s |}).

Definition setError (e : option jsstring) : M DashboardState unit :=
  modify (fun s => {| tab := tab s; data := data s; loading := loading s;
                      error := e |}).

(** The page as it mounts: on the insights tab, loading. *)
Definition initial_dashboard : DashboardState :=
  {| tab := insights; data := JNull; loading := true; error := None |}.

Section Page.
Variable rt : Runtime.

(** [load] of the mount effect; [cancelled] is the flag as it stands when
    the awaited call settles. *)
Definition load (cancelled : bool) (o : FetchOutcome) : M DashboardState unit :=
  async (
    try_finally
      (try_catch
         (setLoading true ;;
          res <- api.fetchAnalyticsSummary o ;;
          if negb cancelled then
            setData res ;;
            setError None
          else ret tt)
         (fun err =>
            if negb cancelled then
              console Error "" ;;
              setError (Some (message_or rt err "Failed to load analytics"))
            else ret tt))
      (if negb cancelled then setLoading false else ret tt)).
End Page.

(** [data?.metrics] *)
Definition metrics (st : DashboardState) : result JSValue :=
  get_opt (data st) "metrics".

(** [{loading && ...}] *)
Definition shows_loading (st : DashboardState) : bool := loading st.

(** [{error && !loading && ...}]: [error] is a string or [null]. *)
Definition shows_error (st : DashboardState) : bool :=
  match error st with
  | Some e => (negb (is_empty e) && negb (loading st))%bool
  | None => false
  end.

(** [{!loading && !error && metrics && data && ...}] *)
Definition shows_tab (st : DashboardState) : result bool :=
  and_then (Ok (negb (loading st)))
    (and_then (Ok (match error st with
                   | Some e => is_empty e
                   | None => true
                   end))
       (and_then (let? m := metrics st in Ok (ToBoolean m))
                 (Ok (ToBoolean (data st))))).

(** [formatEventType]: a [switch] on the type, by strict equality. *)
Definition formatEventType (type : JSValue) : JSValue :=
  if strict_equals type (JStr (lit "lead_created"))
  then JStr (lit "New lead captured")
  else if strict_equals type (JStr (lit "lead_converted"))
  then JStr (lit "Lead converted")
  else if strict_equals type (JStr (lit "lead_lost"))
  then JStr (lit "Lead marked lost")
  else if strict_equals type (JStr (lit "lead_assigned"))
  then JStr (lit "Lead assigned")
  else if strict_equals type (JStr (lit "followup_scheduled"))
  then JStr (lit "Follow-up scheduled")
  else if strict_equals type (JStr (lit "followup_sent"))
  then JStr (lit "Follow-up sent")
  else if strict_equals type (JStr (lit "whatsapp_in"))
  then JStr (lit "WhatsApp message received")
  else if strict_equals type (JStr (lit "whatsapp_out_ai"))
  then JStr (lit "AI reply sent")
  else if strict_equals type (JStr (lit "stage_changed"))
  then JStr (lit "Pipeline stage changed")
  else type.

(** The types [formatEventType] knows. *)
Definition known_event_types : list jsstring :=
  [lit "lead_created"; lit "lead_converted"; lit "lead_lost";
   lit "lead_assigned"; lit "followup_scheduled"; lit "followup_sent";
   lit "whatsapp_in"; lit "whatsapp_out_ai"; lit "stage_changed"].


Section Events.
(** [new Date(v).toLocaleString('en-IN', {...})], which raises nothing. *)
Variable toLocaleString : JSValue -> jsstring.





End Events.
End DashboardPage.

(* ================================================================== *)
(** ** The team page *)

Module TeamPage.

Record TeamState : Type := {
  agents : JSValue;          (* AgentStats[] *)
  loading : bool;
  error : option jsstring
}.

Definition setAgents (v : JSValue) : M TeamState unit :=
  modify (fun s => {| agents := v; loading := loading s; error := error s |}).

Definition setLoading (b : bool) : M TeamState unit :=
  modify (fun s => {| agents := agents s; loading := b; error := error s |}).

Definition setError (e : option jsstring) : M TeamState unit :=
  modify (fun s => {| agents := agents s; loading := loading s; error := e |}).

Definition initial_team : TeamState :=
  {| agents := JArr []; loading := false; error := None |}.

Definition GET_stats : Request :=
  {| method := GET; path := lit "/api/agents/stats"; payload := NoBody |}.

Section Page.
Variable rt : Runtime.

Definition loadStats (o : FetchOutcome) : M TeamState unit :=
  async (
    try_finally
      (try_catch
         (setLoading true ;;
          setError None ;;
          res <- fetch GET_stats o ;;
          (if negb (ok res)
           then throw (UserError (lit "API error: " ++ digits (status res)))
           else ret tt) ;;
          data <- res_json res ;;
          found <- lift (logical_or (get data "agents") (Ok (JArr []))) ;;
          setAgents found)
         (fun err =>
            console Error "" ;;
            setError (Some (message_or rt err "Failed to load team stats"))))
      (setLoading false)).
End Page.
End TeamPage.

(* ================================================================== *)
(** ** More notions the properties are stated with *)

(** The page with another conversation, loading flag and error. *)
Definition with_conversation (l : JSValue) (lo : bool) (e : option jsstring)
  (st : PageState) : PageState :=
  {| lead := l; loading := lo; error := e; input := input st;
     sending := sending st; latestVisit := latestVisit st;
     showVisitModal := showVisitModal st |}.

(** The page with another banner, or the same. *)
Definition with_banner (u : option JSValue) (st : PageState) : PageState :=
  match u with
  | Some v => {| lead := lead st; loading := loading st; error := error st;
                 input := input st; sending := sending st; latestVisit := v;
                 showVisitModal := showVisitModal st |}
  | None => st
  end.

(** Two states of the page that differ at most in the banner. *)
Definition same_but_banner (a b : PageState) : Prop :=
  lead b = lead a /\ loading b = loading a /\ error b = error a /\
  input b = input a /\ sending b = sending a /\
  showVisitModal b = showVisitModal a.

(** Two states of the page that differ at most in the conversation, the
    loading flag and the error. *)
Definition same_but_conversation (a b : PageState) : Prop :=
  input b = input a /\ sending b = sending a /\
  latestVisit b = latestVisit a /\ showVisitModal b = showVisitModal a.



(** The messages of a payload, as the normalizer finds them: the first of
    [data.messages], the payload itself when it is an array,
    [data.data.messages] and the empty list that holds a value. *)
Definition payload_messages (data : JSValue) : JSValue :=
  match get data "messages" with
  | Ok m =>
      if negb (is_nullish m) then m
      else if isArray data then data
      else match (let? d := get data "data" in get_opt d "messages") with
           | Ok dm => if is_nullish dm then JArr [] else dm
           | Raise _ => JArr []
           end
  | Raise _ => JArr []
  end.

(** What [handleSend] of the panel makes of the answer to its request:
    nothing to report, or the exception its [try] block ends with. *)
Definition reply_verdict (rt : Runtime) (o : FetchOutcome) : result unit :=
  match o with
  | NetworkFailure m => Raise (FetchFailed m)
  | Responded res =>
      if ok res then
        match body res with
        | Json data =>
            let? k := get data "ok" in
            if negb (ToBoolean k) then
              let? text := logical_or (get data "error")
                                      (Ok (JStr (lit "Failed to send"))) in
              let? message := VisitBookingModal.ToString rt text in
              Raise (UserError message)
            else Ok tt
        | _ => Raise SyntaxError
        end
      else Raise (UserError (lit "Failed to send reply"))
  end.

(** Whether a value is one of the types [formatEventType] knows. *)
Definition is_known_event (type : JSValue) : bool :=
  existsb (fun k => strict_equals type (JStr k)) DashboardPage.known_event_types.

(** [v] is the first of the latest visits of [cands]: it has a date, the
    visits listed before it are earlier, and those listed after it are not
    later. *)
Definition first_of_latest (rt : Runtime) (cands : list JSValue) (v : JSValue) : Prop :=
  exists t before after,
    cands = before ++ v :: after /\ time_of rt v = Some t /\
    (forall w tw, In w before -> time_of rt w = Some tw -> (tw < t)%Z) /\
    (forall w tw, In w after -> time_of rt w = Some tw -> (tw <= t)%Z).

(* ================================================================== *)
(** ** More data of the worked examples *)

Module BookingExamples.
(** The booking form with a date that no engine reads (a month 13). *)
Definition misdated : VisitBookingModal.ModalState :=
  {| VisitBookingModal.date := lit "2024-13-03T10:30";
     VisitBookingModal.timeSlot := lit "morning";
     VisitBookingModal.familyComing := false;
     VisitBookingModal.pickupRequired := false;
     VisitBookingModal.notes := [];
     VisitBookingModal.loading := false;
     VisitBookingModal.error := None |}.
End BookingExamples.

Module PanelExamples.
(** The panel with a reply picked from the templates. *)
Definition picked : SalesCoachPanel.PanelState :=
  {| SalesCoachPanel.advice := JNull;
     SalesCoachPanel.loading := false;
     SalesCoachPanel.sending := false;
     SalesCoachPanel.error := JNull;
     SalesCoachPanel.selectedReply := JStr (lit " Namaste ");
     SalesCoachPanel.lead := JNull |}.

(** The panel whose reply box holds a number, the [suggestedReply] of an
    advice that was not a text. *)
Definition misfilled : SalesCoachPanel.PanelState :=
  {| SalesCoachPanel.advice := JNull;
     SalesCoachPanel.loading := false;
     SalesCoachPanel.sending := false;
     SalesCoachPanel.error := JNull;
     SalesCoachPanel.selectedReply := JNum 7%float;
     SalesCoachPanel.lead := JNull |}.

(** HTTP 200 with [{ "ok": false }]. *)
Definition declined : FetchOutcome :=
  Responded {| status := 200; body := Json (JObj [(lit "ok", JBool false)]) |}.
End PanelExamples.

Module EventExamples.


End EventExamples.

Module TieExamples.
(** Two visits of the lead booked for the same day. *)
Definition morning : JSValue := Examples.visit "m" (JStr Examples.L1) "2024-01-03".
Definition evening : JSValue := Examples.visit "e" (JStr Examples.L1) "2024-01-03".
End TieExamples.

Module DashboardExamples.
End DashboardExamples.

(* ================================================================== *)
(** * Properties *)

Unset Implicit Arguments.

(* ================================================================== *)
(** ** Strings and lookups *)

Lemma jsstring_eqb_refl (s : jsstring) : jsstring_eqb s s = true.
Proof.
  induction s as [|c s IH]; simpl; [reflexivity|].
  now rewrite N.eqb_refl, IH.
Qed.

Lemma jsstring_eqb_eq (a b : jsstring) : jsstring_eqb a b = true <-> a = b.
Proof.
  split.
  - revert b. induction a as [|x a IH]; destruct b as [|y b]; simpl;
      try discriminate; [reflexivity|].
    intros H. apply andb_true_iff in H as [Hx Hr].
    apply N.eqb_eq in Hx. apply IH in Hr. now subst.
  - intros ->. apply jsstring_eqb_refl.
Qed.

Lemma jsstring_eqb_neq (a b : jsstring) : a <> b -> jsstring_eqb a b = false.
Proof.
  intros H. destruct (jsstring_eqb a b) eqn:E; [|reflexivity].
  apply jsstring_eqb_eq in E. contradiction.
Qed.

Lemma is_empty_false (s : jsstring) : s <> [] -> is_empty s = false.
Proof. destruct s; [contradiction|reflexivity]. Qed.

(** Comparisons of two literals of the source are decided by computation. *)
Ltac literals :=
  repeat match goal with
    | |- context [jsstring_eqb (lit ?a) (lit ?b)] =>
        let r := eval vm_compute in (jsstring_eqb (lit a) (lit b)) in
        change (jsstring_eqb (lit a) (lit b)) with r
    end.

(** Running a statement: the combinators of [M] and the state setters are
    unfolded, the values they are applied to are left alone. *)
Ltac run :=
  cbv beta iota zeta delta
    [async try_finally try_catch bind ret throw return_ modify read emit lift
     console fetch res_json setLead setLoading setError setInput setSending
     setLatestVisit completion state_after trace PageB.parse_or_null];
  cbn [app fst snd body status
       lead loading error input sending latestVisit showVisitModal].

(* ================================================================== *)
(** ** The normalizer *)

(** Reading a property of a value that is not [null] or [undefined]
    succeeds. *)
Lemma get_defined (v : JSValue) (k : jsstring) :
  is_nullish v = false -> exists x, get v k = Ok x.
Proof. destruct v; simpl; try discriminate; eauto. Qed.

Lemma truthy_defined (v : JSValue) : ToBoolean v = true -> is_nullish v = false.
Proof. destruct v; simpl; congruence. Qed.

Lemma get_opt_total (v : JSValue) (k : jsstring) : exists x, get_opt v k = Ok x.
Proof.
  unfold get_opt. destruct (is_nullish v) eqn:E; [eauto|].
  now apply get_defined.
Qed.

(** The normalizer raises no exception, whatever the payload. *)
Lemma normalize_total (leadId : jsstring) (data : JSValue) :
  exists n, PageB.normalize leadId data = Ok n.
Proof.
  unfold PageB.normalize.
  destruct (ToBoolean data) eqn:T; simpl; [|eauto].
  apply truthy_defined in T.
  assert (G : forall k, exists x, get data k = Ok x) by (intro; now apply get_defined).
  destruct (G (lit "messages")) as [m Hm]. rewrite Hm. simpl.
  destruct (G (lit "leadId")) as [l Hl].
  destruct (G (lit "name")) as [n Hn].
  destruct (G (lit "leadName")) as [ln Hln].
  destruct (G (lit "data")) as [d Hd].
  destruct (get_opt_total d (lit "messages")) as [dm Hdm].
  destruct (get_opt_total m (lit "length")) as [len Hlen].
  unfold PageB.fallback_condition, nullish_or, and_then.
  repeat first
    [ progress (rewrite ?Hm, ?Hl, ?Hn, ?Hln, ?Hd, ?Hdm, ?Hlen)
    | progress simpl
    | match goal with |- context [if ?b then _ else _] => destruct b end ];
    eauto.
Qed.

(** The third branch of the normalizer is never taken: no value is both
    [undefined] and [null]. *)
Lemma fallback_condition_false (data : JSValue) :
  is_nullish data = false -> PageB.fallback_condition data = Ok false.
Proof.
  intros D. unfold PageB.fallback_condition, and_then.
  destruct (get_defined data (lit "messages") D) as [m Hm]. rewrite Hm. simpl.
  destruct m; reflexivity.
Qed.

(** The [leadId] of what the normalizer builds. *)
Lemma normalize_leadId (leadId : jsstring) (data p : JSValue) :
  ToBoolean data = true ->
  get data "leadId" = Ok p ->
  exists n, PageB.normalize leadId data = Ok n /\
            get n "leadId" = Ok (if is_nullish p then JStr leadId else p).
Proof.
  intros T Hp. unfold PageB.normalize. rewrite T. simpl.
  pose proof (truthy_defined data T) as D.
  destruct (get_defined data (lit "messages") D) as [m Hm].
  destruct (get_defined data (lit "name") D) as [n Hn].
  destruct (get_defined data (lit "leadName") D) as [ln Hln].
  destruct (get_defined data (lit "data") D) as [d Hd].
  destruct (get_opt_total d (lit "messages")) as [dm Hdm].
  rewrite (fallback_condition_false data D).
  unfold nullish_or. rewrite Hm, Hp, Hn. simpl.
  destruct (isArray m) eqn:Am.
  - repeat first
      [ progress (rewrite ?Hln, ?Hn)
      | progress simpl
      | match goal with
        | |- context [if is_nullish ?b then _ else _] => destruct (is_nullish b)
        end ];
      eexists; (split; [reflexivity|]); simpl; literals; reflexivity.
  - destruct (isArray data) eqn:Ad.
    + destruct data; try discriminate. simpl in Hp. revert Hp. literals.
      intros [= <-]. eexists. split; [reflexivity|]. simpl. literals. reflexivity.
    + repeat first
        [ progress (rewrite ?Hd, ?Hdm)
        | progress simpl
        | match goal with
          | |- context [if is_nullish ?b then _ else _] => destruct (is_nullish b)
          end ];
        eexists; (split; [reflexivity|]); simpl; literals; reflexivity.
Qed.

(** What the normalizer built, normalized again, is itself. *)
Lemma normalize_again (leadId : jsstring) (data n : JSValue) :
  PageB.normalize leadId data = Ok n -> PageB.normalize leadId n = Ok n.
Proof.
  unfold PageB.normalize at 1.
  destruct (ToBoolean data) eqn:T; cbn [negb]; cbv iota; [|now intros [= <-]].
  pose proof (truthy_defined data T) as D.
  destruct (get_defined data (lit "messages") D) as [m Hm].
  destruct (get_defined data (lit "leadId") D) as [l Hl].
  destruct (get_defined data (lit "name") D) as [nm Hn].
  destruct (get_defined data (lit "leadName") D) as [ln Hln].
  destruct (get_defined data (lit "data") D) as [d Hd].
  destruct (get_opt_total d (lit "messages")) as [dm Hdm].
  rewrite (fallback_condition_false data D).
  unfold nullish_or. rewrite Hm, Hl, Hn. cbn [rbind].
  assert (Again : forall l' n' m',
            is_nullish l' = false -> n' <> JNull \/ isArray m' = true ->
            is_nullish m' = false ->
            PageB.normalize leadId
              (JObj [(lit "leadId", l'); (lit "name", n'); (lit "messages", m')])
            = Ok (JObj [(lit "leadId", l'); (lit "name", n'); (lit "messages", m')])).
  { intros l' n' m' Nl Nn Nm. unfold PageB.normalize.
    cbn [ToBoolean negb]. cbv iota.
    rewrite fallback_condition_false by reflexivity.
    unfold nullish_or. cbn [get lookup rbind]. literals. cbv iota.
    rewrite Nl, Nm. cbn [rbind]. cbv iota.
    destruct (isArray m') eqn:Am.
    - destruct n'; reflexivity.
    - destruct Nn as [Nn|]; [|discriminate].
      cbn [isArray]. cbv iota. rewrite ?Nm. cbn [rbind].
      destruct n'; try reflexivity. contradiction. }
  assert (Side : forall v, is_nullish v = false -> v <> JNull)
    by (intros v Hv ->; discriminate).
  assert (Arr : forall v, isArray v = true -> is_nullish v = false)
    by (intros v Hv; destruct v; try discriminate; reflexivity).
  destruct (isArray m) eqn:Am; [|destruct (isArray data) eqn:Ad];
    repeat first
      [ progress (rewrite ?Hln, ?Hn, ?Hd, ?Hdm)
      | progress cbn [rbind]
      | match goal with
        | |- context [if is_nullish ?b then _ else _] =>
            destruct (is_nullish b) eqn:?
        end ];
    intros [= <-]; apply Again;
    first [ assumption | reflexivity | now apply Arr
          | right; assumption | left; discriminate | left; now apply Side ].
Qed.

(* ================================================================== *)
(** ** fetchMessages *)

(** [fetchMessages] never throws: whatever the fetch settles to, the
    promise it returns resolves. *)
Lemma fetchMessages_resolves
  (rt : Runtime) (leadId : jsstring) (o : FetchOutcome) (st : PageState) :
  completion (PageB.fetchMessages rt leadId o st) = Normal tt.
Proof.
  unfold PageB.fetchMessages.
  destruct leadId as [|c l]; [reflexivity|].
  destruct o as [msg|[s b]]; [reflexivity|].
  destruct b as [| |data]; try reflexivity;
    run; destruct (PageB.normalize (c :: l) data); reflexivity.
Qed.

(** C2: whatever the payload of the messages endpoint is, as long as it is
    a value the normalizer keeps (every object and every array is: they are
    truthy), the stored conversation carries a lead identifier: the
    payload's [leadId] when it has one, the identifier of the route when the
    payload has none (or has [null]). *)
Theorem fetchMessages_keeps_leadId
  (rt : Runtime) (leadId : jsstring) (s : N) (data p : JSValue) (st : PageState) :
  leadId <> [] ->
  ToBoolean data = true ->
  get data "leadId" = Ok p ->
  let st' := state_after (PageB.fetchMessages rt leadId
                            (Responded {| status := s; body := Json data |}) st) in
  get (lead st') "leadId" = Ok (if is_nullish p then JStr leadId else p).
Proof.
  intros L T Hp. unfold PageB.fetchMessages.
  rewrite (is_empty_false leadId L).
  destruct (normalize_leadId leadId data p T Hp) as (n & Hn & Hl).
  run. rewrite Hn. exact Hl.
Qed.

Lemma fetchMessages_keeps_leadId_witness :
  (let st' := state_after (PageB.fetchMessages SampleRuntime.rt Examples.L1
                             (Examples.respond 200 (Json Examples.payload_without_leadId))
                             initial_page) in
   get (lead st') "leadId" = Ok (JStr Examples.L1)) /\
  (let st' := state_after (PageB.fetchMessages SampleRuntime.rt Examples.L1
                             (Examples.respond 200 (Json Examples.payload_of_L7))
                             initial_page) in
   get (lead st') "leadId" = Ok (JStr (lit "L7"))) /\
  (let st' := state_after (PageB.fetchMessages SampleRuntime.rt Examples.L1
                             (Examples.respond 200 (Json (JArr [Examples.hello])))
                             initial_page) in
   get (lead st') "leadId" = Ok (JStr Examples.L1)).
Proof.
  split; [|split].
  - apply (fetchMessages_keeps_leadId SampleRuntime.rt Examples.L1 200
             Examples.payload_without_leadId JUndefined initial_page).
    + discriminate.
    + reflexivity.
    + reflexivity.
  - apply (fetchMessages_keeps_leadId SampleRuntime.rt Examples.L1 200
             Examples.payload_of_L7 (JStr (lit "L7")) initial_page).
    + discriminate.
    + reflexivity.
    + reflexivity.
  - apply (fetchMessages_keeps_leadId SampleRuntime.rt Examples.L1 200
             (JArr [Examples.hello]) JUndefined initial_page).
    + discriminate.
    + reflexivity.
    + reflexivity.
Defined.

(** C3: fetching again while the backend answers the same leaves the page
    as the first fetch left it, and makes the same calls; and what the
    normalizer built is unchanged by normalizing it again. *)
Theorem fetchMessages_idempotent
  (rt : Runtime) (leadId : jsstring) (o : FetchOutcome) (st : PageState) :
  let once := PageB.fetchMessages rt leadId o st in
  let twice := PageB.fetchMessages rt leadId o (state_after once) in
  state_after twice = state_after once /\ trace twice = trace once /\
  forall data, exists n, PageB.normalize leadId data = Ok n /\
                         PageB.normalize leadId n = Ok n.
Proof.
  assert (Again : forall data, exists n, PageB.normalize leadId data = Ok n /\
                                         PageB.normalize leadId n = Ok n).
  { intros data. destruct (normalize_total leadId data) as [n Hn].
    exists n. split; [exact Hn|]. exact (normalize_again leadId data n Hn). }
  unfold PageB.fetchMessages.
  destruct leadId as [|c l]; [repeat split; exact Again|].
  destruct o as [msg|[s b]]; [repeat split; exact Again|].
  destruct b as [| |data]; try (repeat split; exact Again).
  run. destruct (PageB.normalize (c :: l) data); repeat split; exact Again.
Qed.

(** C1 (as amended): [fetchMessages] never throws. When the request fails or
    the body is not JSON it signals an error and keeps the conversation it
    had (none on a page that has loaded nothing); an empty body gives no
    conversation; an object without messages gives the empty list; in
    these two cases the render lists no message. *)
Theorem fetchMessages_degrades (rt : Runtime) (leadId : jsstring) :
  (forall o st, completion (PageB.fetchMessages rt leadId o st) = Normal tt) /\
  (forall s st, leadId <> [] ->
     let st' := state_after (PageB.fetchMessages rt leadId
                               (Responded {| status := s; body := NotJson |}) st) in
     error st' = Some (lit "Invalid JSON from messages endpoint") /\
     lead st' = lead st /\ loading st' = false) /\
  (forall msg st, leadId <> [] ->
     let st' := state_after (PageB.fetchMessages rt leadId (NetworkFailure msg) st) in
     error st' = Some (if is_empty msg then lit "Failed to load messages" else msg) /\
     lead st' = lead st /\ loading st' = false) /\
  (forall s st, leadId <> [] ->
     let st' := state_after (PageB.fetchMessages rt leadId
                               (Responded {| status := s; body := EmptyBody |}) st) in
     lead st' = JNull /\ PageB.render_messages st' = Ok [] /\
     error st' = None /\ loading st' = false) /\
  (forall s props st, leadId <> [] -> without_messages props ->
     let st' := state_after (PageB.fetchMessages rt leadId
                               (Responded {| status := s; body := Json (JObj props) |}) st) in
     get (lead st') "messages" = Ok (JArr []) /\
     PageB.render_messages st' = Ok [] /\
     error st' = None /\ loading st' = false).
Proof.
  split; [|split; [|split; [|split]]].
  - intros o st. apply fetchMessages_resolves.
  - intros s st L. unfold PageB.fetchMessages. rewrite (is_empty_false leadId L).
    repeat split.
  - intros msg st L. unfold PageB.fetchMessages. rewrite (is_empty_false leadId L).
    run. unfold message_or, message_of. destruct msg; repeat split.
  - intros s st L. unfold PageB.fetchMessages. rewrite (is_empty_false leadId L).
    repeat split.
  - intros s props st L (Hm & d & Hd & Nd). unfold PageB.fetchMessages.
    rewrite (is_empty_false leadId L). run.
    assert (N : PageB.normalize leadId (JObj props)
                = Ok (JObj [(lit "leadId",
                             if is_nullish (lookup "leadId" props) then JStr leadId
                             else lookup "leadId" props);
                            (lit "name",
                             if is_nullish (lookup "name" props) then JUndefined
                             else lookup "name" props);
                            (lit "messages", JArr [])])).
    { unfold PageB.normalize. simpl ToBoolean. cbv iota. simpl negb. cbv iota.
      rewrite (fallback_condition_false (JObj props) eq_refl).
      unfold nullish_or. simpl get. simpl rbind.
      destruct (lookup (lit "messages") props); try discriminate; simpl;
        rewrite Hd; simpl; rewrite Nd;
        destruct (is_nullish (lookup (lit "leadId") props)),
                 (is_nullish (lookup (lit "name") props)); reflexivity. }
    rewrite N. unfold PageB.render_messages. simpl. literals. repeat split.
Qed.

Lemma fetchMessages_degrades_witness :
  (let st' := state_after (PageB.fetchMessages SampleRuntime.rt Examples.L1
                             (Examples.respond 200 NotJson) Examples.loaded_page) in
   error st' = Some (lit "Invalid JSON from messages endpoint") /\
   lead st' = lead Examples.loaded_page /\ loading st' = false) /\
  (let st' := state_after (PageB.fetchMessages SampleRuntime.rt Examples.L1
                             (Examples.respond 200 (Json (JObj [(lit "ok", JBool true)])))
                             initial_page) in
   get (lead st') "messages" = Ok (JArr []) /\
   PageB.render_messages st' = Ok [] /\
   error st' = None /\ loading st' = false).
Proof.
  destruct (fetchMessages_degrades SampleRuntime.rt Examples.L1)
    as (_ & Hbad & _ & _ & Hnone).
  split.
  - apply (Hbad 200%N Examples.loaded_page). discriminate.
  - apply (Hnone 200%N [(lit "ok", JBool true)] initial_page).
    + discriminate.
    + split; [reflexivity|]. exists JUndefined. split; reflexivity.
Defined.

(** C1, as stated, fails: after a conversation was loaded, a body that is
    not JSON leaves its messages on the page; the list is not empty. *)
Lemma fetchMessages_unparseable_keeps_messages :
  ~ empty_with_error
      (state_after (PageB.fetchMessages SampleRuntime.rt Examples.L1
                      (Examples.respond 200 NotJson) Examples.loaded_page)).
Proof. intros [H _]. vm_compute in H. discriminate. Qed.

(** A payload whose [messages] is not an array is stored as it is, no
    error is signalled, and the render that follows cannot list it. *)
Example fetchMessages_stores_non_array_messages :
  let st' := state_after (PageB.fetchMessages SampleRuntime.rt Examples.L1
                            (Examples.respond 200
                               (Json (JObj [(lit "messages", JStr (lit "oops"))])))
                            initial_page) in
  get (lead st') "messages" = Ok (JStr (lit "oops")) /\ error st' = None /\
  PageB.render_messages st' = Raise TypeError.
Proof. repeat split. Qed.

(* ================================================================== *)
(** ** handleSend *)

Lemma trimStart_blank (s : jsstring) : blank s = true -> trimStart s = [].
Proof.
  induction s as [|c s IH]; simpl; [reflexivity|].
  intros H. apply andb_true_iff in H as [Hc Hs]. rewrite Hc. now apply IH.
Qed.

Lemma trim_blank (s : jsstring) : blank s = true -> trim s = [].
Proof. intros H. unfold trim. now rewrite (trimStart_blank s H). Qed.

(** C6: an empty or white-space-only input makes [handleSend] return at
    once, on both pages: no request (no event at all), and the state is the
    one it was called in. *)
Theorem handleSend_ignores_blank
  (rt : Runtime) (leadId : jsstring) (reply refetch : FetchOutcome) (st : PageState) :
  blank (input st) = true ->
  PageA.handleSend rt leadId reply refetch st = (Normal tt, st, []) /\
  PageB.handleSend rt leadId reply refetch st = (Normal tt, st, []).
Proof.
  intros B. unfold PageA.handleSend, PageB.handleSend. run.
  rewrite (trim_blank (input st) B). split; reflexivity.
Qed.

Lemma handleSend_ignores_blank_witness :
  let st := Examples.typed [32; 9; 160; 10]%N in
  let reply := Examples.respond 200 EmptyBody in
  PageA.handleSend SampleRuntime.rt Examples.L1 reply reply st = (Normal tt, st, []) /\
  PageB.handleSend SampleRuntime.rt Examples.L1 reply reply st = (Normal tt, st, []).
Proof.
  apply (handleSend_ignores_blank SampleRuntime.rt Examples.L1
           (Examples.respond 200 EmptyBody) (Examples.respond 200 EmptyBody)
           (Examples.typed [32; 9; 160; 10]%N)).
  reflexivity.
Defined.

(** What a fetch of the messages makes of the conversation does not depend
    on the input box, the sending flag or the error shown before. *)
Lemma fetchMessages_lead (rt : Runtime) (leadId : jsstring) (o : FetchOutcome)
  (st1 st2 : PageState) :
  lead st1 = lead st2 ->
  lead (state_after (PageB.fetchMessages rt leadId o st1))
  = lead (state_after (PageB.fetchMessages rt leadId o st2)).
Proof.
  intros E. unfold PageB.fetchMessages.
  destruct leadId as [|c l]; [exact E|].
  destruct o as [msg|[s b]]; [exact E|].
  destruct b as [| |data]; try reflexivity; try exact E.
  run. destruct (PageB.normalize (c :: l) data); [reflexivity|exact E].
Qed.

(** The requests of a fetch of the messages: the one [GET]. *)
Lemma fetchMessages_requests (rt : Runtime) (leadId : jsstring) (o : FetchOutcome)
  (st : PageState) :
  leadId <> [] ->
  requests (trace (PageB.fetchMessages rt leadId o st)) = [Fetch (GET_messages leadId)].
Proof.
  intros L. unfold PageB.fetchMessages. rewrite (is_empty_false leadId L).
  destruct o as [msg|[s b]]; [reflexivity|].
  destruct b as [| |data]; try reflexivity;
    run; destruct (PageB.normalize leadId data); reflexivity.
Qed.

Ltac run_send :=
  cbv beta iota zeta delta
    [async try_finally try_catch bind ret throw return_ modify read emit lift
     console fetch setError setInput setSending state_after fst snd].

(** [handleSend], second page, when the backend refuses the reply. *)
Lemma PageB_handleSend_refused
  (rt : Runtime) (leadId : jsstring) (res : Response) (refetch : FetchOutcome)
  (st : PageState) :
  leadId <> [] -> trim (input st) <> [] -> ok res = false ->
  PageB.handleSend rt leadId (Responded res) refetch st
  = (Normal tt,
     state_after (setSending false
       (state_after (setError (Some (lit "Send failed: " ++ digits (status res)))
          (state_after (setSending true st))))),
     sending_events leadId (trim (input st))).
Proof.
  intros L T Hok. unfold PageB.handleSend. run_send.
  rewrite (is_empty_false _ T), (is_empty_false _ L), Hok. reflexivity.
Qed.

(** [handleSend], second page, when the backend accepts the reply. *)
Lemma PageB_handleSend_accepted
  (rt : Runtime) (leadId : jsstring) (res : Response) (refetch : FetchOutcome)
  (st : PageState) :
  leadId <> [] -> trim (input st) <> [] -> ok res = true ->
  let again := PageB.fetchMessages rt leadId refetch
                 (state_after (setInput [] (state_after (setSending true st)))) in
  PageB.handleSend rt leadId (Responded res) refetch st
  = (Normal tt, state_after (setSending false (state_after again)),
     sending_events leadId (trim (input st)) ++ trace again).
Proof.
  intros L T Hok. cbv zeta.
  set (s0 := state_after (setInput [] (state_after (setSending true st)))).
  unfold PageB.handleSend.
  set (F := PageB.fetchMessages rt leadId refetch). run_send.
  rewrite (is_empty_false _ T), (is_empty_false _ L), Hok.
  cbn [orb negb]. cbv iota.
  match goal with |- context [F ?s] => change s with s0 end.
  pose proof (fetchMessages_resolves rt leadId refetch s0) as N.
  fold F in N.
  destruct (F s0) as [[c s2] t2]. unfold completion, trace in *. cbn [fst snd] in *.
  subst c. unfold sending_events. cbn [app]. now rewrite ?app_nil_r.
Qed.

(** On the second page a reply that is not blank is sent once. When the
    backend accepts it the input is cleared and the conversation is fetched
    again, exactly once, and the conversation shown is what that fetch
    gives: nothing is appended locally. When the backend refuses it the
    input is kept, the error [Send failed: <status>] is shown, and the next
    fetch of the messages replaces that error. *)
Theorem PageB_handleSend_reply
  (rt : Runtime) (leadId : jsstring) (res : Response) (refetch : FetchOutcome)
  (st : PageState) :
  leadId <> [] ->
  trim (input st) <> [] ->
  let r := PageB.handleSend rt leadId (Responded res) refetch st in
  let st' := state_after r in
  completion r = Normal tt /\ sending st' = false /\
  (ok res = true ->
     input st' = [] /\
     requests (trace r) = [Fetch (PageB.POST_reply leadId (trim (input st)));
                           Fetch (GET_messages leadId)] /\
     lead st' = lead (state_after (PageB.fetchMessages rt leadId refetch st))) /\
  (ok res = false ->
     input st' = input st /\ lead st' = lead st /\
     error st' = Some (lit "Send failed: " ++ digits (status res)) /\
     requests (trace r) = [Fetch (PageB.POST_reply leadId (trim (input st)))] /\
     forall o, error (state_after (PageB.fetchMessages rt leadId o st'))
               = error (state_after (PageB.fetchMessages rt leadId o st))).
Proof.
  intros L T r st'. subst st' r.
  destruct (ok res) eqn:Hok.
  - rewrite (PageB_handleSend_accepted rt leadId res refetch st L T Hok).
    set (s0 := state_after (setInput [] (state_after (setSending true st)))).
    pose proof (fetchMessages_lead rt leadId refetch s0 st eq_refl) as Hlead.
    pose proof (fetchMessages_requests rt leadId refetch s0 L) as Hreq.
    assert (Hin : input (state_after (PageB.fetchMessages rt leadId refetch s0)) = []).
    { unfold PageB.fetchMessages. rewrite (is_empty_false _ L).
      destruct refetch as [msg|[s b]]; [reflexivity|].
      destruct b as [| |data]; try reflexivity;
        run; destruct (PageB.normalize leadId data); reflexivity. }
    split; [reflexivity|]. split; [reflexivity|].
    split; [intros _|discriminate].
    split; [exact Hin|]. split; [|exact Hlead].
    unfold trace at 1. cbn [snd]. unfold requests in *.
    rewrite filter_app, Hreq. reflexivity.
  - rewrite (PageB_handleSend_refused rt leadId res refetch st L T Hok).
    split; [reflexivity|]. split; [reflexivity|].
    split; [discriminate|intros _].
    split; [reflexivity|]. split; [reflexivity|]. split; [reflexivity|].
    split; [reflexivity|]. intros o.
    unfold state_after at 2. cbn [fst snd].
    transitivity (error (state_after (PageB.fetchMessages rt leadId o
                           (state_after (setSending true st))))).
    + unfold PageB.fetchMessages. rewrite (is_empty_false _ L).
      destruct o as [msg|[s b]]; [reflexivity|].
      destruct b as [| |data]; try reflexivity;
        run; destruct (PageB.normalize leadId data); reflexivity.
    + unfold PageB.fetchMessages. rewrite (is_empty_false _ L).
      destruct o as [msg|[s b]]; [reflexivity|].
      destruct b as [| |data]; try reflexivity;
        run; destruct (PageB.normalize leadId data); reflexivity.
Qed.

(** [handleSend], first page, when the backend refuses the reply: the
    refusal goes to the console and the state is the one before the call;
    no error is shown. *)
Lemma PageA_handleSend_refused
  (rt : Runtime) (leadId : jsstring) (res : Response) (refetch : FetchOutcome)
  (st : PageState) :
  leadId <> [] -> trim (input st) <> [] -> ok res = false ->
  let r := PageA.handleSend rt leadId (Responded res) refetch st in
  completion r = Normal tt /\
  error (state_after r) = error st /\
  input (state_after r) = input st /\
  trace r = [Fetch (PageA.POST_reply leadId (trim (input st)));
             Console Error "Send reply failed"].
Proof.
  intros L T Hok. unfold PageA.handleSend. run_send.
  rewrite (is_empty_false _ T), (is_empty_false _ L), Hok.
  repeat split.
Qed.

(** [handleSend], first page, when the backend accepts the reply: the input
    is cleared and the conversation is fetched again, once. *)
Lemma PageA_handleSend_accepted
  (rt : Runtime) (leadId : jsstring) (res : Response) (refetch : FetchOutcome)
  (st : PageState) :
  leadId <> [] -> trim (input st) <> [] -> ok res = true ->
  let r := PageA.handleSend rt leadId (Responded res) refetch st in
  completion r = Normal tt /\
  input (state_after r) = [] /\
  sending (state_after r) = false /\
  requests (trace r) = [Fetch (PageA.POST_reply leadId (trim (input st)));
                        Fetch (GET_messages leadId)].
Proof.
  intros L T Hok. destruct st as [ld lo er inp se lv sh]. cbn [input] in T |- *.
  unfold PageA.handleSend, PageA.fetchMessages.
  cbv beta iota zeta delta
    [async try_finally try_catch bind ret throw return_ modify read emit lift
     console fetch res_json setLead setLoading setError setInput setSending
     completion state_after trace fst snd
     lead loading error input sending latestVisit showVisitModal].
  rewrite (is_empty_false _ T), (is_empty_false _ L), Hok.
  cbn [orb negb app]. cbv iota.
  destruct refetch as [msg|[s b]]; [repeat split|].
  destruct (ok {| status := s; body := b |}); destruct b; repeat split.
Qed.

(** C7 (the first page departs from it): the reply [hello] refused with
    status 500. The input is kept, but no error is shown: the failure is
    written to the console only. *)
Lemma PageA_handleSend_refusal_not_shown :
  let r := PageA.handleSend SampleRuntime.rt Examples.L1
             (Examples.respond 500 (Json (JObj [(lit "error", JStr (lit "down"))])))
             (Examples.respond 200 EmptyBody)
             (Examples.typed (lit "hello")) in
  error (state_after r) = None /\
  input (state_after r) = lit "hello" /\
  trace r = [Fetch (PageA.POST_reply Examples.L1 (lit "hello"));
             Console Error "Send reply failed"].
Proof. repeat split. Qed.

(** The same refusal on the second page is shown. *)
Example PageB_handleSend_refusal_shown :
  let r := PageB.handleSend SampleRuntime.rt Examples.L1
             (Examples.respond 500 (Json (JObj [(lit "error", JStr (lit "down"))])))
             (Examples.respond 200 EmptyBody)
             (Examples.typed (lit "hello")) in
  error (state_after r) = Some (lit "Send failed: 500") /\
  input (state_after r) = lit "hello".
Proof. repeat split. Qed.

Lemma PageB_handleSend_reply_witness :
  let r := PageB.handleSend SampleRuntime.rt Examples.L1
             (Examples.respond 200 EmptyBody)
             (Examples.respond 200 (Json Examples.payload_without_leadId))
             (Examples.typed (lit " hello ")) in
  input (state_after r) = [] /\
  requests (trace r) = [Fetch (PageB.POST_reply Examples.L1 (lit "hello"));
                        Fetch (GET_messages Examples.L1)].
Proof.
  destruct (PageB_handleSend_reply SampleRuntime.rt Examples.L1
              {| status := 200; body := EmptyBody |}
              (Examples.respond 200 (Json Examples.payload_without_leadId))
              (Examples.typed (lit " hello ")))
    as (_ & _ & Hyes & _); try discriminate.
  destruct (Hyes eq_refl) as (Hin & Hreq & _). split; assumption.
Defined.

(* ================================================================== *)
(** ** The visit banner: failures *)

(** C8: when the fetch of the visits fails (the request fails, or the
    status is not a success status) both pages leave their whole state as it
    was, banner and error included, and write the failure to the console. *)
Theorem banner_failure_keeps_state
  (rt : Runtime) (leadId : jsstring) (o : FetchOutcome) (st : PageState) :
  leadId <> [] ->
  fetch_failed o = true ->
  (exists label,
     PageA.loadVisitBanner rt leadId o st
     = (Normal tt, st, [Fetch GET_visits; Console Error label])) /\
  (exists label,
     PageB.fetchLatestVisit rt leadId o st
     = (Normal tt, st, [Console Log "fetchLatestVisit: calling";
                        Fetch GET_visits; Console Error label])).
Proof.
  intros L F. unfold PageA.loadVisitBanner, PageB.fetchLatestVisit.
  rewrite (is_empty_false _ L).
  destruct o as [msg|res]; simpl in F.
  - split; eexists; reflexivity.
  - apply negb_true_iff in F. run. rewrite F. split; eexists; reflexivity.
Qed.

Lemma banner_failure_keeps_state_witness :
  (exists label,
     PageA.loadVisitBanner SampleRuntime.rt Examples.L1
       (Examples.respond 503 NotJson) Examples.loaded_page
     = (Normal tt, Examples.loaded_page, [Fetch GET_visits; Console Error label])) /\
  (exists label,
     PageB.fetchLatestVisit SampleRuntime.rt Examples.L1
       (Examples.respond 503 NotJson) Examples.loaded_page
     = (Normal tt, Examples.loaded_page,
        [Console Log "fetchLatestVisit: calling"; Fetch GET_visits;
         Console Error label])).
Proof.
  apply (banner_failure_keeps_state SampleRuntime.rt Examples.L1
           (Examples.respond 503 NotJson) Examples.loaded_page).
  - discriminate.
  - reflexivity.
Defined.

(* ================================================================== *)
(** ** The visit banner: which visits belong to the lead *)

Lemma strict_equals_str (v : JSValue) (s : jsstring) :
  strict_equals v (JStr s) = true <-> v = JStr s.
Proof.
  destruct v; simpl; try (split; [discriminate|intros [=]]).
  rewrite jsstring_eqb_eq. split; [now intros ->|now intros [= ->]].
Qed.

Lemma strict_equals_str_false (v : JSValue) (s : jsstring) :
  v <> JStr s -> strict_equals v (JStr s) = false.
Proof.
  intros H. destruct (strict_equals v (JStr s)) eqn:E; [|reflexivity].
  apply strict_equals_str in E. contradiction.
Qed.

(** On a visit that is not [null] or [undefined] the callbacks raise no
    exception. *)
Lemma PageA_belongs_total (leadId : jsstring) (v : JSValue) :
  is_nullish v = false -> exists b, PageA.belongs leadId v = Ok b.
Proof.
  intros D. unfold PageA.belongs.
  destruct (get_defined v (lit "leadId") D) as [l ->]. simpl.
  destruct (ToBoolean l) eqn:T; simpl; [|eauto].
  destruct (is_string l); [eauto|].
  destruct (get_defined l (lit "_id") (truthy_defined l T)) as [i ->]. simpl. eauto.
Qed.

Lemma PageB_belongs_total (leadId : jsstring) (v : JSValue) :
  is_nullish v = false -> exists b, PageB.belongs leadId v = Ok b.
Proof.
  intros D. unfold PageB.belongs, or_else.
  destruct (get_defined v (lit "leadId") D) as [l ->]. simpl.
  destruct (ToBoolean l) eqn:T; simpl; [|eauto].
  destruct (is_string l); [eauto|].
  destruct (get_defined l (lit "_id") (truthy_defined l T)) as [i ->].
  destruct (get_defined l (lit "id") (truthy_defined l T)) as [j ->]. simpl.
  destruct (strict_equals i (JStr leadId)); eauto.
Qed.

(** What each callback answers on each shape of reference. *)
Lemma belongs_bare (leadId : jsstring) (v : JSValue) :
  leadId <> [] -> refers_bare leadId v ->
  PageA.belongs leadId v = Ok true /\ PageB.belongs leadId v = Ok true.
Proof.
  intros L H. unfold refers_bare in H. unfold PageA.belongs, PageB.belongs.
  rewrite H. simpl. rewrite (is_empty_false _ L), jsstring_eqb_refl. split; reflexivity.
Qed.

Lemma belongs_embedded (leadId : jsstring) (v : JSValue) :
  refers_embedded leadId v ->
  PageA.belongs leadId v = Ok true /\ PageB.belongs leadId v = Ok true.
Proof.
  intros (lprops & H & Hid). unfold PageA.belongs, PageB.belongs, or_else.
  rewrite H. simpl. rewrite Hid. simpl. rewrite jsstring_eqb_refl. split; reflexivity.
Qed.

Lemma belongs_no_reference (leadId : jsstring) (v : JSValue) :
  no_reference v ->
  PageA.belongs leadId v = Ok false /\ PageB.belongs leadId v = Ok false.
Proof.
  intros (l & H & T). unfold PageA.belongs, PageB.belongs.
  rewrite H. simpl. rewrite T. split; reflexivity.
Qed.

Lemma belongs_elsewhere (leadId : jsstring) (v : JSValue) :
  refers_elsewhere leadId v ->
  PageA.belongs leadId v = Ok false /\ PageB.belongs leadId v = Ok false.
Proof.
  unfold PageA.belongs, PageB.belongs, or_else.
  intros [(other & H & N)|(lprops & H & N1 & N2)]; rewrite H; simpl.
  - rewrite (jsstring_eqb_neq other leadId N).
    destruct (negb (negb (is_empty other))); split; reflexivity.
  - rewrite (strict_equals_str_false _ _ N1), (strict_equals_str_false _ _ N2).
    split; reflexivity.
Qed.

(** A filter whose callback raises nothing on the elements keeps the
    candidates. *)
Lemma array_filter_candidates (f : JSValue -> result bool) (l : list JSValue) :
  (forall v, In v l -> exists b, f v = Ok b) ->
  array_filter f l = Ok (candidates f l).
Proof.
  induction l as [|v l IH]; intros H; simpl; [reflexivity|].
  destruct (H v (or_introl eq_refl)) as [b Hb]. rewrite Hb. simpl.
  rewrite IH by (intros w Hw; apply H; now right). simpl.
  destruct b; reflexivity.
Qed.

Lemma candidates_In (f : JSValue -> result bool) (l : list JSValue) (v : JSValue) :
  In v (candidates f l) <-> In v l /\ f v = Ok true.
Proof.
  unfold candidates. rewrite filter_In.
  destruct (f v) as [[|]|e]; intuition congruence.
Qed.

(** C5: in a collection of visits (no entry [null]), for a lead whose
    identifier is not empty, the filter of either page keeps the visits that
    name the lead by its bare identifier and those that embed it as an
    object with that [_id], and drops the visits without a lead and those of
    another lead. *)
Theorem visit_filter_accepts_both_shapes
  (leadId : jsstring) (visits : list JSValue) :
  leadId <> [] ->
  Forall (fun v => is_nullish v = false) visits ->
  exists keptA keptB,
    call_filter (JArr visits) (PageA.belongs leadId) = Ok keptA /\
    call_filter (JArr visits) (PageB.belongs leadId) = Ok keptB /\
    forall v, In v visits ->
      (refers_bare leadId v -> In v keptA /\ In v keptB) /\
      (refers_embedded leadId v -> In v keptA /\ In v keptB) /\
      (no_reference v -> ~ In v keptA /\ ~ In v keptB) /\
      (refers_elsewhere leadId v -> ~ In v keptA /\ ~ In v keptB).
Proof.
  intros L D. rewrite Forall_forall in D.
  exists (candidates (PageA.belongs leadId) visits),
         (candidates (PageB.belongs leadId) visits).
  simpl. split; [|split].
  - apply array_filter_candidates. intros v Hv. apply PageA_belongs_total; auto.
  - apply array_filter_candidates. intros v Hv. apply PageB_belongs_total; auto.
  - intros v Hv. rewrite !candidates_In. repeat split; try assumption.
    + now apply belongs_bare.
    + now apply belongs_bare.
    + now apply belongs_embedded.
    + now apply belongs_embedded.
    + intros [_ K]. destruct (belongs_no_reference leadId v H) as [E _]. congruence.
    + intros [_ K]. destruct (belongs_no_reference leadId v H) as [_ E]. congruence.
    + intros [_ K]. destruct (belongs_elsewhere leadId v H) as [E _]. congruence.
    + intros [_ K]. destruct (belongs_elsewhere leadId v H) as [_ E]. congruence.
Qed.

Lemma visit_filter_accepts_both_shapes_witness :
  let visits := [Examples.visit_jan1; Examples.visit_other; Examples.visit_jan3;
                 Examples.visit_unowned] in
  exists keptA keptB,
    call_filter (JArr visits) (PageA.belongs Examples.L1) = Ok keptA /\
    call_filter (JArr visits) (PageB.belongs Examples.L1) = Ok keptB /\
    (In Examples.visit_jan1 keptA /\ In Examples.visit_jan1 keptB) /\
    (In Examples.visit_jan3 keptA /\ In Examples.visit_jan3 keptB) /\
    (~ In Examples.visit_unowned keptA /\ ~ In Examples.visit_unowned keptB) /\
    (~ In Examples.visit_other keptA /\ ~ In Examples.visit_other keptB).
Proof.
  intros visits.
  destruct (visit_filter_accepts_both_shapes Examples.L1 visits)
    as (keptA & keptB & HA & HB & H).
  - discriminate.
  - repeat constructor.
  - exists keptA, keptB. split; [exact HA|]. split; [exact HB|].
    split; [|split; [|split]].
    + destruct (H Examples.visit_jan1) as (Hb & _); [simpl; auto|].
      apply Hb. reflexivity.
    + destruct (H Examples.visit_jan3) as (_ & He & _); [simpl; auto|].
      apply He. eexists. split; reflexivity.
    + destruct (H Examples.visit_unowned) as (_ & _ & Hn & _); [simpl; auto|].
      apply Hn. exists JUndefined. split; reflexivity.
    + destruct (H Examples.visit_other) as (_ & _ & _ & Ho); [simpl; auto|].
      apply Ho. left. exists (lit "L2"). split; [reflexivity|discriminate].
Defined.

(* ================================================================== *)
(** ** The visit banner: the newest visit *)

Section Newest.
Variable rt : Runtime.

(** Being the latest only depends on which visits are compared. *)
Lemma is_latest_ext (l l' : list JSValue) (h : JSValue) :
  (forall v, In v l <-> In v l') -> is_latest rt l h -> is_latest rt l' h.
Proof.
  intros E (Hin & t & Ht & Hmax). split; [now apply E|].
  exists t. split; [exact Ht|]. intros w t' Hw. apply Hmax. now apply E.
Qed.

(** On dated visits the comparator is the difference of the times. *)
Lemma sort_compare_dated (x y : JSValue) (tx ty : Z) :
  time_of rt x = Some tx -> time_of rt y = Some ty ->
  sort_compare (newest_first rt) x y = Ok (ty - tx)%Z.
Proof.
  unfold time_of, sort_compare, newest_first.
  destruct (get x (lit "date")) as [dx|]; [|discriminate].
  destruct (get y (lit "date")) as [dy|]; [|discriminate].
  intros Hx Hy. simpl. rewrite Hx, Hy. reflexivity.
Qed.

Lemma dated_time (v : JSValue) :
  time_of rt v <> None -> exists t, time_of rt v = Some t.
Proof. destruct (time_of rt v) as [t|]; [eauto|contradiction]. Qed.

(** Inserting a dated visit among dated visits raises nothing and adds
    just that visit. *)
Lemma insert_sorted_members (l : list JSValue) (x : JSValue) :
  time_of rt x <> None ->
  Forall (fun v => time_of rt v <> None) l ->
  exists l', insert_sorted (newest_first rt) x l = Ok l' /\
             (forall v, In v l' <-> v = x \/ In v l).
Proof.
  intros Dx. destruct (dated_time x Dx) as [tx Hx].
  induction l as [|y r IH]; intros Dl.
  - exists [x]. simpl. split; [reflexivity|]. intuition.
  - inversion Dl as [|? ? Dy Dr]; subst.
    destruct (dated_time y Dy) as [ty Hy].
    simpl. rewrite (sort_compare_dated x y tx ty Hx Hy). simpl.
    destruct (ty - tx <=? 0)%Z.
    + eexists. split; [reflexivity|]. simpl. intuition.
    + destruct (IH Dr) as (r' & -> & Hin).
      eexists. split; [reflexivity|]. simpl. intros v. rewrite Hin. intuition.
Qed.

(** If the head of the list was its latest, the head after the insertion
    is the latest of the list and the new visit. *)
Lemma insert_sorted_dated (l : list JSValue) (x : JSValue) :
  time_of rt x <> None ->
  Forall (fun v => time_of rt v <> None) l ->
  (l = [] \/ is_latest rt l (first l)) ->
  exists l', insert_sorted (newest_first rt) x l = Ok l' /\
             (forall v, In v l' <-> v = x \/ In v l) /\
             is_latest rt (x :: l) (first l').
Proof.
  intros Dx Dl Hhead.
  destruct (insert_sorted_members l x Dx Dl) as (l' & Hl' & Hin).
  exists l'. split; [exact Hl'|]. split; [exact Hin|].
  destruct (dated_time x Dx) as [tx Hx].
  destruct l as [|y r].
  - simpl in Hl'. injection Hl' as <-. simpl.
    split; [now left|]. exists tx. split; [exact Hx|].
    intros w t' [<-|[]] Hw. rewrite Hx in Hw. injection Hw as <-. lia.
  - inversion Dl as [|? ? Dy Dr]; subst.
    destruct (dated_time y Dy) as [ty Hy].
    destruct Hhead as [|(_ & t & Ht & Hmax)]; [discriminate|].
    simpl in Ht. rewrite Hy in Ht. injection Ht as <-.
    simpl in Hl'. rewrite (sort_compare_dated x y tx ty Hx Hy) in Hl'.
    simpl in Hl'. destruct (ty - tx <=? 0)%Z eqn:C.
    + apply Z.leb_le in C. injection Hl' as <-. simpl.
      split; [now left|]. exists tx. split; [exact Hx|].
      intros w t' [<-|Hw] Hw'.
      * rewrite Hx in Hw'. injection Hw' as <-. lia.
      * specialize (Hmax w t' Hw Hw'). lia.
    + apply Z.leb_gt in C.
      destruct (insert_sorted (newest_first rt) x r) as [r'|]; [|discriminate].
      simpl in Hl'. injection Hl' as <-. simpl.
      split; [right; now left|]. exists ty. split; [exact Hy|].
      intros w t' [<-|Hw] Hw'.
      * rewrite Hx in Hw'. injection Hw' as <-. lia.
      * exact (Hmax w t' Hw Hw').
Qed.

(** Sorting dated visits raises nothing, keeps the visits, and puts a
    latest one first. *)
Lemma sort_defined_dated (l : list JSValue) :
  Forall (fun v => time_of rt v <> None) l ->
  exists l', sort_defined (newest_first rt) l = Ok l' /\
             (forall v, In v l' <-> In v l) /\
             (l <> [] -> is_latest rt l (first l')).
Proof.
  induction l as [|x r IH]; intros D.
  - exists []. simpl. split; [reflexivity|]. split; [tauto|]. congruence.
  - inversion D as [|? ? Dx Dr]; subst.
    destruct (IH Dr) as (r' & Hr' & Hin & Hhead). simpl. rewrite Hr'. simpl.
    assert (Dr' : Forall (fun v => time_of rt v <> None) r').
    { rewrite Forall_forall in *. intros v Hv. apply Dr. now apply Hin. }
    assert (Hh : r' = [] \/ is_latest rt r' (first r')).
    { destruct r as [|y r0].
      - left. destruct r' as [|a r'']; [reflexivity|].
        exfalso. apply (Hin a). now left.
      - right. apply (is_latest_ext (y :: r0) r').
        + intros v. symmetry. apply Hin.
        + apply Hhead. discriminate. }
    destruct (insert_sorted_dated r' x Dx Dr' Hh) as (l' & Hl' & Hin' & Hlatest).
    exists l'. split; [exact Hl'|]. split.
    + intros v. rewrite Hin'. simpl. rewrite Hin. intuition.
    + intros _. apply (is_latest_ext (x :: r') (x :: r)); [|exact Hlatest].
      intros v. simpl. rewrite Hin. tauto.
Qed.

Lemma dated_defined (l : list JSValue) :
  Forall (fun v => time_of rt v <> None) l ->
  filter (fun v => negb (is_undefined v)) l = l /\ filter is_undefined l = [].
Proof.
  induction l as [|x r IH]; intros D; [split; reflexivity|].
  inversion D as [|? ? Dx Dr]; subst. destruct (IH Dr) as [E1 E2].
  simpl. destruct x; simpl; rewrite ?E1, ?E2; try (split; reflexivity).
  exfalso. apply Dx. reflexivity.
Qed.

Lemma array_sort_dated (l : list JSValue) :
  Forall (fun v => time_of rt v <> None) l ->
  exists l', array_sort (newest_first rt) l = Ok l' /\
             (forall v, In v l' <-> In v l) /\
             (l <> [] -> is_latest rt l (first l')).
Proof.
  intros D. unfold array_sort.
  destruct (dated_defined l D) as [-> ->].
  destruct (sort_defined_dated l D) as (l' & -> & Hin & Hhead).
  simpl. rewrite app_nil_r. eauto.
Qed.
End Newest.

Ltac run_banner :=
  cbv beta iota zeta delta
    [async try_finally try_catch bind ret throw return_ modify read emit lift
     console fetch res_json setLatestVisit];
  cbn [app fst snd].

(** What [loadVisitBanner] does with a payload [{ visits: [...] }] whose
    entries are not [null]. *)
Lemma loadVisitBanner_payload
  (rt : Runtime) (leadId : jsstring) (res : Response)
  (props : list (jsstring * JSValue)) (visits : list JSValue) (st : PageState) :
  ok res = true ->
  body res = Json (JObj props) ->
  lookup "visits" props = JArr visits ->
  Forall (fun v => is_nullish v = false) visits ->
  PageA.loadVisitBanner rt leadId (Responded res) st
  = match candidates (PageA.belongs leadId) visits with
    | [] => (Normal tt, state_after (setLatestVisit JNull st), [Fetch GET_visits])
    | cands =>
        match array_sort (newest_first rt) cands with
        | Ok sorted =>
            (Normal tt, state_after (setLatestVisit (first sorted) st),
             [Fetch GET_visits])
        | Raise _ =>
            (Normal tt, st, [Fetch GET_visits; Console Error "loadVisitBanner error:"])
        end
    end.
Proof.
  intros Hok Hbody Hvisits D. rewrite Forall_forall in D.
  unfold PageA.loadVisitBanner. run_banner.
  rewrite Hok, Hbody. cbn [negb]. cbv iota.
  unfold logical_or. cbn [get rbind]. rewrite Hvisits. cbn [ToBoolean].
  cbv iota. cbn [call_filter].
  rewrite (array_filter_candidates (PageA.belongs leadId) visits)
    by (intros v Hv; apply PageA_belongs_total; auto).
  destruct (candidates (PageA.belongs leadId) visits) as [|c cs]; [reflexivity|].
  cbn [List.length Nat.eqb]. cbv iota.
  destruct (array_sort (newest_first rt) (c :: cs)); reflexivity.
Qed.

(** The same for [fetchLatestVisit]. *)
Lemma fetchLatestVisit_payload
  (rt : Runtime) (leadId : jsstring) (res : Response)
  (props : list (jsstring * JSValue)) (visits : list JSValue) (st : PageState) :
  leadId <> [] ->
  ok res = true ->
  body res = Json (JObj props) ->
  lookup "visits" props = JArr visits ->
  Forall (fun v => is_nullish v = false) visits ->
  PageB.fetchLatestVisit rt leadId (Responded res) st
  = match candidates (PageB.belongs leadId) visits with
    | [] => (Normal tt, state_after (setLatestVisit JNull st),
             [Console Log "fetchLatestVisit: calling"; Fetch GET_visits;
              Console Log "fetchLatestVisit: 0 visits for lead"])
    | cands =>
        match array_sort (newest_first rt) cands with
        | Ok sorted =>
            (Normal tt, state_after (setLatestVisit (first sorted) st),
             [Console Log "fetchLatestVisit: calling"; Fetch GET_visits;
              Console Log "fetchLatestVisit: newest for lead"])
        | Raise _ =>
            (Normal tt, st,
             [Console Log "fetchLatestVisit: calling"; Fetch GET_visits;
              Console Error "fetchLatestVisit error:"])
        end
    end.
Proof.
  intros L Hok Hbody Hvisits D. rewrite Forall_forall in D.
  unfold PageB.fetchLatestVisit. rewrite (is_empty_false _ L). run_banner.
  rewrite Hok, Hbody. cbn [negb]. cbv iota.
  unfold nullish_or, get_opt. cbn [is_nullish get rbind]. rewrite Hvisits.
  cbn [is_nullish]. cbv iota. cbn [call_filter].
  rewrite (array_filter_candidates (PageB.belongs leadId) visits)
    by (intros v Hv; apply PageB_belongs_total; auto).
  destruct (candidates (PageB.belongs leadId) visits) as [|c cs]; [reflexivity|].
  cbn [List.length Nat.eqb]. cbv iota.
  destruct (array_sort (newest_first rt) (c :: cs)); reflexivity.
Qed.

(** C4 (as amended): on a payload [{ visits: [...] }], with [cands] the
    visits of the lead: when there is none the banner becomes [null] and
    nothing is reported as an error; when there are some and each has a
    valid date, the banner becomes one of them whose date is the latest.
    This holds on both pages. *)
Theorem banner_selects_latest
  (rt : Runtime) (leadId : jsstring) (res : Response)
  (props : list (jsstring * JSValue)) (visits : list JSValue) (st : PageState) :
  leadId <> [] ->
  ok res = true ->
  body res = Json (JObj props) ->
  lookup "visits" props = JArr visits ->
  Forall (fun v => is_nullish v = false) visits ->
  let candsA := candidates (PageA.belongs leadId) visits in
  let candsB := candidates (PageB.belongs leadId) visits in
  let rA := PageA.loadVisitBanner rt leadId (Responded res) st in
  let rB := PageB.fetchLatestVisit rt leadId (Responded res) st in
  (candsA = [] ->
     completion rA = Normal tt /\ latestVisit (state_after rA) = JNull /\
     error (state_after rA) = error st) /\
  (candsB = [] ->
     completion rB = Normal tt /\ latestVisit (state_after rB) = JNull /\
     error (state_after rB) = error st) /\
  (candsA <> [] -> Forall (fun v => time_of rt v <> None) candsA ->
     completion rA = Normal tt /\ is_latest rt candsA (latestVisit (state_after rA))) /\
  (candsB <> [] -> Forall (fun v => time_of rt v <> None) candsB ->
     completion rB = Normal tt /\ is_latest rt candsB (latestVisit (state_after rB))).
Proof.
  intros L Hok Hbody Hvisits D candsA candsB rA rB.
  subst rA rB.
  rewrite (loadVisitBanner_payload rt leadId res props visits st Hok Hbody Hvisits D).
  rewrite (fetchLatestVisit_payload rt leadId res props visits st L Hok Hbody Hvisits D).
  fold candsA candsB.
  split; [|split; [|split]].
  - intros ->. repeat split.
  - intros ->. repeat split.
  - intros N Dt. destruct (array_sort_dated rt candsA Dt) as (sorted & Hs & _ & Hhead).
    destruct candsA as [|c cs]; [contradiction|].
    rewrite Hs. split; [reflexivity|]. apply Hhead. discriminate.
  - intros N Dt. destruct (array_sort_dated rt candsB Dt) as (sorted & Hs & _ & Hhead).
    destruct candsB as [|c cs]; [contradiction|].
    rewrite Hs. split; [reflexivity|]. apply Hhead. discriminate.
Qed.

Lemma banner_selects_latest_witness :
  let visits := [Examples.visit_jan1; Examples.visit_other; Examples.visit_jan3] in
  let res := {| status := 200; body := Examples.visits_payload visits |} in
  is_latest SampleRuntime.rt [Examples.visit_jan1; Examples.visit_jan3]
    (latestVisit (state_after (PageA.loadVisitBanner SampleRuntime.rt Examples.L1
                                 (Responded res) initial_page))) /\
  is_latest SampleRuntime.rt [Examples.visit_jan1; Examples.visit_jan3]
    (latestVisit (state_after (PageB.fetchLatestVisit SampleRuntime.rt Examples.L1
                                 (Responded res) initial_page))).
Proof.
  intros visits res.
  destruct (banner_selects_latest SampleRuntime.rt Examples.L1 res
              [(lit "visits", JArr visits)] visits initial_page)
    as (_ & _ & HA & HB).
  - discriminate.
  - reflexivity.
  - reflexivity.
  - reflexivity.
  - repeat constructor.
  - split.
    + apply HA; [discriminate|]. repeat constructor; discriminate.
    + apply HB; [discriminate|]. repeat constructor; discriminate.
Defined.

(** The two visits of the lead dated 2024-01-01 and 2024-01-03: the banner
    is the one of 2024-01-03, in whichever order they arrive. *)
Example banner_jan3 :
  let pick vs := latestVisit (state_after
                    (PageA.loadVisitBanner SampleRuntime.rt Examples.L1
                       (Examples.respond 200 (Examples.visits_payload vs))
                       initial_page)) in
  let pick' vs := latestVisit (state_after
                    (PageB.fetchLatestVisit SampleRuntime.rt Examples.L1
                       (Examples.respond 200 (Examples.visits_payload vs))
                       initial_page)) in
  pick [Examples.visit_jan1; Examples.visit_jan3] = Examples.visit_jan3 /\
  pick [Examples.visit_jan3; Examples.visit_jan1] = Examples.visit_jan3 /\
  pick' [Examples.visit_jan1; Examples.visit_jan3] = Examples.visit_jan3 /\
  pick' [Examples.visit_jan3; Examples.visit_jan1] = Examples.visit_jan3.
Proof. repeat split. Qed.

(** C4, as stated, fails: of two visits of the lead, the first with a date
    that cannot be read and the second dated 2024-01-03, the banner of
    either page is the first; it is not a visit with the latest date. *)
Lemma banner_undated_first :
  let vs := [Examples.visit_undated; Examples.visit_jan3] in
  let o := Examples.respond 200 (Examples.visits_payload vs) in
  let bannerA := latestVisit (state_after
                   (PageA.loadVisitBanner SampleRuntime.rt Examples.L1 o initial_page)) in
  let bannerB := latestVisit (state_after
                   (PageB.fetchLatestVisit SampleRuntime.rt Examples.L1 o initial_page)) in
  candidates (PageA.belongs Examples.L1) vs = vs /\
  candidates (PageB.belongs Examples.L1) vs = vs /\
  bannerA = Examples.visit_undated /\ bannerB = Examples.visit_undated /\
  ~ is_latest SampleRuntime.rt vs Examples.visit_undated.
Proof.
  repeat (split; [reflexivity|]).
  intros (_ & t & Ht & _). vm_compute in Ht. discriminate.
Qed.

(* ================================================================== *)
(** ** The visit booking modal *)

Ltac run_modal :=
  cbv beta iota zeta delta
    [async try_finally try_catch bind ret throw return_ modify read emit lift
     console fetch res_json VisitBookingModal.setError
     VisitBookingModal.setLoading VisitBookingModal.toISOString
     completion state_after trace];
  cbn [app fst snd VisitBookingModal.date VisitBookingModal.timeSlot
       VisitBookingModal.error VisitBookingModal.loading].

(** [handleSubmit] with a date the runtime accepts and an answer of the
    backend: one request, then [onSuccess] or the error of the verdict. *)
Lemma handleSubmit_answered
  (rt : Runtime) (leadId : jsstring) (res : Response)
  (st : VisitBookingModal.ModalState) (iso : jsstring) :
  VisitBookingModal.date st <> [] ->
  VisitBookingModal.timeSlot st <> [] ->
  Date_toISOString rt (VisitBookingModal.date st) = Some iso ->
  VisitBookingModal.handleSubmit rt leadId (Responded res) st
  = match booking_verdict rt res with
    | Ok _ =>
        (Normal tt, submitted st None,
         [Fetch (VisitBookingModal.POST_book leadId st iso); OnSuccess])
    | Raise e =>
        (Normal tt, submitted st (Some (message_or rt e "Failed to book visit")),
         [Fetch (VisitBookingModal.POST_book leadId st iso);
          Console Error "Visit booking error:"])
    end.
Proof.
  intros Hd Hs Hiso. unfold VisitBookingModal.handleSubmit, booking_verdict, body_or_empty.
  run_modal. rewrite (is_empty_false _ Hd), (is_empty_false _ Hs), Hiso.
  cbn [orb]. cbv iota.
  destruct (body res) as [| |data];
    (destruct (VisitBookingModal.booking_failed res _) as [[|]|e]; cbn [rbind];
     [ destruct (VisitBookingModal.failure_text res _) as [text|e]; cbn [rbind];
       [ destruct (VisitBookingModal.ToString rt text) as [m|e]; reflexivity
       | reflexivity ]
     | reflexivity
     | reflexivity ]).
Qed.

(** The verdict is favourable exactly when the status is a success status
    and [ok] is truthy in the body. *)
Lemma booking_verdict_ok (rt : Runtime) (res : Response) :
  (exists u, booking_verdict rt res = Ok u) <->
  ok res = true /\
  exists k, get (body_or_empty res) "ok" = Ok k /\ ToBoolean k = true.
Proof.
  unfold booking_verdict, VisitBookingModal.booking_failed, or_else.
  destruct (ok res); cbn [negb rbind]; cbv iota.
  - destruct (get (body_or_empty res) (lit "ok")) as [k|e]; cbn [rbind].
    + destruct (ToBoolean k) eqn:T; cbn [negb]; cbv iota.
      * split; [intros _; split; [reflexivity|]; eauto|eauto].
      * split.
        -- intros [u H].
           destruct (VisitBookingModal.failure_text _ _) as [text|]; cbn [rbind] in H;
             [destruct (VisitBookingModal.ToString rt text)|]; discriminate.
        -- intros (_ & k' & [= <-] & T'). congruence.
    + split; [intros [u H]; discriminate|intros (_ & k & H & _); discriminate].
  - split; [|intros [H _]; discriminate].
    intros [u H].
    destruct (VisitBookingModal.failure_text _ _) as [text|]; cbn [rbind] in H;
      [destruct (VisitBookingModal.ToString rt text)|]; discriminate.
Qed.

(** [onSuccess] is called only after an answer with a success status and a
    truthy [ok]: not when the form is incomplete, the date is invalid or the
    request fails. *)
Lemma handleSubmit_success_only
  (rt : Runtime) (leadId : jsstring) (o : FetchOutcome)
  (st : VisitBookingModal.ModalState) :
  In OnSuccess (trace (VisitBookingModal.handleSubmit rt leadId o st)) ->
  exists res, o = Responded res /\ ok res = true /\
              exists k, get (body_or_empty res) "ok" = Ok k /\ ToBoolean k = true.
Proof.
  destruct (VisitBookingModal.date st) as [|c d] eqn:Hd.
  { unfold VisitBookingModal.handleSubmit. run_modal. rewrite Hd. intros []. }
  destruct (VisitBookingModal.timeSlot st) as [|c' t] eqn:Hs.
  { unfold VisitBookingModal.handleSubmit. run_modal. rewrite Hd, Hs. intros []. }
  destruct (Date_toISOString rt (c :: d)) as [iso|] eqn:Hiso.
  - destruct o as [msg|res].
    + unfold VisitBookingModal.handleSubmit. run_modal. rewrite Hd, Hs, Hiso.
      intros [H|[H|[]]]; discriminate.
    + rewrite (handleSubmit_answered rt leadId res st iso);
        try (rewrite ?Hd, ?Hs; (discriminate || assumption)).
      pose proof (booking_verdict_ok rt res) as V.
      destruct (booking_verdict rt res) as [u|e]; cbn [trace snd].
      * intros _. exists res. split; [reflexivity|]. apply V. eauto.
      * intros [H|[H|[]]]; discriminate.
  - unfold VisitBookingModal.handleSubmit. run_modal. rewrite Hd, Hs, Hiso.
    intros [H|[]]. discriminate.
Qed.

(** C10: [handleSubmit] of the booking modal.
    - With no date it asks for one and sends nothing.
    - [onSuccess] is called only when the backend answered with a success
      status and a truthy [ok] in the body.
    - With a date the runtime accepts and an answer of the backend,
      [onSuccess] is called exactly when the status is a success status and
      the [ok] of the body is truthy.
    - A success status with a falsy [ok] and an [error] text shows that
      text; a body that is not JSON is read as [{}] and shows
      [Booking failed (<status>)]; in both cases [onSuccess] is not called. *)
Theorem handleSubmit_outcomes (rt : Runtime) (leadId : jsstring) :
  (forall o st,
     VisitBookingModal.date st = [] ->
     let r := VisitBookingModal.handleSubmit rt leadId o st in
     completion r = Normal tt /\ trace r = [] /\
     VisitBookingModal.error (state_after r)
     = Some (lit "Please pick a date and time slot.")) /\
  (forall o st,
     In OnSuccess (trace (VisitBookingModal.handleSubmit rt leadId o st)) ->
     exists res, o = Responded res /\ ok res = true /\
                 exists k, get (body_or_empty res) "ok" = Ok k /\
                           ToBoolean k = true) /\
  (forall res st iso,
     VisitBookingModal.date st <> [] ->
     VisitBookingModal.timeSlot st <> [] ->
     Date_toISOString rt (VisitBookingModal.date st) = Some iso ->
     let r := VisitBookingModal.handleSubmit rt leadId (Responded res) st in
     completion r = Normal tt /\
     VisitBookingModal.loading (state_after r) = false /\
     (In OnSuccess (trace r) <->
        ok res = true /\
        exists k, get (body_or_empty res) "ok" = Ok k /\ ToBoolean k = true) /\
     (forall props e,
        ok res = true -> body res = Json (JObj props) ->
        ToBoolean (lookup "ok" props) = false ->
        lookup "error" props = JStr e -> e <> [] ->
        VisitBookingModal.error (state_after r) = Some e /\
        ~ In OnSuccess (trace r)) /\
     (body res = NotJson \/ body res = EmptyBody ->
        VisitBookingModal.error (state_after r)
        = Some (lit "Booking failed (" ++ digits (status res) ++ lit ")") /\
        ~ In OnSuccess (trace r))).
Proof.
  split; [|split].
  - intros o st Hd. unfold VisitBookingModal.handleSubmit. run_modal.
    rewrite Hd. repeat split.
  - intros o st. apply handleSubmit_success_only.
  - intros res st iso Hd Hs Hiso r. subst r.
    rewrite (handleSubmit_answered rt leadId res st iso Hd Hs Hiso).
    pose proof (booking_verdict_ok rt res) as V.
    assert (NoCall : forall s l,
              ~ In OnSuccess [Fetch s; Console Error l]).
    { intros s l [H|[H|[]]]; discriminate. }
    split; [destruct (booking_verdict rt res); reflexivity|].
    split; [destruct (booking_verdict rt res); reflexivity|].
    split; [|split].
    + destruct (booking_verdict rt res) as [u|e]; cbn [trace snd].
      * split; [intros _; apply V; eauto|intros _; right; now left].
      * split; [intros H; now apply NoCall in H|].
        intros H. apply V in H as [u H]. discriminate.
    + intros props e Hok Hbody Hfalsy Herr He.
      unfold booking_verdict, body_or_empty, VisitBookingModal.booking_failed,
        VisitBookingModal.failure_text, or_else, logical_or.
      rewrite Hok, Hbody. cbn [negb rbind get]. cbv iota.
      rewrite Hfalsy, Herr. cbn [negb rbind ToBoolean VisitBookingModal.ToString].
      rewrite (is_empty_false _ He). cbn [negb rbind VisitBookingModal.ToString].
      cbv iota. unfold message_or, message_of. rewrite (is_empty_false _ He).
      split; [reflexivity|apply NoCall].
    + intros Hbody.
      unfold booking_verdict, body_or_empty, VisitBookingModal.booking_failed,
        VisitBookingModal.failure_text, or_else, logical_or.
      assert (E : match body res with Json v => v | _ => JObj [] end = JObj [])
        by (destruct Hbody as [-> | ->]; reflexivity).
      rewrite E. cbn [get lookup rbind ToBoolean negb].
      destruct (negb (ok res)); cbn [rbind VisitBookingModal.ToString];
        (split; [reflexivity|apply NoCall]).
Qed.

Lemma handleSubmit_outcomes_witness :
  (let r := VisitBookingModal.handleSubmit SampleRuntime.rt Examples.L1
              (Responded ModalExamples.accepted) ModalExamples.opened in
   trace r = [] /\
   VisitBookingModal.error (state_after r)
   = Some (lit "Please pick a date and time slot.")) /\
  (let r := VisitBookingModal.handleSubmit SampleRuntime.rt Examples.L1
              (Responded ModalExamples.accepted) ModalExamples.picked in
   In OnSuccess (trace r)) /\
  (let r := VisitBookingModal.handleSubmit SampleRuntime.rt Examples.L1
              (Responded ModalExamples.refused) ModalExamples.picked in
   VisitBookingModal.error (state_after r) = Some (lit "Slot taken") /\
   ~ In OnSuccess (trace r)) /\
  (let r := VisitBookingModal.handleSubmit SampleRuntime.rt Examples.L1
              (Responded ModalExamples.html) ModalExamples.picked in
   VisitBookingModal.error (state_after r) = Some (lit "Booking failed (200)") /\
   ~ In OnSuccess (trace r)).
Proof.
  destruct (handleSubmit_outcomes SampleRuntime.rt Examples.L1)
    as (Hempty & _ & Hsent).
  split; [|split; [|split]].
  - apply (Hempty (Responded ModalExamples.accepted) ModalExamples.opened eq_refl).
  - destruct (Hsent ModalExamples.accepted ModalExamples.picked
                (lit "2024-01-03T10:30:00.000Z")) as (_ & _ & Hiff & _);
      try discriminate; [reflexivity|].
    apply Hiff. split; [reflexivity|]. exists (JBool true). split; reflexivity.
  - destruct (Hsent ModalExamples.refused ModalExamples.picked
                (lit "2024-01-03T10:30:00.000Z")) as (_ & _ & _ & Hno & _);
      try discriminate; [reflexivity|].
    apply (Hno [(lit "ok", JBool false); (lit "error", JStr (lit "Slot taken"))]
               (lit "Slot taken")); try reflexivity. discriminate.
  - destruct (Hsent ModalExamples.html ModalExamples.picked
                (lit "2024-01-03T10:30:00.000Z")) as (_ & _ & _ & _ & Hhtml);
      try discriminate; [reflexivity|].
    apply Hhtml. now left.
Defined.

(* ================================================================== *)
(** ** Numbers *)

Section RoundingFacts.
Variables prec emax : Z.

Lemma shr_1_nonneg (mrs : shr_record) :
  (0 <= shr_m mrs)%Z -> (0 <= shr_m (shr_1 mrs))%Z.
Proof.
  destruct mrs as [m r s]. simpl.
  destruct m as [|p|p]; simpl; try lia; destruct p; simpl; lia.
Qed.

Lemma iter_pos_invariant {A : Type} (P : A -> Prop) (f : A -> A) :
  (forall x, P x -> P (f x)) ->
  forall n x, P x -> P (iter_pos f n x).
Proof.
  intros Hf. induction n as [n IH|n IH|]; intros x Hx; simpl; auto.
Qed.

Lemma shr_nonneg (mrs : shr_record) (e n : Z) :
  (0 <= shr_m mrs)%Z -> (0 <= shr_m (fst (shr mrs e n)))%Z.
Proof.
  intros H. unfold shr. destruct n; simpl; try assumption.
  apply (iter_pos_invariant (fun r => 0 <= shr_m r)%Z); [apply shr_1_nonneg|assumption].
Qed.

Lemma shr_fexp_nonneg (m e : Z) (l : location) :
  (0 <= m)%Z -> (0 <= shr_m (fst (shr_fexp prec emax m e l)))%Z.
Proof.
  intros H. unfold shr_fexp. apply shr_nonneg.
  destruct l as [|[| |]]; simpl; assumption.
Qed.

Lemma round_nearest_even_nonneg (m : Z) (l : location) :
  (0 <= m)%Z -> (0 <= round_nearest_even m l)%Z.
Proof.
  intros H. unfold round_nearest_even.
  destruct l as [|[| |]]; try destruct (Z.even m); lia.
Qed.

(** Rounding a non-negative mantissa never gives NaN. *)
Lemma binary_round_aux_not_nan (sx : bool) (mx ex : Z) (lx : location) :
  (0 <= mx)%Z -> binary_round_aux prec emax sx mx ex lx <> S754_nan.
Proof.
  intros H. unfold binary_round_aux.
  pose proof (shr_fexp_nonneg mx ex lx H) as H1.
  destruct (shr_fexp prec emax mx ex lx) as [mrs' e']. simpl in H1.
  pose proof (shr_fexp_nonneg _ e' loc_Exact
                (round_nearest_even_nonneg _ (loc_of_shr_record mrs') H1)) as H2.
  destruct (shr_fexp prec emax _ e' loc_Exact) as [mrs'' e'']. simpl in H2.
  destruct (shr_m mrs'') as [|p|p]; try discriminate; [|lia].
  destruct (e'' <=? emax - prec)%Z; discriminate.
Qed.

Lemma binary_round_not_nan (sx : bool) (mx : positive) (ex : Z) :
  binary_round prec emax sx mx ex <> S754_nan.
Proof.
  unfold binary_round. destruct (shl_align mx ex _) as [mz ez].
  apply binary_round_aux_not_nan. lia.
Qed.

Lemma binary_normalize_not_nan (m e : Z) (szero : bool) :
  binary_normalize prec emax m e szero <> S754_nan.
Proof.
  unfold binary_normalize.
  destruct m; [discriminate|apply binary_round_not_nan|apply binary_round_not_nan].
Qed.

(** A finite or zero number divided by a finite number that is not zero
    is not NaN. *)
Lemma SFdiv_not_nan (x y : spec_float) (sy : bool) (my : positive) (ey : Z) :
  y = S754_finite sy my ey ->
  (forall s, x <> S754_infinity s) -> x <> S754_nan ->
  SFdiv prec emax x y <> S754_nan.
Proof.
  intros -> Hinf Hnan. destruct x as [sx| sx | |sx mx ex]; simpl; try discriminate.
  - contradiction.
  - unfold SFdiv_core_binary.
    set (m' := match _ with Zpos _ => _ | Z0 => _ | Zneg _ => _ end).
    assert (Hm : (0 <= m')%Z).
    { subst m'. destruct (_ - _ - _)%Z; try lia. apply Z.shiftl_nonneg. lia. }
    pose proof (Z.div_pos m' (Zpos my) Hm ltac:(lia)) as Hq.
    unfold Z.div in Hq.
    destruct (Z.div_eucl m' (Zpos my)) as [q r].
    apply binary_round_aux_not_nan. exact Hq.
Qed.

(** A number that is not NaN times a finite number that is not zero is
    not NaN. *)
Lemma SFmul_not_nan (x y : spec_float) (sy : bool) (my : positive) (ey : Z) :
  y = S754_finite sy my ey -> x <> S754_nan ->
  SFmul prec emax x y <> S754_nan.
Proof.
  intros -> Hnan. destruct x as [sx|sx| |sx mx ex]; simpl; try discriminate.
  - contradiction.
  - apply binary_round_aux_not_nan. lia.
Qed.
End RoundingFacts.

Lemma SFeqb_refl (p : spec_float) : p <> S754_nan -> SFeqb p p = true.
Proof.
  destruct p as [s|s| |s m e]; intros H; try reflexivity; try contradiction.
  - destruct s; reflexivity.
  - unfold SFeqb, SFcompare. rewrite Z.compare_refl.
    change (Pos.compare_cont Eq m m) with (Pos.compare m m).
    rewrite Pos.compare_refl. destruct s; reflexivity.
Qed.

(** [is_nan] recognises exactly the NaN of the format. *)
Lemma is_nan_spec (x : float) : PrimFloat.is_nan x = false <-> Prim2SF x <> S754_nan.
Proof.
  unfold PrimFloat.is_nan. rewrite FloatAxioms.eqb_spec. split.
  - intros H E. rewrite E in H. discriminate.
  - intros H. now rewrite (SFeqb_refl _ H).
Qed.

Lemma finite_cases (x : float) :
  PrimFloat.is_finite x = true ->
  Prim2SF x <> S754_nan /\ forall s, Prim2SF x <> S754_infinity s.
Proof.
  unfold PrimFloat.is_finite. intros H.
  apply negb_true_iff, orb_false_iff in H as [Hn Hi].
  apply is_nan_spec in Hn. split; [exact Hn|].
  intros s E. unfold PrimFloat.is_infinity in Hi.
  rewrite FloatAxioms.eqb_spec, FloatAxioms.abs_spec, E in Hi. discriminate.
Qed.

Lemma positive_cases (x : float) :
  (0 <? x)%float = true -> PrimFloat.is_finite x = true ->
  exists m e, Prim2SF x = S754_finite false m e.
Proof.
  intros Hlt Hfin. destruct (finite_cases x Hfin) as [Hn Hi].
  rewrite FloatAxioms.ltb_spec in Hlt.
  change (Prim2SF 0%float) with (S754_zero false) in Hlt.
  destruct (Prim2SF x) as [s|s| |s m e]; try discriminate.
  - exfalso. now apply (Hi s).
  - destruct s; [discriminate|]. eauto.
Qed.

(** A denominator that is zero (of either sign) is not above zero. *)
Lemma zero_not_positive (x : float) :
  PrimFloat.is_zero x = true -> (0 <? x)%float = false.
Proof.
  unfold PrimFloat.is_zero. rewrite FloatAxioms.eqb_spec, FloatAxioms.ltb_spec.
  change (Prim2SF 0%float) with (S754_zero false).
  change (Prim2SF PrimFloat.zero) with (S754_zero false).
  destruct (Prim2SF x) as [s|s| |s m e]; try discriminate; try reflexivity.
  - destruct s; discriminate.
  - destruct s; discriminate.
Qed.

Lemma of_uint63_not_nan (i : int) : Prim2SF (PrimFloat.of_uint63 i) <> S754_nan.
Proof. rewrite FloatAxioms.of_uint63_spec. apply binary_normalize_not_nan. Qed.

Lemma Num_of_Z_not_nan (z : Z) : PrimFloat.is_nan (InsightsTab.Num_of_Z z) = false.
Proof.
  unfold InsightsTab.Num_of_Z. apply is_nan_spec.
  destruct (z <? 0)%Z.
  - rewrite FloatAxioms.opp_spec. pose proof (of_uint63_not_nan (of_Z (- z))) as H.
    destruct (Prim2SF (PrimFloat.of_uint63 (of_Z (- z)))); simpl; congruence.
  - apply of_uint63_not_nan.
Qed.

(** [Math.round] gives NaN only for NaN. *)
Lemma Math_round_not_nan (x : float) :
  PrimFloat.is_nan x = false -> PrimFloat.is_nan (InsightsTab.Math_round x) = false.
Proof.
  intros H. unfold InsightsTab.Math_round.
  destruct (Prim2SF x) as [s|s| |s m e]; try exact H.
  destruct (0 <=? e)%Z; [exact H|].
  cbv zeta. destruct (_ =? 0)%Z.
  - destruct s; reflexivity.
  - apply Num_of_Z_not_nan.
Qed.

(** The displayed number is not NaN when the counts are finite and the
    denominator is above zero. *)
Lemma percent_not_nan (num den : float) :
  PrimFloat.is_finite num = true -> PrimFloat.is_finite den = true ->
  (0 <? den)%float = true ->
  PrimFloat.is_nan (InsightsTab.Math_round (num / den * InsightsTab.hundred)%float) = false.
Proof.
  intros Hn Hd Hpos. apply Math_round_not_nan, is_nan_spec.
  destruct (finite_cases num Hn) as [Nn Ni].
  destruct (positive_cases den Hpos Hd) as (m & e & Hden).
  rewrite FloatAxioms.mul_spec, FloatAxioms.div_spec.
  eapply (SFmul_not_nan prec emax).
  - vm_compute. reflexivity.
  - eapply SFdiv_not_nan; eauto.
Qed.

(* ================================================================== *)
(** ** The insights tab *)

(** Each percentage is the literal [0%] when its denominator is not above
    zero, and the template otherwise. *)
Lemma shown_guard (rt : Runtime) (m : InsightsTab.Metrics)
  (s : jsstring) (num den : float) :
  In (s, num, den) (shown rt m) ->
  s = if (0 <? den)%float then percent_of rt num den else lit "0%".
Proof.
  unfold shown, percent_of, InsightsTab.hotShare, InsightsTab.fakeRate,
    InsightsTab.aiReplyCoverage.
  intros [H|[H|[H|[]]]]; injection H as <- <- <-; reflexivity.
Qed.

(** C9 (as amended): each of the three percentages is the literal [0%]
    whenever its denominator is not above zero, a denominator that is zero
    in particular; otherwise it is the rounded ratio followed by [%], and
    the number printed is not NaN when both counts are finite numbers. *)
Theorem percentages_guarded (rt : Runtime) (m : InsightsTab.Metrics)
  (s : jsstring) (num den : float) :
  In (s, num, den) (shown rt m) ->
  ((0 <? den)%float = false -> s = lit "0%") /\
  (PrimFloat.is_zero den = true -> s = lit "0%") /\
  ((0 <? den)%float = true ->
     s = percent_of rt num den /\
     (PrimFloat.is_finite num = true -> PrimFloat.is_finite den = true ->
      PrimFloat.is_nan
        (InsightsTab.Math_round ((num / den) * InsightsTab.hundred)%float) = false)).
Proof.
  intros H. rewrite (shown_guard rt m s num den H).
  split; [|split].
  - intros ->. reflexivity.
  - intros Z. now rewrite (zero_not_positive den Z).
  - intros P. rewrite P. split; [reflexivity|].
    intros Fn Fd. now apply percent_not_nan.
Qed.

Lemma percentages_guarded_witness :
  InsightsTab.hotShare SampleRuntime.rt MetricsExamples.quiet = lit "0%" /\
  InsightsTab.aiReplyCoverage SampleRuntime.rt MetricsExamples.busy
  = percent_of SampleRuntime.rt 10 40 /\
  PrimFloat.is_nan (InsightsTab.Math_round ((10 / 40) * InsightsTab.hundred)%float)
  = false.
Proof.
  split.
  - apply (percentages_guarded SampleRuntime.rt MetricsExamples.quiet
             (InsightsTab.hotShare SampleRuntime.rt MetricsExamples.quiet) 0 0).
    + left. reflexivity.
    + reflexivity.
  - destruct (percentages_guarded SampleRuntime.rt MetricsExamples.busy
                (InsightsTab.aiReplyCoverage SampleRuntime.rt MetricsExamples.busy)
                10 40) as (_ & _ & H).
    + right. right. left. reflexivity.
    + destruct (H eq_refl) as [Hs Hn]. split; [exact Hs|].
      apply Hn; reflexivity.
Defined.

(** What the examples show. *)
Example percentages_busy :
  InsightsTab.hotShare SampleRuntime.rt MetricsExamples.busy = lit "14%" /\
  InsightsTab.fakeRate SampleRuntime.rt MetricsExamples.busy = lit "1%" /\
  InsightsTab.aiReplyCoverage SampleRuntime.rt MetricsExamples.busy = lit "25%".
Proof. repeat split. Qed.

(** C9, as stated, fails: with counts that overflowed to [Infinity] the hot
    share shown is [NaN%]; and with a total below zero, which is not zero,
    it is [0%] and not the rounded ratio [-25%]. *)
Lemma percentages_overflowed_NaN :
  InsightsTab.hotShare SampleRuntime.rt MetricsExamples.overflowed = lit "NaN%" /\
  PrimFloat.is_zero (InsightsTab.totalLeads MetricsExamples.overflowed) = false /\
  InsightsTab.hotShare SampleRuntime.rt MetricsExamples.negative = lit "0%" /\
  PrimFloat.is_zero (InsightsTab.totalLeads MetricsExamples.negative) = false /\
  percent_of SampleRuntime.rt 1 (-4) = lit "-25%".
Proof. repeat split. Qed.

(* ================================================================== *)
(** ** The lead page, first file: fetchMessages *)

Lemma message_or_text (rt : Runtime) (e : Exn) (fallback : jsstring) :
  fallback <> [] -> message_or rt e fallback <> [].
Proof.
  intros F. unfold message_or.
  destruct (message_of rt e) as [|c m] eqn:E; simpl; [exact F|discriminate].
Qed.

(** What [fetchMessages] of the first file does to the page is the same
    whatever the page was: it settles, and writes the conversation, the
    loading flag and the error only. *)
Lemma PageA_fetchMessages_shape (rt : Runtime) (leadId : jsstring) (o : FetchOutcome) :
  exists fl fo fe tr, forall st,
    PageA.fetchMessages rt leadId o st
    = (Normal tt,
       with_conversation (fl (lead st)) (fo (loading st)) (fe (error st)) st, tr).
Proof.
  unfold PageA.fetchMessages.
  destruct leadId as [|c l].
  { exists (fun x => x), (fun x => x), (fun x => x), []. now intros []. }
  destruct o as [msg|[s b]].
  { exists (fun x => x), (fun _ => false),
      (fun _ => Some (message_or rt (FetchFailed msg) "Failed to load messages")).
    eexists. intros []. reflexivity. }
  destruct (ok {| status := s; body := b |}) eqn:Hok.
  - destruct b as [| |data].
    + exists (fun x => x), (fun _ => false),
        (fun _ => Some (message_or rt SyntaxError "Failed to load messages")).
      eexists. intros []. run. rewrite Hok. reflexivity.
    + exists (fun x => x), (fun _ => false),
        (fun _ => Some (message_or rt SyntaxError "Failed to load messages")).
      eexists. intros []. run. rewrite Hok. reflexivity.
    + exists (fun _ => data), (fun _ => false), (fun _ => None).
      eexists. intros []. run. rewrite Hok. reflexivity.
  - exists (fun x => x), (fun _ => false),
      (fun _ => Some (message_or rt (UserError (lit "API error: " ++ digits s))
                        "Failed to load messages")).
    eexists. intros []. run. rewrite Hok. reflexivity.
Qed.

(** X1: [fetchMessages] of the first file settles whatever the fetch does:
    the promise resolves (the [try]/[catch] lets nothing out), and it writes
    nothing but the conversation, the loading flag and the error; with a
    lead in the route it makes the one request and ends not loading. *)
Theorem PageA_fetchMessages_settles
  (rt : Runtime) (leadId : jsstring) (o : FetchOutcome) (st : PageState) :
  let r := PageA.fetchMessages rt leadId o st in
  completion r = Normal tt /\
  same_but_conversation st (state_after r) /\
  (leadId = [] -> r = (Normal tt, st, [])) /\
  (leadId <> [] ->
     loading (state_after r) = false /\
     requests (trace r) = [Fetch (GET_messages leadId)]).
Proof.
  cbv zeta. unfold PageA.fetchMessages, same_but_conversation.
  destruct leadId as [|c l].
  { split; [reflexivity|]. split; [repeat split|]. split; [reflexivity|].
    intros N. now contradiction N. }
  destruct st as [ld lo er inp se lv sh].
  destruct o as [msg|[s b]].
  { repeat split; discriminate. }
  run. destruct (ok {| status := s; body := b |}); destruct b;
    repeat split; discriminate.
Qed.

Lemma PageA_fetchMessages_settles_witness :
  let r := PageA.fetchMessages SampleRuntime.rt Examples.L1
             (Examples.respond 404 NotJson) Examples.loaded_page in
  completion r = Normal tt /\
  loading (state_after r) = false /\
  requests (trace r) = [Fetch (GET_messages Examples.L1)].
Proof.
  destruct (PageA_fetchMessages_settles SampleRuntime.rt Examples.L1
              (Examples.respond 404 NotJson) Examples.loaded_page)
    as (Hc & _ & _ & Hl).
  destruct Hl as [Hlo Hreq]; [discriminate|].
  split; [exact Hc|]. split; [exact Hlo|exact Hreq].
Defined.

(** X2: what [fetchMessages] of the first file makes of each answer. A
    status that is not a success status shows [API error: <status>] and
    keeps the conversation; a success status with a JSON body stores that
    body as it is and clears the error; a success status with a body that
    is not JSON, and a failed request, show the message of the error (or
    [Failed to load messages] when it has none) and keep the conversation. *)
Theorem PageA_fetchMessages_outcomes
  (rt : Runtime) (leadId : jsstring) (st : PageState) :
  leadId <> [] ->
  let after o := state_after (PageA.fetchMessages rt leadId o st) in
  (forall res, ok res = false ->
     error (after (Responded res))
     = Some (lit "API error: " ++ digits (status res)) /\
     lead (after (Responded res)) = lead st) /\
  (forall res data, ok res = true -> body res = Json data ->
     lead (after (Responded res)) = data /\
     error (after (Responded res)) = None) /\
  (forall res, ok res = true -> (forall data, body res <> Json data) ->
     error (after (Responded res))
     = Some (message_or rt SyntaxError "Failed to load messages") /\
     lead (after (Responded res)) = lead st) /\
  (forall msg,
     error (after (NetworkFailure msg))
     = Some (if is_empty msg then lit "Failed to load messages" else msg) /\
     lead (after (NetworkFailure msg)) = lead st).
Proof.
  intros L after. subst after. unfold PageA.fetchMessages.
  rewrite (is_empty_false _ L). destruct st as [ld lo er inp se lv sh].
  split; [|split; [|split]].
  - intros res Hok. run. rewrite Hok. split; reflexivity.
  - intros res data Hok Hbody. run. rewrite Hok, Hbody. split; reflexivity.
  - intros res Hok Hbody. run. rewrite Hok.
    destruct (body res) as [| |data]; try (split; reflexivity).
    now contradiction (Hbody data).
  - intros msg. run. unfold message_or, message_of. destruct msg; split; reflexivity.
Qed.

Lemma PageA_fetchMessages_outcomes_witness :
  let after o := state_after (PageA.fetchMessages SampleRuntime.rt Examples.L1 o
                                Examples.loaded_page) in
  error (after (Examples.respond 500 EmptyBody)) = Some (lit "API error: 500") /\
  lead (after (Examples.respond 500 EmptyBody)) = lead Examples.loaded_page /\
  lead (after (Examples.respond 200 (Json Examples.payload_of_L7)))
  = Examples.payload_of_L7 /\
  error (after (Examples.respond 200 NotJson))
  = Some (lit "Unexpected end of JSON input") /\
  error (after (NetworkFailure [])) = Some (lit "Failed to load messages").
Proof.
  destruct (PageA_fetchMessages_outcomes SampleRuntime.rt Examples.L1
              Examples.loaded_page) as (Hbad & Hgood & Htext & Hnet).
  { discriminate. }
  destruct (Hbad {| status := 500; body := EmptyBody |} eq_refl) as [E1 E2].
  destruct (Hgood {| status := 200; body := Json Examples.payload_of_L7 |}
              Examples.payload_of_L7 eq_refl eq_refl) as [E3 _].
  destruct (Htext {| status := 200; body := NotJson |} eq_refl) as [E4 _].
  { discriminate. }
  destruct (Hnet []) as [E5 _].
  split; [exact E1|]. split; [exact E2|]. split; [exact E3|].
  split; [exact E4|exact E5].
Defined.

(* ================================================================== *)
(** ** The lead page, second file: fetchMessages *)

(** X3: [fetchMessages] of the second file never looks at the status of
    the answer: two answers with the same body leave the same page, settle
    the same way and make the same request. An error status with a JSON
    body is normalized and stored like a success. *)
Theorem PageB_fetchMessages_ignores_status
  (rt : Runtime) (leadId : jsstring) (s1 s2 : N) (b : Body) (st : PageState) :
  let r1 := PageB.fetchMessages rt leadId (Responded {| status := s1; body := b |}) st in
  let r2 := PageB.fetchMessages rt leadId (Responded {| status := s2; body := b |}) st in
  state_after r1 = state_after r2 /\ completion r1 = completion r2 /\
  requests (trace r1) = requests (trace r2).
Proof.
  cbv zeta. unfold PageB.fetchMessages.
  destruct (is_empty leadId); [repeat split|].
  destruct b; repeat split.
Qed.

(** What the normalizer builds from a payload it keeps: an object of the
    three fields, whose messages are the payload's. *)
Lemma normalize_fields (leadId : jsstring) (data : JSValue) :
  ToBoolean data = true ->
  exists l n,
    PageB.normalize leadId data
    = Ok (JObj [(lit "leadId", l); (lit "name", n);
                (lit "messages", payload_messages data)]).
Proof.
  intros T. unfold PageB.normalize, payload_messages. rewrite T.
  cbn [negb]. cbv iota.
  pose proof (truthy_defined data T) as D.
  destruct (get_defined data (lit "messages") D) as [m Hm].
  destruct (get_defined data (lit "leadId") D) as [l Hl].
  destruct (get_defined data (lit "name") D) as [nm Hn].
  destruct (get_defined data (lit "leadName") D) as [ln Hln].
  destruct (get_defined data (lit "data") D) as [d Hd].
  destruct (get_opt_total d (lit "messages")) as [dm Hdm].
  rewrite (fallback_condition_false data D).
  unfold nullish_or. rewrite Hm, Hl, Hn. cbn [rbind].
  assert (Arr : forall v, isArray v = true -> is_nullish v = false)
    by (intros v Hv; destruct v; try discriminate; reflexivity).
  destruct (isArray m) eqn:Am.
  - rewrite (Arr m Am). cbn [negb]. cbv iota.
    repeat first
      [ progress (rewrite ?Hln, ?Hn)
      | progress cbn [rbind]
      | match goal with
        | |- context [if is_nullish ?b then _ else _] => destruct (is_nullish b)
        end ]; eauto.
  - destruct (isArray data) eqn:Ad.
    + destruct data; try discriminate. cbn [get] in Hm. revert Hm. literals.
      intros [= <-]. cbn [is_nullish negb]. cbv iota. eauto.
    + rewrite Hd. cbn [rbind]. rewrite Hdm.
      destruct (is_nullish m) eqn:Nm, (is_nullish dm) eqn:Ndm,
               (is_nullish l), (is_nullish nm);
        cbn [negb rbind]; cbv iota; rewrite ?Hdm; cbn [rbind];
        rewrite ?Ndm, ?Nm; cbn [rbind]; eauto.
Qed.

(** X4: from every payload it keeps (every object and array) the
    normalizer builds an object of exactly three fields, [leadId], [name]
    and [messages], and its messages are the first of [data.messages], the
    payload itself when it is an array, [data.data.messages] and [[]] that
    is not [null] or [undefined]. *)
Theorem normalize_finds_messages (leadId : jsstring) (data : JSValue) :
  ToBoolean data = true ->
  exists l n ms,
    PageB.normalize leadId data
    = Ok (JObj [(lit "leadId", l); (lit "name", n); (lit "messages", ms)]) /\
    (forall m, get data "messages" = Ok m -> is_nullish m = false -> ms = m) /\
    (forall items, data = JArr items -> ms = data) /\
    (forall m d dm,
       isArray data = false ->
       get data "messages" = Ok m -> is_nullish m = true ->
       get data "data" = Ok d -> get_opt d "messages" = Ok dm ->
       ms = if is_nullish dm then JArr [] else dm).
Proof.
  intros T. destruct (normalize_fields leadId data T) as (l & n & H).
  exists l, n, (payload_messages data). split; [exact H|].
  unfold payload_messages. split; [|split].
  - intros m Hm N. now rewrite Hm, N.
  - intros items ->. cbn [get]. literals. reflexivity.
  - intros m d dm A Hm N Hd Hdm. rewrite Hm, N, A, Hd. cbn [negb rbind].
    now rewrite Hdm.
Qed.

Lemma normalize_finds_messages_witness :
  (exists l n,
     PageB.normalize Examples.L1 (JArr [Examples.hello])
     = Ok (JObj [(lit "leadId", l); (lit "name", n);
                 (lit "messages", JArr [Examples.hello])])) /\
  (exists l n,
     PageB.normalize Examples.L1
       (JObj [(lit "data", JObj [(lit "messages", JArr [Examples.hello])])])
     = Ok (JObj [(lit "leadId", l); (lit "name", n);
                 (lit "messages", JArr [Examples.hello])])).
Proof.
  split.
  - destruct (normalize_finds_messages Examples.L1 (JArr [Examples.hello]) eq_refl)
      as (l & n & ms & H & _ & Harr & _).
    rewrite (Harr [Examples.hello] eq_refl) in H. eauto.
  - destruct (normalize_finds_messages Examples.L1
                (JObj [(lit "data", JObj [(lit "messages", JArr [Examples.hello])])])
                eq_refl)
      as (l & n & ms & H & _ & _ & Hnested).
    rewrite (Hnested JUndefined
               (JObj [(lit "messages", JArr [Examples.hello])])
               (JArr [Examples.hello]) eq_refl eq_refl eq_refl eq_refl eq_refl) in H.
    eauto.
Defined.

(** X5: the phone of the header. The second file stores what the
    normalizer built, which has no [phone]: whatever the payload says, the
    phone line is empty after a fetch of the messages. The first file
    stores the payload and shows its phone. *)
Theorem phone_of_the_header
  (rt : Runtime) (leadId : jsstring) (s : N) (data : JSValue) (st : PageState) :
  leadId <> [] ->
  let o := Responded {| status := s; body := Json data |} in
  PageB_view.header_phone (state_after (PageB.fetchMessages rt leadId o st))
  = Ok (JStr []) /\
  (forall props p,
     ok {| status := s; body := Json data |} = true ->
     data = JObj props -> lookup "phone" props = JStr p -> p <> [] ->
     PageA_view.header_phone (state_after (PageA.fetchMessages rt leadId o st))
     = Ok (JStr p)).
Proof.
  intros L o. subst o. split.
  - unfold PageB.fetchMessages. rewrite (is_empty_false _ L). run.
    destruct (ToBoolean data) eqn:T.
    + destruct (normalize_fields leadId data T) as (l & n & ->).
      unfold PageB_view.header_phone, logical_or, get_opt.
      cbn [lead is_nullish get lookup rbind]. literals. reflexivity.
    + unfold PageB.normalize. rewrite T. reflexivity.
  - intros props p Hok -> Hp Np.
    unfold PageA.fetchMessages. rewrite (is_empty_false _ L). run.
    rewrite Hok. cbn [negb]. run.
    unfold PageA_view.header_phone, logical_or, get_opt.
    cbn [lead is_nullish get rbind]. rewrite Hp. cbn [ToBoolean].
    now rewrite (is_empty_false _ Np).
Qed.

Lemma phone_of_the_header_witness :
  let data := JObj [(lit "phone", JStr (lit "+91 98"));
                    (lit "messages", JArr [Examples.hello])] in
  let o := Examples.respond 200 (Json data) in
  PageB_view.header_phone
    (state_after (PageB.fetchMessages SampleRuntime.rt Examples.L1 o initial_page))
  = Ok (JStr []) /\
  PageA_view.header_phone
    (state_after (PageA.fetchMessages SampleRuntime.rt Examples.L1 o initial_page))
  = Ok (JStr (lit "+91 98")).
Proof.
  intros data o.
  destruct (phone_of_the_header SampleRuntime.rt Examples.L1 200 data initial_page)
    as [HB HA].
  { discriminate. }
  split; [exact HB|].
  apply (HA [(lit "phone", JStr (lit "+91 98"));
             (lit "messages", JArr [Examples.hello])] (lit "+91 98"));
    try reflexivity.
  discriminate.
Defined.

(* ================================================================== *)
(** ** The visit banner: what the fetchers may write *)

(** What a filter returns are elements its callback accepted. *)
Lemma array_filter_In (f : JSValue -> result bool) (l k : list JSValue) :
  array_filter f l = Ok k -> forall v, In v k -> In v l /\ f v = Ok true.
Proof.
  revert k. induction l as [|x l IH]; simpl; intros k H v Hv.
  - injection H as <-. destruct Hv.
  - destruct (f x) as [keep|] eqn:Fx; [|discriminate]. simpl in H.
    destruct (array_filter f l) as [rest|]; [|discriminate]. simpl in H.
    injection H as <-. destruct keep.
    + destruct Hv as [<-|Hv]; [split; [now left|exact Fx]|].
      destruct (IH rest eq_refl v Hv). split; [now right|assumption].
    + destruct (IH rest eq_refl v Hv). split; [now right|assumption].
Qed.

(** A sort that raises nothing returns the elements it was given. *)
Lemma insert_sorted_In (cmp : JSValue -> JSValue -> result (option Z))
  (x : JSValue) (l l' : list JSValue) :
  insert_sorted cmp x l = Ok l' -> forall v, In v l' <-> v = x \/ In v l.
Proof.
  revert l'. induction l as [|y r IH]; simpl; intros l' H v.
  - injection H as <-. simpl. intuition.
  - destruct (sort_compare cmp x y) as [c|]; [|discriminate]. simpl in H.
    destruct (c <=? 0)%Z.
    + injection H as <-. simpl. intuition.
    + destruct (insert_sorted cmp x r) as [r'|]; [|discriminate]. simpl in H.
      injection H as <-. simpl. rewrite (IH r' eq_refl v). intuition.
Qed.

Lemma sort_defined_In (cmp : JSValue -> JSValue -> result (option Z))
  (l l' : list JSValue) :
  sort_defined cmp l = Ok l' -> forall v, In v l' <-> In v l.
Proof.
  revert l'. induction l as [|x r IH]; simpl; intros l' H v.
  - injection H as <-. tauto.
  - destruct (sort_defined cmp r) as [r'|]; [|discriminate]. simpl in H.
    rewrite (insert_sorted_In cmp x r' l' H v), (IH r' eq_refl v). intuition.
Qed.

Lemma array_sort_In (cmp : JSValue -> JSValue -> result (option Z))
  (l l' : list JSValue) :
  array_sort cmp l = Ok l' -> forall v, In v l' <-> In v l.
Proof.
  unfold array_sort. intros H v.
  destruct (sort_defined cmp _) as [sorted|] eqn:S; [|discriminate].
  simpl in H. injection H as <-.
  rewrite in_app_iff, (sort_defined_In cmp _ sorted S v), !filter_In.
  destruct (is_undefined v); simpl; intuition congruence.
Qed.

Lemma first_In (l : list JSValue) : l <> [] -> In (first l) l.
Proof. destruct l; [congruence|intros _; now left]. Qed.

(** What [loadVisitBanner] does to the page is the same whatever the
    page was: it settles, and writes the banner or nothing. What it writes
    is [null] or a visit of the answer that its filter accepted. *)
Lemma loadVisitBanner_shape (rt : Runtime) (leadId : jsstring) (o : FetchOutcome) :
  exists u tr,
    (forall st, PageA.loadVisitBanner rt leadId o st = (Normal tt, with_banner u st, tr)) /\
    (forall v, u = Some v ->
       v = JNull \/
       exists res data visits,
         o = Responded res /\ ok res = true /\ body res = Json data /\
         get data "visits" = Ok (JArr visits) /\
         In v visits /\ PageA.belongs leadId v = Ok true).
Proof.
  unfold PageA.loadVisitBanner.
  destruct o as [msg|res].
  { exists None. eexists. split; [intros st; reflexivity|discriminate]. }
  destruct (ok res) eqn:Hok.
  2:{ exists None. eexists. split; [|discriminate].
      intros st. run_banner. rewrite Hok. reflexivity. }
  destruct (body res) as [| |data] eqn:Hbody;
    try (exists None; eexists; (split; [|discriminate]);
         intros st; run_banner; rewrite Hok, Hbody; reflexivity).
  destruct (get data (lit "visits")) as [vs|e] eqn:Hvs.
  2:{ exists None. eexists. split; [|discriminate].
      intros st. run_banner. rewrite Hok, Hbody. cbn [negb]. cbv iota.
      unfold logical_or. rewrite Hvs. reflexivity. }
  destruct (call_filter (if ToBoolean vs then vs else JArr []) (PageA.belongs leadId))
    as [kept|e] eqn:Hkept.
  2:{ exists None. eexists. split; [|discriminate].
      intros st. run_banner. rewrite Hok, Hbody. cbn [negb]. cbv iota.
      unfold logical_or. rewrite Hvs. cbn [rbind].
      destruct (ToBoolean vs); cbv iota; rewrite Hkept; reflexivity. }
  destruct kept as [|c cs].
  { exists (Some JNull). eexists. split; [|intros v [= <-]; now left].
    intros st. run_banner. rewrite Hok, Hbody. cbn [negb]. cbv iota.
    unfold logical_or. rewrite Hvs. cbn [rbind].
    destruct (ToBoolean vs); cbv iota; rewrite Hkept; reflexivity. }
  destruct (array_sort (newest_first rt) (c :: cs)) as [sorted|e] eqn:Hsort.
  2:{ exists None. eexists. split; [|discriminate].
      intros st. run_banner. rewrite Hok, Hbody. cbn [negb]. cbv iota.
      unfold logical_or. rewrite Hvs. cbn [rbind].
      destruct (ToBoolean vs); cbv iota; rewrite Hkept; cbn [List.length Nat.eqb];
        cbv iota; rewrite Hsort; reflexivity. }
  exists (Some (first sorted)). eexists. split.
  - intros st. run_banner. rewrite Hok, Hbody. cbn [negb]. cbv iota.
    unfold logical_or. rewrite Hvs. cbn [rbind].
    destruct (ToBoolean vs); cbv iota; rewrite Hkept; cbn [List.length Nat.eqb];
      cbv iota; rewrite Hsort; reflexivity.
  - intros v [= <-]. right.
    assert (Hin : In (first sorted) (c :: cs)).
    { apply (array_sort_In _ _ _ Hsort). apply first_In. intros ->.
      apply (array_sort_In _ _ _ Hsort c). now left. }
    destruct (ToBoolean vs) eqn:T.
    + destruct vs as [| | | | |visits|]; try discriminate.
      destruct (array_filter_In _ _ _ Hkept _ Hin) as [Hv Hb].
      exists res, data, visits. repeat split; assumption.
    + discriminate.
Qed.

(** The same for [fetchLatestVisit]. *)
Lemma fetchLatestVisit_shape (rt : Runtime) (leadId : jsstring) (o : FetchOutcome) :
  exists u tr,
    (forall st, PageB.fetchLatestVisit rt leadId o st = (Normal tt, with_banner u st, tr)) /\
    (forall v, u = Some v ->
       v = JNull \/
       exists res data visits,
         o = Responded res /\ ok res = true /\ body res = Json data /\
         get data "visits" = Ok (JArr visits) /\
         In v visits /\ PageB.belongs leadId v = Ok true).
Proof.
  unfold PageB.fetchLatestVisit.
  destruct (is_empty leadId).
  { exists None. eexists. split; [intros st; reflexivity|discriminate]. }
  destruct o as [msg|res].
  { exists None. eexists. split; [intros st; reflexivity|discriminate]. }
  destruct (ok res) eqn:Hok.
  2:{ exists None. eexists. split; [|discriminate].
      intros st. run_banner. rewrite Hok. reflexivity. }
  destruct (body res) as [| |data] eqn:Hbody;
    try (exists None; eexists; (split; [|discriminate]);
         intros st; run_banner; rewrite Hok, Hbody; reflexivity).
  destruct (get_opt_total data (lit "visits")) as [vs Hvs].
  destruct (call_filter (if is_nullish vs then JArr [] else vs) (PageB.belongs leadId))
    as [kept|e] eqn:Hkept.
  2:{ exists None. eexists. split; [|discriminate].
      intros st. run_banner. rewrite Hok, Hbody. cbn [negb]. cbv iota.
      unfold nullish_or. rewrite Hvs. cbn [rbind].
      destruct (is_nullish vs); cbv iota; rewrite Hkept; reflexivity. }
  destruct kept as [|c cs].
  { exists (Some JNull). eexists. split; [|intros v [= <-]; now left].
    intros st. run_banner. rewrite Hok, Hbody. cbn [negb]. cbv iota.
    unfold nullish_or. rewrite Hvs. cbn [rbind].
    destruct (is_nullish vs); cbv iota; rewrite Hkept; reflexivity. }
  destruct (array_sort (newest_first rt) (c :: cs)) as [sorted|e] eqn:Hsort.
  2:{ exists None. eexists. split; [|discriminate].
      intros st. run_banner. rewrite Hok, Hbody. cbn [negb]. cbv iota.
      unfold nullish_or. rewrite Hvs. cbn [rbind].
      destruct (is_nullish vs); cbv iota; rewrite Hkept; cbn [List.length Nat.eqb];
        cbv iota; rewrite Hsort; reflexivity. }
  exists (Some (first sorted)). eexists. split.
  - intros st. run_banner. rewrite Hok, Hbody. cbn [negb]. cbv iota.
    unfold nullish_or. rewrite Hvs. cbn [rbind].
    destruct (is_nullish vs); cbv iota; rewrite Hkept; cbn [List.length Nat.eqb];
      cbv iota; rewrite Hsort; reflexivity.
  - intros v [= <-]. right.
    assert (Hin : In (first sorted) (c :: cs)).
    { apply (array_sort_In _ _ _ Hsort). apply first_In. intros ->.
      apply (array_sort_In _ _ _ Hsort c). now left. }
    destruct (is_nullish vs) eqn:T; [discriminate|].
    destruct vs as [| | | | |visits|]; try discriminate.
    destruct (array_filter_In _ _ _ Hkept _ Hin) as [Hv Hb].
    exists res, data, visits. repeat split; try assumption.
    unfold get_opt in Hvs. destruct (is_nullish data); [discriminate|exact Hvs].
Qed.

(** X6: the fetchers of the visits settle whatever the fetch and the
    payload are (a payload without [visits], with [visits] that is not a
    list, with a [null] entry): the promise resolves, and nothing of the
    page but the banner can have changed. *)
Theorem visit_fetchers_settle
  (rt : Runtime) (leadId : jsstring) (o : FetchOutcome) (st : PageState) :
  let rA := PageA.loadVisitBanner rt leadId o st in
  let rB := PageB.fetchLatestVisit rt leadId o st in
  completion rA = Normal tt /\ same_but_banner st (state_after rA) /\
  completion rB = Normal tt /\ same_but_banner st (state_after rB).
Proof.
  cbv zeta.
  destruct (loadVisitBanner_shape rt leadId o) as (uA & trA & HA & _).
  destruct (fetchLatestVisit_shape rt leadId o) as (uB & trB & HB & _).
  rewrite HA, HB. unfold same_but_banner, with_banner.
  destruct uA, uB; repeat split.
Qed.

(** X7: the banner never shows a visit of another lead. After a fetch of
    the visits the banner is what it was, or [null], or one of the visits
    of the answer that the filter of the page accepted for the lead; this
    does not depend on the dates being readable. *)
Theorem banner_is_a_visit_of_the_lead
  (rt : Runtime) (leadId : jsstring) (o : FetchOutcome) (st : PageState) :
  let vA := latestVisit (state_after (PageA.loadVisitBanner rt leadId o st)) in
  let vB := latestVisit (state_after (PageB.fetchLatestVisit rt leadId o st)) in
  (vA = latestVisit st \/ vA = JNull \/
   exists res data visits,
     o = Responded res /\ ok res = true /\ body res = Json data /\
     get data "visits" = Ok (JArr visits) /\
     In vA visits /\ PageA.belongs leadId vA = Ok true) /\
  (vB = latestVisit st \/ vB = JNull \/
   exists res data visits,
     o = Responded res /\ ok res = true /\ body res = Json data /\
     get data "visits" = Ok (JArr visits) /\
     In vB visits /\ PageB.belongs leadId vB = Ok true).
Proof.
  cbv zeta.
  destruct (loadVisitBanner_shape rt leadId o) as (uA & trA & HA & OA).
  destruct (fetchLatestVisit_shape rt leadId o) as (uB & trB & HB & OB).
  rewrite HA, HB. unfold state_after, with_banner. cbn [fst snd]. split.
  - destruct uA as [v|]; [|now left]. cbn [latestVisit]. right.
    destruct (OA v eq_refl) as [->|H]; [now left|now right].
  - destruct uB as [v|]; [|now left]. cbn [latestVisit]. right.
    destruct (OB v eq_refl) as [->|H]; [now left|now right].
Qed.

(** The same shape for [fetchMessages] of the second file. *)
Lemma PageB_fetchMessages_shape (rt : Runtime) (leadId : jsstring) (o : FetchOutcome) :
  exists fl fo fe tr, forall st,
    PageB.fetchMessages rt leadId o st
    = (Normal tt,
       with_conversation (fl (lead st)) (fo (loading st)) (fe (error st)) st, tr).
Proof.
  unfold PageB.fetchMessages.
  destruct leadId as [|c l].
  { exists (fun x => x), (fun x => x), (fun x => x). eexists. now intros []. }
  destruct o as [msg|[s b]].
  { exists (fun x => x), (fun _ => false),
      (fun _ => Some (message_or rt (FetchFailed msg) "Failed to load messages")).
    eexists. intros []. reflexivity. }
  destruct b as [| |data].
  - exists (fun _ => JNull), (fun _ => false), (fun _ => None).
    eexists. intros []. reflexivity.
  - exists (fun x => x), (fun _ => false),
      (fun _ => Some (message_or rt (UserError "Invalid JSON from messages endpoint")
                        "Failed to load messages")).
    eexists. intros []. reflexivity.
  - destruct (PageB.normalize (c :: l) data) as [n|e] eqn:Hn.
    + exists (fun _ => n), (fun _ => false), (fun _ => None).
      eexists. intros []. run. rewrite Hn. reflexivity.
    + exists (fun x => x), (fun _ => false),
        (fun _ => Some (message_or rt e "Failed to load messages")).
      eexists. intros []. run. rewrite Hn. reflexivity.
Qed.

(** X8: a fetch of the messages and a fetch of the visits write different
    cells and read none, so the page they leave does not depend on which
    of the two the backend answers first. *)
Theorem fetches_commute
  (rt : Runtime) (leadId id : jsstring) (om ov : FetchOutcome) (st : PageState) :
  state_after (PageB.fetchLatestVisit rt id ov
                 (state_after (PageB.fetchMessages rt leadId om st)))
  = state_after (PageB.fetchMessages rt leadId om
                   (state_after (PageB.fetchLatestVisit rt id ov st))) /\
  state_after (PageA.loadVisitBanner rt id ov
                 (state_after (PageA.fetchMessages rt leadId om st)))
  = state_after (PageA.fetchMessages rt leadId om
                   (state_after (PageA.loadVisitBanner rt id ov st))).
Proof.
  destruct (PageA_fetchMessages_shape rt leadId om) as (flA & foA & feA & tA & HmA).
  destruct (PageB_fetchMessages_shape rt leadId om) as (flB & foB & feB & tB & HmB).
  destruct (loadVisitBanner_shape rt id ov) as (uA & trA & HvA & _).
  destruct (fetchLatestVisit_shape rt id ov) as (uB & trB & HvB & _).
  unfold state_after.
  repeat (rewrite ?HmA, ?HmB, ?HvA, ?HvB; cbn [fst snd]).
  destruct st, uA, uB; split; reflexivity.
Qed.

(* ================================================================== *)
(** ** The lead page: sending a reply *)






(** [handleSend] of the second file when the request fails. *)
Lemma PageB_handleSend_failed
  (rt : Runtime) (leadId : jsstring) (msg : jsstring) (refetch : FetchOutcome)
  (st : PageState) :
  leadId <> [] -> trim (input st) <> [] ->
  PageB.handleSend rt leadId (NetworkFailure msg) refetch st
  = (Normal tt,
     state_after (setSending false
       (state_after (setError (Some (message_or rt (FetchFailed msg) "Send failed"))
          (state_after (setSending true st))))),
     [Console Log "handleSend: POST to";
      Fetch (PageB.POST_reply leadId (trim (input st)));
      Console Error "handleSend error:"]).
Proof.
  intros L T. unfold PageB.handleSend. run_send.
  rewrite (is_empty_false _ T), (is_empty_false _ L). reflexivity.
Qed.

(** [handleSend] of the first file, for a reply that is not blank. *)
Lemma PageA_handleSend_sent
  (rt : Runtime) (leadId : jsstring) (reply refetch : FetchOutcome) (st : PageState) :
  leadId <> [] -> trim (input st) <> [] ->
  let post := Fetch (PageA.POST_reply leadId (trim (input st))) in
  let busy := state_after (setSending true st) in
  let again := PageA.fetchMessages rt leadId refetch
                 (state_after (setInput [] busy)) in
  PageA.handleSend rt leadId reply refetch st
  = match reply with
    | NetworkFailure _ =>
        (Normal tt, state_after (setSending false busy),
         [post; Console Error "Send reply error:"])
    | Responded res =>
        if ok res
        then (Normal tt, state_after (setSending false (state_after again)),
              post :: trace again)
        else (Normal tt, state_after (setSending false busy),
              [post; Console Error "Send reply failed"])
    end.
Proof.
  intros L T. cbv zeta.
  destruct (PageA_fetchMessages_shape rt leadId refetch) as (fl & fo & fe & tr & H).
  unfold PageA.handleSend. run_send.
  rewrite (is_empty_false _ T), (is_empty_false _ L). cbn [orb]. cbv iota.
  destruct reply as [msg|res]; [reflexivity|].
  destruct (ok res); cbn [negb]; cbv iota; [|reflexivity].
  rewrite !H. unfold trace. cbn [fst snd app]. now rewrite ?app_nil_r.
Qed.

(** The requests of a fetch of the messages on the first file. *)
Lemma PageA_fetchMessages_requests (rt : Runtime) (leadId : jsstring)
  (o : FetchOutcome) (st : PageState) :
  leadId <> [] ->
  requests (trace (PageA.fetchMessages rt leadId o st)) = [Fetch (GET_messages leadId)].
Proof.
  intros L. unfold PageA.fetchMessages. rewrite (is_empty_false leadId L).
  destruct o as [msg|[s b]]; [reflexivity|].
  run. destruct (ok {| status := s; body := b |}); destruct b; reflexivity.
Qed.

(** The requests of [handleSend] for a reply that is not blank: the
    [POST] of the trimmed text, then at most the fetch of the messages. *)
Lemma handleSend_requests
  (rt : Runtime) (leadId : jsstring) (reply refetch : FetchOutcome) (st : PageState) :
  leadId <> [] -> trim (input st) <> [] ->
  (exists rest,
     requests (trace (PageA.handleSend rt leadId reply refetch st))
     = Fetch (PageA.POST_reply leadId (trim (input st))) :: rest /\
     (rest = [] \/ rest = [Fetch (GET_messages leadId)])) /\
  (exists rest,
     requests (trace (PageB.handleSend rt leadId reply refetch st))
     = Fetch (PageB.POST_reply leadId (trim (input st))) :: rest /\
     (rest = [] \/ rest = [Fetch (GET_messages leadId)])).
Proof.
  intros L T. split.
  - rewrite (PageA_handleSend_sent rt leadId reply refetch st L T).
    destruct reply as [msg|res]; [exists []; split; [reflexivity|now left]|].
    destruct (ok res); [|exists []; split; [reflexivity|now left]].
    exists [Fetch (GET_messages leadId)]. split; [|now right].
    unfold trace at 1. cbn [snd]. change (requests (?a :: ?t)) with (a :: requests t).
    f_equal.
    now apply PageA_fetchMessages_requests.
  - destruct reply as [msg|res].
    + rewrite (PageB_handleSend_failed rt leadId msg refetch st L T).
      exists []. split; [reflexivity|now left].
    + destruct (ok res) eqn:Hok.
      * rewrite (PageB_handleSend_accepted rt leadId res refetch st L T Hok).
        exists [Fetch (GET_messages leadId)]. split; [|now right].
        unfold trace at 1. cbn [snd]. unfold requests. rewrite filter_app.
        fold (requests (trace (PageB.fetchMessages rt leadId refetch
               (state_after (setInput [] (state_after (setSending true st))))))).
        rewrite fetchMessages_requests by exact L. reflexivity.
      * rewrite (PageB_handleSend_refused rt leadId res refetch st L T Hok).
        exists []. split; [reflexivity|now left].
Qed.

(** Without a text or without a lead [handleSend] returns at once. *)
Lemma handleSend_idle
  (rt : Runtime) (leadId : jsstring) (reply refetch : FetchOutcome) (st : PageState) :
  (is_empty (trim (input st)) || is_empty leadId)%bool = true ->
  PageA.handleSend rt leadId reply refetch st = (Normal tt, st, []) /\
  PageB.handleSend rt leadId reply refetch st = (Normal tt, st, []).
Proof.
  intros E. unfold PageA.handleSend, PageB.handleSend. run_send.
  rewrite E. split; reflexivity.
Qed.



(** [handleSend] of the second file, for a reply that is not blank. *)
Lemma PageB_handleSend_sent
  (rt : Runtime) (leadId : jsstring) (reply refetch : FetchOutcome) (st : PageState) :
  leadId <> [] -> trim (input st) <> [] ->
  let busy := state_after (setSending true st) in
  let again := PageB.fetchMessages rt leadId refetch
                 (state_after (setInput [] busy)) in
  PageB.handleSend rt leadId reply refetch st
  = match reply with
    | NetworkFailure msg =>
        (Normal tt,
         state_after (setSending false
           (state_after (setError (Some (message_or rt (FetchFailed msg) "Send failed"))
                           busy))),
         [Console Log "handleSend: POST to";
          Fetch (PageB.POST_reply leadId (trim (input st)));
          Console Error "handleSend error:"])
    | Responded res =>
        if ok res
        then (Normal tt, state_after (setSending false (state_after again)),
              sending_events leadId (trim (input st)) ++ trace again)
        else (Normal tt,
              state_after (setSending false
                (state_after (setError (Some (lit "Send failed: " ++ digits (status res)))
                                busy))),
              sending_events leadId (trim (input st)))
    end.
Proof.
  intros L T. cbv zeta. destruct reply as [msg|res].
  - now apply PageB_handleSend_failed.
  - destruct (ok res) eqn:Hok.
    + now apply PageB_handleSend_accepted.
    + now apply PageB_handleSend_refused.
Qed.

(** X10: the send button is disabled while a reply is being sent, but the
    Enter key is not: pressed then, with a text in the box, it runs
    [handleSend] exactly as on an idle page, so the reply is posted again.
    Any other key does nothing. *)
Theorem enter_key_sends_while_sending
  (rt : Runtime) (leadId : jsstring) (reply refetch : FetchOutcome) (st : PageState) :
  leadId <> [] -> trim (input st) <> [] ->
  let busy := state_after (setSending true st) in
  (PageA_view.send_disabled busy = true /\
   PageA_view.onKeyDown rt leadId "Enter" reply refetch busy
   = PageA.handleSend rt leadId reply refetch st /\
   exists rest,
     requests (trace (PageA_view.onKeyDown rt leadId "Enter" reply refetch busy))
     = Fetch (PageA.POST_reply leadId (trim (input st))) :: rest) /\
  (PageB_view.send_disabled busy = true /\
   PageB_view.onKeyDown rt leadId "Enter" reply refetch busy
   = PageB.handleSend rt leadId reply refetch st /\
   exists rest,
     requests (trace (PageB_view.onKeyDown rt leadId "Enter" reply refetch busy))
     = Fetch (PageB.POST_reply leadId (trim (input st))) :: rest) /\
  (forall key, jsstring_eqb key "Enter" = false ->
     PageA_view.onKeyDown rt leadId key reply refetch st = (Normal tt, st, []) /\
     PageB_view.onKeyDown rt leadId key reply refetch st = (Normal tt, st, [])).
Proof.
  intros L T busy.
  assert (Tb : trim (input busy) <> []) by exact T.
  destruct (handleSend_requests rt leadId reply refetch st L T)
    as [(restA & HA & _) (restB & HB & _)].
  assert (EA : PageA_view.onKeyDown rt leadId "Enter" reply refetch busy
               = PageA.handleSend rt leadId reply refetch st).
  { unfold PageA_view.onKeyDown. literals. cbv iota.
    rewrite (PageA_handleSend_sent rt leadId reply refetch busy L Tb),
            (PageA_handleSend_sent rt leadId reply refetch st L T).
    subst busy. destruct st. reflexivity. }
  assert (EB : PageB_view.onKeyDown rt leadId "Enter" reply refetch busy
               = PageB.handleSend rt leadId reply refetch st).
  { unfold PageB_view.onKeyDown. literals. cbv iota.
    rewrite (PageB_handleSend_sent rt leadId reply refetch busy L Tb),
            (PageB_handleSend_sent rt leadId reply refetch st L T).
    subst busy. destruct st. reflexivity. }
  split; [|split].
  - split; [reflexivity|]. split; [exact EA|]. rewrite EA. eauto.
  - split; [reflexivity|]. split; [exact EB|]. rewrite EB. eauto.
  - intros key K. unfold PageA_view.onKeyDown, PageB_view.onKeyDown.
    rewrite K. split; reflexivity.
Qed.

Lemma enter_key_sends_while_sending_witness :
  let st := Examples.typed (lit "hello") in
  let busy := state_after (setSending true st) in
  let reply := Examples.respond 200 EmptyBody in
  PageB_view.send_disabled busy = true /\
  exists rest,
    requests (trace (PageB_view.onKeyDown SampleRuntime.rt Examples.L1 "Enter"
                       reply reply busy))
    = Fetch (PageB.POST_reply Examples.L1 (lit "hello")) :: rest.
Proof.
  intros st busy reply.
  destruct (enter_key_sends_while_sending SampleRuntime.rt Examples.L1 reply reply st)
    as (_ & (Hd & _ & Hr) & _).
  - discriminate.
  - discriminate.
  - split; [exact Hd|exact Hr].
Defined.

(** X11: [handleSend] settles whatever the backend does: the promise
    resolves; the banner and the modal flag are untouched; once a reply
    was sent the sending flag is off again; and the input box is either
    kept or emptied, emptied only after an answer with a success status. *)
Theorem handleSend_settles
  (rt : Runtime) (leadId : jsstring) (reply refetch : FetchOutcome) (st : PageState) :
  let rA := PageA.handleSend rt leadId reply refetch st in
  let rB := PageB.handleSend rt leadId reply refetch st in
  (completion rA = Normal tt /\
   latestVisit (state_after rA) = latestVisit st /\
   showVisitModal (state_after rA) = showVisitModal st /\
   (input (state_after rA) = input st \/
    input (state_after rA) = [] /\ exists res, reply = Responded res /\ ok res = true) /\
   (leadId <> [] -> trim (input st) <> [] -> sending (state_after rA) = false)) /\
  (completion rB = Normal tt /\
   latestVisit (state_after rB) = latestVisit st /\
   showVisitModal (state_after rB) = showVisitModal st /\
   (input (state_after rB) = input st \/
    input (state_after rB) = [] /\ exists res, reply = Responded res /\ ok res = true) /\
   (leadId <> [] -> trim (input st) <> [] -> sending (state_after rB) = false)).
Proof.
  cbv zeta.
  destruct (is_empty (trim (input st)) || is_empty leadId)%bool eqn:E.
  { destruct (handleSend_idle rt leadId reply refetch st E) as [-> ->].
    apply orb_true_iff in E.
    assert (N : leadId <> [] -> trim (input st) <> [] -> sending st = false).
    { intros L T. destruct E as [E|E].
      - destruct (trim (input st)); [now contradiction T|discriminate].
      - destruct leadId; [now contradiction L|discriminate]. }
    repeat split; try (now left); exact N. }
  apply orb_false_iff in E as [ET EL].
  assert (L : leadId <> []) by (intros ->; discriminate).
  assert (T : trim (input st) <> []) by (intros N; rewrite N in ET; discriminate).
  rewrite (PageA_handleSend_sent rt leadId reply refetch st L T),
          (PageB_handleSend_sent rt leadId reply refetch st L T).
  destruct (PageA_fetchMessages_shape rt leadId refetch) as (flA & foA & feA & tA & HA).
  destruct (PageB_fetchMessages_shape rt leadId refetch) as (flB & foB & feB & tB & HB).
  rewrite HA, HB. destruct st as [ld lo er inp se lv sh].
  destruct reply as [msg|res].
  - repeat split; now left.
  - destruct (ok res) eqn:Hok.
    + repeat split; right; (split; [reflexivity|]); exists res;
        (split; [reflexivity|exact Hok]).
    + repeat split; now left.
Qed.

Lemma handleSend_settles_witness :
  let st := Examples.typed (lit "hello") in
  sending (state_after (PageA.handleSend SampleRuntime.rt Examples.L1
                          (NetworkFailure (lit "offline")) (NetworkFailure []) st))
  = false /\
  sending (state_after (PageB.handleSend SampleRuntime.rt Examples.L1
                          (NetworkFailure (lit "offline")) (NetworkFailure []) st))
  = false.
Proof.
  intros st.
  destruct (handleSend_settles SampleRuntime.rt Examples.L1
              (NetworkFailure (lit "offline")) (NetworkFailure []) st)
    as [(_ & _ & _ & _ & HA) (_ & _ & _ & _ & HB)].
  split; [apply HA|apply HB]; discriminate.
Defined.

(** X12: a request that fails (no answer arrives) while a reply is sent.
    Both files keep the text of the box and fetch nothing; the second
    shows the message of the failure ([Send failed] when it has none), the
    first shows nothing and only writes to the console. *)
Theorem handleSend_request_fails
  (rt : Runtime) (leadId msg : jsstring) (refetch : FetchOutcome) (st : PageState) :
  leadId <> [] -> trim (input st) <> [] ->
  let rA := PageA.handleSend rt leadId (NetworkFailure msg) refetch st in
  let rB := PageB.handleSend rt leadId (NetworkFailure msg) refetch st in
  (input (state_after rA) = input st /\ lead (state_after rA) = lead st /\
   error (state_after rA) = error st /\
   trace rA = [Fetch (PageA.POST_reply leadId (trim (input st)));
               Console Error "Send reply error:"]) /\
  (input (state_after rB) = input st /\ lead (state_after rB) = lead st /\
   error (state_after rB) = Some (if is_empty msg then lit "Send failed" else msg) /\
   requests (trace rB) = [Fetch (PageB.POST_reply leadId (trim (input st)))]).
Proof.
  intros L T. cbv zeta.
  rewrite (PageA_handleSend_sent rt leadId (NetworkFailure msg) refetch st L T),
          (PageB_handleSend_sent rt leadId (NetworkFailure msg) refetch st L T).
  unfold message_or, message_of. destruct st, msg; repeat split.
Qed.

Lemma handleSend_request_fails_witness :
  let st := Examples.typed (lit "hello") in
  error (state_after (PageA.handleSend SampleRuntime.rt Examples.L1
                        (NetworkFailure (lit "offline")) (NetworkFailure []) st))
  = None /\
  error (state_after (PageB.handleSend SampleRuntime.rt Examples.L1
                        (NetworkFailure (lit "offline")) (NetworkFailure []) st))
  = Some (lit "offline").
Proof.
  intros st.
  destruct (handleSend_request_fails SampleRuntime.rt Examples.L1 (lit "offline")
              (NetworkFailure []) st) as [(_ & _ & HA & _) (_ & _ & HB & _)].
  - discriminate.
  - discriminate.
  - split; [exact HA|exact HB].
Defined.

(* ================================================================== *)
(** ** The lead page: after a booking, and the empty conversation *)

(** X13: what the page does when the modal reports a booking. The modal
    is closed whatever the fetch of the visits then does, the promise
    resolves, and the banner is what that fetch makes of it; nothing else
    changes. When that fetch fails the banner stays the one from before the
    booking and no error is shown. *)
Theorem booking_closes_the_modal
  (rt : Runtime) (leadId : jsstring) (o : FetchOutcome) (st : PageState) :
  let rA := PageA_view.onSuccess rt leadId o st in
  let rB := PageB_view.onSuccess rt leadId o st in
  (completion rA = Normal tt /\ showVisitModal (state_after rA) = false /\
   lead (state_after rA) = lead st /\ loading (state_after rA) = loading st /\
   error (state_after rA) = error st /\ input (state_after rA) = input st /\
   sending (state_after rA) = sending st /\
   latestVisit (state_after rA)
   = latestVisit (state_after (PageA.loadVisitBanner rt leadId o st)) /\
   (fetch_failed o = true -> latestVisit (state_after rA) = latestVisit st)) /\
  (completion rB = Normal tt /\ showVisitModal (state_after rB) = false /\
   lead (state_after rB) = lead st /\ loading (state_after rB) = loading st /\
   error (state_after rB) = error st /\ input (state_after rB) = input st /\
   sending (state_after rB) = sending st /\
   latestVisit (state_after rB)
   = latestVisit (state_after (PageB.fetchLatestVisit rt leadId o st)) /\
   (fetch_failed o = true -> latestVisit (state_after rB) = latestVisit st)).
Proof.
  cbv zeta.
  assert (FA : fetch_failed o = true -> forall s,
            latestVisit (state_after (PageA.loadVisitBanner rt leadId o s))
            = latestVisit s).
  { intros F s. unfold PageA.loadVisitBanner. destruct o as [msg|res]; [reflexivity|].
    simpl in F. apply negb_true_iff in F. run. now rewrite F. }
  assert (FB : fetch_failed o = true -> forall s,
            latestVisit (state_after (PageB.fetchLatestVisit rt leadId o s))
            = latestVisit s).
  { intros F s. unfold PageB.fetchLatestVisit. destruct (is_empty leadId); [reflexivity|].
    destruct o as [msg|res]; [reflexivity|].
    simpl in F. apply negb_true_iff in F. run. now rewrite F. }
  destruct (loadVisitBanner_shape rt leadId o) as (uA & trA & HA & _).
  destruct (fetchLatestVisit_shape rt leadId o) as (uB & trB & HB & _).
  unfold PageA_view.onSuccess, PageB_view.onSuccess, setShowVisitModal.
  split.
  - repeat split; try (intros F; rewrite <- (FA F st)); revert FA; clear FB;
      cbv beta iota zeta delta [async bind modify completion state_after fst snd];
      rewrite ?HA; cbn [fst snd]; destruct st, uA; try reflexivity; intros _; reflexivity.
  - repeat split; try (intros F; rewrite <- (FB F st)); revert FB; clear FA;
      cbv beta iota zeta delta [async bind modify completion state_after fst snd];
      rewrite ?HB; cbn [fst snd]; destruct st, uB; try reflexivity; intros _; reflexivity.
Qed.

Lemma booking_closes_the_modal_witness :
  let st := state_after (setShowVisitModal true Examples.loaded_page) in
  let rA := PageA_view.onSuccess SampleRuntime.rt Examples.L1
              (NetworkFailure (lit "offline")) st in
  showVisitModal (state_after rA) = false /\
  latestVisit (state_after rA) = latestVisit st.
Proof.
  intros st rA.
  destruct (booking_closes_the_modal SampleRuntime.rt Examples.L1
              (NetworkFailure (lit "offline")) st)
    as [(_ & Hm & _ & _ & _ & _ & _ & _ & Hf) _].
  split; [exact Hm|now apply Hf].
Defined.

(** X14: the notice [No messages yet for this lead.]. On the second file
    it is shown on a page that has loaded nothing, after an empty body and
    after an object payload that carries no messages (which the normalizer
    turns into an empty list). On the first file a page that has loaded
    nothing, or whose payload has no [messages], shows neither the notice
    nor a message: the chat area is blank. *)
Theorem empty_conversation_notice
  (rt : Runtime) (leadId : jsstring) (s : N) (st : PageState) :
  leadId <> [] ->
  let afterA b := state_after (PageA.fetchMessages rt leadId
                                 (Responded {| status := s; body := b |}) st) in
  let afterB b := state_after (PageB.fetchMessages rt leadId
                                 (Responded {| status := s; body := b |}) st) in
  PageB_view.empty_notice initial_page = Ok true /\
  (PageA_view.empty_notice initial_page = Ok false /\
   PageA_view.render_messages initial_page = Ok []) /\
  PageB_view.empty_notice (afterB EmptyBody) = Ok true /\
  (forall props, without_messages props ->
     PageB_view.empty_notice (afterB (Json (JObj props))) = Ok true) /\
  (forall props,
     ok {| status := s; body := Json (JObj props) |} = true ->
     is_nullish (lookup "messages" props) = true ->
     PageA_view.empty_notice (afterA (Json (JObj props))) = Ok false /\
     PageA_view.render_messages (afterA (Json (JObj props))) = Ok []).
Proof.
  intros L afterA afterB. subst afterA afterB.
  split; [reflexivity|]. split; [split; reflexivity|]. split; [|split].
  - unfold PageB.fetchMessages. rewrite (is_empty_false _ L). reflexivity.
  - intros props (Hm & d & Hd & Nd).
    unfold PageB.fetchMessages. rewrite (is_empty_false _ L). run.
    destruct (normalize_fields leadId (JObj props) eq_refl) as (l & n & ->).
    assert (E : payload_messages (JObj props) = JArr []).
    { unfold payload_messages. cbn [get isArray rbind]. rewrite Hm.
      cbn [negb]. cbv iota. rewrite Hd, Nd. reflexivity. }
    rewrite E. unfold PageB_view.empty_notice, and_then, or_else.
    cbn [loading lead negb ToBoolean rbind get lookup]. literals.
    cbn [negb ToBoolean rbind get List.length]. literals. reflexivity.
  - intros props Hok Hm.
    unfold PageA.fetchMessages. rewrite (is_empty_false _ L). run.
    rewrite Hok. cbn [negb]. run.
    unfold PageA_view.empty_notice, PageA_view.render_messages,
      PageB.render_messages, and_then, get_opt.
    cbn [loading lead negb is_nullish rbind get].
    destruct (lookup (lit "messages") props); try discriminate; split; reflexivity.
Qed.

Lemma empty_conversation_notice_witness :
  let o := Examples.respond 200 (Json (JObj [(lit "ok", JBool true)])) in
  PageB_view.empty_notice
    (state_after (PageB.fetchMessages SampleRuntime.rt Examples.L1 o initial_page))
  = Ok true /\
  PageA_view.empty_notice
    (state_after (PageA.fetchMessages SampleRuntime.rt Examples.L1 o initial_page))
  = Ok false.
Proof.
  intros o.
  destruct (empty_conversation_notice SampleRuntime.rt Examples.L1 200 initial_page)
    as (_ & _ & _ & HB & HA).
  { discriminate. }
  split.
  - apply (HB [(lit "ok", JBool true)]).
    split; [reflexivity|]. exists JUndefined. split; reflexivity.
  - apply (HA [(lit "ok", JBool true)]); reflexivity.
Defined.

(* ================================================================== *)
(** ** The visit booking modal: every submission *)

(** [handleSubmit] when the form is incomplete, when the date cannot be
    read, and when the request fails. *)
Lemma handleSubmit_unsent
  (rt : Runtime) (leadId : jsstring) (o : FetchOutcome)
  (st : VisitBookingModal.ModalState) :
  let r := VisitBookingModal.handleSubmit rt leadId o st in
  ((is_empty (VisitBookingModal.date st)
    || is_empty (VisitBookingModal.timeSlot st))%bool = true ->
   r = (Normal tt,
        state_after (VisitBookingModal.setError
                       (Some (lit "Please pick a date and time slot.")) st), [])) /\
  ((is_empty (VisitBookingModal.date st)
    || is_empty (VisitBookingModal.timeSlot st))%bool = false ->
   Date_toISOString rt (VisitBookingModal.date st) = None ->
   r = (Normal tt,
        submitted st (Some (message_or rt RangeError "Failed to book visit")),
        [Console Error "Visit booking error:"])) /\
  (forall iso msg,
     (is_empty (VisitBookingModal.date st)
      || is_empty (VisitBookingModal.timeSlot st))%bool = false ->
     Date_toISOString rt (VisitBookingModal.date st) = Some iso ->
     o = NetworkFailure msg ->
     r = (Normal tt,
          submitted st (Some (message_or rt (FetchFailed msg) "Failed to book visit")),
          [Fetch (VisitBookingModal.POST_book leadId st iso);
           Console Error "Visit booking error:"])).
Proof.
  cbv zeta. unfold VisitBookingModal.handleSubmit. split; [|split].
  - intros E. run_modal. rewrite E. reflexivity.
  - intros E D. run_modal. rewrite E, D. reflexivity.
  - intros iso msg E D ->. run_modal. rewrite E, D. reflexivity.
Qed.

(** X15: every submission of the booking form ends in one of two ways: the
    parent was told of the success ([onSuccess] was called) and no error is
    shown, or an error is shown. The promise resolves, the fields of the
    form are never changed (not even cleared after a success), and at most
    one request is made. *)
Theorem handleSubmit_reports
  (rt : Runtime) (leadId : jsstring) (o : FetchOutcome)
  (st : VisitBookingModal.ModalState) :
  let r := VisitBookingModal.handleSubmit rt leadId o st in
  let st' := state_after r in
  completion r = Normal tt /\
  (VisitBookingModal.error st' = None <-> In OnSuccess (trace r)) /\
  VisitBookingModal.date st' = VisitBookingModal.date st /\
  VisitBookingModal.timeSlot st' = VisitBookingModal.timeSlot st /\
  VisitBookingModal.familyComing st' = VisitBookingModal.familyComing st /\
  VisitBookingModal.pickupRequired st' = VisitBookingModal.pickupRequired st /\
  VisitBookingModal.notes st' = VisitBookingModal.notes st /\
  (List.length (requests (trace r)) <= 1)%nat.
Proof.
  cbv zeta.
  destruct (handleSubmit_unsent rt leadId o st) as (Hform & Hdate & Hnet).
  assert (No2 : forall a b : Event, a <> OnSuccess -> b <> OnSuccess ->
            ~ In OnSuccess [a; b]).
  { intros a b Ha Hb [H|[H|[]]]; congruence. }
  destruct (is_empty (VisitBookingModal.date st)
            || is_empty (VisitBookingModal.timeSlot st))%bool eqn:E.
  { rewrite (Hform eq_refl). repeat split; try discriminate; simpl; try lia;
      intros []. }
  destruct (Date_toISOString rt (VisitBookingModal.date st)) as [iso|] eqn:D.
  2:{ rewrite (Hdate eq_refl eq_refl). repeat split; try discriminate; simpl; try lia.
      intros [H|[]]. discriminate. }
  destruct o as [msg|res].
  { rewrite (Hnet iso msg eq_refl eq_refl eq_refl).
    repeat split; try discriminate; simpl; try lia.
    intros H. apply No2 in H; [destruct H|discriminate|discriminate]. }
  apply orb_false_iff in E as [Ed Es].
  assert (Nd : VisitBookingModal.date st <> []) by (intros N; rewrite N in Ed; discriminate).
  assert (Ns : VisitBookingModal.timeSlot st <> [])
    by (intros N; rewrite N in Es; discriminate).
  rewrite (handleSubmit_answered rt leadId res st iso Nd Ns D).
  destruct (booking_verdict rt res) as [u|e].
  - repeat split; simpl; try lia. intros _. right. now left.
  - repeat split; try discriminate; simpl; try lia.
    intros H. apply No2 in H; [destruct H|discriminate|discriminate].
Qed.

(** X16: a date that the engine cannot read is caught before anything is
    sent: no request is made, [onSuccess] is not called, and the error
    shown is the message of the [RangeError] ([Failed to book visit] when it
    has none). *)
Theorem handleSubmit_unreadable_date
  (rt : Runtime) (leadId : jsstring) (o : FetchOutcome)
  (st : VisitBookingModal.ModalState) :
  VisitBookingModal.date st <> [] ->
  VisitBookingModal.timeSlot st <> [] ->
  Date_toISOString rt (VisitBookingModal.date st) = None ->
  VisitBookingModal.handleSubmit rt leadId o st
  = (Normal tt,
     submitted st (Some (message_or rt RangeError "Failed to book visit")),
     [Console Error "Visit booking error:"]).
Proof.
  intros Nd Ns D.
  destruct (handleSubmit_unsent rt leadId o st) as (_ & Hdate & _).
  apply Hdate; [|exact D].
  now rewrite (is_empty_false _ Nd), (is_empty_false _ Ns).
Qed.

Lemma handleSubmit_unreadable_date_witness :
  VisitBookingModal.handleSubmit SampleRuntime.rt Examples.L1
    (Responded ModalExamples.accepted) BookingExamples.misdated
  = (Normal tt,
     submitted BookingExamples.misdated (Some (lit "Invalid time value")),
     [Console Error "Visit booking error:"]).
Proof.
  apply (handleSubmit_unreadable_date SampleRuntime.rt Examples.L1
           (Responded ModalExamples.accepted) BookingExamples.misdated).
  - discriminate.
  - discriminate.
  - reflexivity.
Defined.

(* ================================================================== *)
(** ** The API client *)

(** What a call of the client does, by the answer: the request is [req]
    and [text] the message it rejects with on a status that is not a
    success status. *)
Lemma api_call_cases (S : Type) (req : Request) (text : Response -> jsstring)
  (o : FetchOutcome) (st : S) :
  (res <- fetch req o ;;
   (if negb (ok res) then throw (UserError (text res)) else ret tt) ;;
   res_json res) st
  = match o with
    | NetworkFailure m => (Throw (FetchFailed m), st, [Fetch req])
    | Responded res =>
        if ok res then
          match body res with
          | Json v => (Normal v, st, [Fetch req])
          | _ => (Throw SyntaxError, st, [Fetch req])
          end
        else (Throw (UserError (text res)), st, [Fetch req])
    end.
Proof.
  run. destruct o as [m|res]; [reflexivity|].
  destruct (ok res); [destruct (body res)|]; reflexivity.
Qed.

Lemma api_call_facts (S : Type) (req : Request) (text : Response -> jsstring)
  (o : FetchOutcome) (st : S) :
  let call o := (res <- fetch req o ;;
                 (if negb (ok res) then throw (UserError (text res)) else ret tt) ;;
                 res_json res) in
  state_after (call o st) = st /\
  List.length (trace (call o st)) = 1%nat /\
  (forall v, completion (call o st) = Normal v <->
             exists res, o = Responded res /\ ok res = true /\ body res = Json v) /\
  (forall res, o = Responded res -> ok res = true ->
               (forall v, body res <> Json v) ->
               completion (call o st) = Throw SyntaxError).
Proof.
  cbv beta zeta. rewrite api_call_cases.
  destruct o as [m|res].
  { repeat split; try discriminate. intros (res & [=] & _). }
  destruct (ok res) eqn:Hok.
  - destruct (body res) as [| |data] eqn:Hb.
    + split; [reflexivity|]. split; [reflexivity|]. split.
      * intros v. split; [discriminate|].
        intros (res' & [= <-] & _ & Hb'). congruence.
      * reflexivity.
    + split; [reflexivity|]. split; [reflexivity|]. split.
      * intros v. split; [discriminate|].
        intros (res' & [= <-] & _ & Hb'). congruence.
      * reflexivity.
    + split; [reflexivity|]. split; [reflexivity|]. split.
      * intros v. split.
        -- intros [= <-]. exists res. repeat split; assumption.
        -- intros (res' & [= <-] & _ & Hb'). cbn. congruence.
      * intros res' [= <-] _ N. now contradiction (N data).
  - split; [reflexivity|]. split; [reflexivity|]. split.
    + intros v. split; [discriminate|].
      intros (res' & [= <-] & Hok' & _). congruence.
    + intros res' [= <-] Hok'. congruence.
Qed.

(** X17: each of the four calls of the API client makes one request,
    touches no state, and resolves exactly when the answer has a success
    status and a JSON body, with that body. Otherwise it rejects: with its
    own text on a status that is not a success status (only
    [fetchLeadDetail] puts the status in it), with the engine's
    [SyntaxError] on a body that is not JSON. *)
Theorem api_calls_resolve
  (S : Type) (st : S) (id leadId : jsstring) (message : JSValue) (o : FetchOutcome) :
  let calls : list (FetchOutcome -> M S JSValue) :=
    [api.fetchLeadDetail id; api.fetchAnalyticsSummary;
     api.fetchCoachAdvice leadId; api.sendCoachReply leadId message] in
  Forall (fun call =>
            state_after (call o st) = st /\
            List.length (trace (call o st)) = 1%nat /\
            (forall v, completion (call o st) = Normal v <->
                       exists res, o = Responded res /\ ok res = true /\
                                   body res = Json v) /\
            (forall res, o = Responded res -> ok res = true ->
                         (forall v, body res <> Json v) ->
                         completion (call o st) = Throw SyntaxError))
         calls /\
  (forall res, ok res = false ->
     completion (api.fetchLeadDetail id (Responded res) st)
     = Throw (UserError (lit "Failed to load lead: " ++ digits (status res))) /\
     completion (api.fetchAnalyticsSummary (Responded res) st)
     = Throw (UserError (lit "Failed to load analytics")) /\
     completion (api.fetchCoachAdvice leadId (Responded res) st)
     = Throw (UserError (lit "Failed to load coach advice")) /\
     completion (api.sendCoachReply leadId message (Responded res) st)
     = Throw (UserError (lit "Failed to send reply"))).
Proof.
  cbv zeta. split.
  - repeat apply Forall_cons; [| | | |apply Forall_nil].
    + apply (api_call_facts S (api.GET_lead id)
               (fun res => lit "Failed to load lead: " ++ digits (status res)) o st).
    + apply (api_call_facts S api.GET_summary
               (fun _ => lit "Failed to load analytics") o st).
    + apply (api_call_facts S (api.GET_coach leadId)
               (fun _ => lit "Failed to load coach advice") o st).
    + apply (api_call_facts S (api.POST_reply leadId message)
               (fun _ => lit "Failed to send reply") o st).
  - intros res Hok.
    unfold api.fetchLeadDetail, api.fetchAnalyticsSummary, api.fetchCoachAdvice,
      api.sendCoachReply. rewrite !api_call_cases. rewrite Hok. repeat split.
Qed.

Lemma api_calls_resolve_witness :
  completion (api.fetchLeadDetail Examples.L1 (Examples.respond 404 NotJson) tt)
  = Throw (UserError (lit "Failed to load lead: 404")) /\
  completion (api.fetchCoachAdvice Examples.L1 (Examples.respond 404 NotJson) tt)
  = Throw (UserError (lit "Failed to load coach advice")).
Proof.
  destruct (api_calls_resolve unit tt Examples.L1 Examples.L1 JNull
              (Examples.respond 404 NotJson)) as [_ H].
  destruct (H {| status := 404; body := NotJson |} eq_refl) as (H1 & _ & H3 & _).
  split; [exact H1|exact H3].
Defined.

(* ================================================================== *)
(** ** The sales coach panel *)

Ltac run_panel :=
  cbv beta iota zeta delta
    [async try_finally try_catch bind ret throw return_ modify read emit lift
     console fetch res_json
     api.fetchCoachAdvice api.sendCoachReply
     SalesCoachPanel.setAdvice SalesCoachPanel.setLoading
     SalesCoachPanel.setSending SalesCoachPanel.setError
     SalesCoachPanel.setSelectedReply SalesCoachPanel.setLead
     completion state_after trace];
  cbn [app fst snd body status
       SalesCoachPanel.advice SalesCoachPanel.loading SalesCoachPanel.sending
       SalesCoachPanel.error SalesCoachPanel.selectedReply SalesCoachPanel.lead].

(** [value || fallback] is truthy when the fallback is. *)
Lemma logical_or_truthy (a : result JSValue) (fallback x : JSValue) :
  ToBoolean fallback = true -> logical_or a (Ok fallback) = Ok x -> ToBoolean x = true.
Proof.
  unfold logical_or. destruct a as [v|e]; simpl; [|discriminate].
  destruct (ToBoolean v) eqn:T; intros F [= <-]; assumption.
Qed.

(** [res.ok && res.advice] holds exactly when both are truthy. *)
Lemma has_advice_true (res : JSValue) :
  SalesCoachPanel.has_advice res = Ok true ->
  exists k a, get res "ok" = Ok k /\ ToBoolean k = true /\
              get res "advice" = Ok a /\ ToBoolean a = true.
Proof.
  unfold SalesCoachPanel.has_advice, and_then.
  destruct (get res (lit "ok")) as [k|] eqn:Hk; [|discriminate]. cbn [rbind].
  destruct (ToBoolean k) eqn:Tk; [|discriminate].
  destruct (get res (lit "advice")) as [a|] eqn:Ha; [|discriminate]. cbn [rbind].
  intros [= Ta]. eauto 6.
Qed.

(** X18: a load of the advice that was cancelled (the panel was unmounted
    or its lead changed before the answer came) writes nothing after the
    answer, whatever the answer is: the page is as the start of the load
    left it, which is loading, with no error. *)
Theorem coach_load_cancelled
  (rt : Runtime) (leadId : jsstring) (o : FetchOutcome)
  (st : SalesCoachPanel.PanelState) :
  SalesCoachPanel.load rt leadId true o st
  = (Normal tt,
     state_after (SalesCoachPanel.setError JNull
                    (state_after (SalesCoachPanel.setLoading true st))),
     [Fetch (api.GET_coach leadId)]).
Proof.
  unfold SalesCoachPanel.load. destruct st. run_panel.
  destruct o as [msg|res]; [reflexivity|].
  destruct (ok res); [destruct (body res)|]; reflexivity.
Qed.

(** X19: a load of the advice that was not cancelled ends in one of two
    ways. Either the answer had a success status and a JSON body whose
    [ok] and [advice] are truthy: then the advice is that [advice], the
    reply offered is its [suggestedReply] (the empty text when it has
    none) and no error is shown. Or an error is shown (a value that is
    truthy) and the advice and the reply are as before. In both the
    promise resolves and the panel is not loading. *)
Theorem coach_load_outcome
  (rt : Runtime) (leadId : jsstring) (o : FetchOutcome)
  (st : SalesCoachPanel.PanelState) :
  let r := SalesCoachPanel.load rt leadId false o st in
  let st' := state_after r in
  completion r = Normal tt /\
  SalesCoachPanel.loading st' = false /\
  SalesCoachPanel.sending st' = SalesCoachPanel.sending st /\
  SalesCoachPanel.lead st' = SalesCoachPanel.lead st /\
  ((SalesCoachPanel.error st' = JNull /\
    exists res data k a,
      o = Responded res /\ ok res = true /\ body res = Json data /\
      get data "ok" = Ok k /\ ToBoolean k = true /\
      get data "advice" = Ok a /\ ToBoolean a = true /\
      SalesCoachPanel.advice st' = a /\
      logical_or (get a "suggestedReply") (Ok (JStr []))
      = Ok (SalesCoachPanel.selectedReply st')) \/
   (ToBoolean (SalesCoachPanel.error st') = true /\
    SalesCoachPanel.advice st' = SalesCoachPanel.advice st /\
    SalesCoachPanel.selectedReply st' = SalesCoachPanel.selectedReply st)).
Proof.
  cbv zeta. unfold SalesCoachPanel.load.
  assert (Text : forall e, ToBoolean (JStr (message_or rt e "Failed to load AI coach")) = true).
  { intros e. cbn [ToBoolean]. apply negb_true_iff, is_empty_false.
    apply message_or_text. discriminate. }
  destruct st as [ad lo se er sel ld]. run_panel.
  destruct o as [msg|res].
  { repeat (split; [reflexivity|]). right. repeat split. apply Text. }
  destruct (ok res) eqn:Hok; cbn [negb]; cbv iota.
  2:{ repeat (split; [reflexivity|]). right. repeat split. }
  destruct (body res) as [| |data] eqn:Hb.
  1,2: repeat (split; [reflexivity|]); right; repeat split; apply Text.
  destruct (SalesCoachPanel.has_advice data) as [[|]|e] eqn:Hadv; run_panel.
  - destruct (has_advice_true data Hadv) as (k & a & Hk & Tk & Ha & Ta).
    rewrite Ha. cbn [rbind]. run_panel.
    destruct (get_defined a (lit "suggestedReply") (truthy_defined a Ta)) as [x Hx].
    rewrite Hx. unfold logical_or. cbn [rbind]. run_panel.
    assert (Hsel : (if ToBoolean x then Ok x else Ok (JStr []))
                   = Ok (if ToBoolean x then x else JStr []))
      by (destruct (ToBoolean x); reflexivity).
    rewrite Hsel. run_panel.
    repeat (split; [reflexivity|]). left. split; [reflexivity|].
    exists res, data, k, a. rewrite Hx. cbn [rbind].
    repeat split; try assumption.
  - destruct (logical_or (get data (lit "error"))
                (Ok (JStr (lit "No AI advice available for this lead."))))
      as [x|e] eqn:Hx; run_panel.
    + repeat (split; [reflexivity|]). right. repeat split.
      now apply (logical_or_truthy (get data (lit "error"))
                   (JStr (lit "No AI advice available for this lead.")) x).
    + repeat (split; [reflexivity|]). right. repeat split. apply Text.
  - repeat (split; [reflexivity|]). right. repeat split. apply Text.
Qed.

(** X20: the poller of the lead snapshot never reports anything to the
    operator. The promise resolves, and nothing but the snapshot can
    change: the error cell in particular is never written. A status that
    is not a success status is dropped without a trace on the console; the
    snapshot changes only to the JSON body of an answer with a success
    status. *)
Theorem lead_snapshot_poll_is_silent
  (leadId : jsstring) (o : FetchOutcome) (st : SalesCoachPanel.PanelState) :
  let r := SalesCoachPanel.fetchLeadDetails leadId o st in
  let st' := state_after r in
  completion r = Normal tt /\
  SalesCoachPanel.error st' = SalesCoachPanel.error st /\
  SalesCoachPanel.advice st' = SalesCoachPanel.advice st /\
  SalesCoachPanel.loading st' = SalesCoachPanel.loading st /\
  SalesCoachPanel.sending st' = SalesCoachPanel.sending st /\
  SalesCoachPanel.selectedReply st' = SalesCoachPanel.selectedReply st /\
  (forall res, o = Responded res -> ok res = false ->
     r = (Normal tt, st, [Fetch (GET_messages leadId)])) /\
  (SalesCoachPanel.lead st' = SalesCoachPanel.lead st \/
   exists res, o = Responded res /\ ok res = true /\
               body res = Json (SalesCoachPanel.lead st')).
Proof.
  cbv zeta. unfold SalesCoachPanel.fetchLeadDetails.
  destruct st as [ad lo se er sel ld]. run_panel.
  destruct o as [msg|res].
  { do 6 (split; [reflexivity|]). split; [discriminate|now left]. }
  destruct (ok res) eqn:Hok.
  - destruct (body res) as [| |data] eqn:Hb;
      do 6 (split; [reflexivity|]);
      (split; [intros res' [= <-]; congruence|]);
      [now left|now left|right; exists res; repeat split; assumption].
  - do 6 (split; [reflexivity|]). split; [|now left].
    intros res' [= <-] _. reflexivity.
Qed.

Lemma lead_snapshot_poll_is_silent_witness :
  SalesCoachPanel.fetchLeadDetails Examples.L1 (Examples.respond 401 NotJson)
    SalesCoachPanel.initial_panel
  = (Normal tt, SalesCoachPanel.initial_panel, [Fetch (GET_messages Examples.L1)]).
Proof.
  destruct (lead_snapshot_poll_is_silent Examples.L1
              (Examples.respond 401 NotJson) SalesCoachPanel.initial_panel)
    as (_ & _ & _ & _ & _ & _ & H & _).
  apply (H {| status := 401; body := NotJson |}); reflexivity.
Defined.

(** [handleSend] of the panel after the answer of the backend, for a reply
    that is a text and is not blank. *)
Lemma coach_handleSend_answered
  (rt : Runtime) (leadId : jsstring) (o : FetchOutcome)
  (st : SalesCoachPanel.PanelState) (s : jsstring) :
  SalesCoachPanel.selectedReply st = JStr s -> trim s <> [] ->
  let post := Fetch (api.POST_reply leadId (JStr s)) in
  SalesCoachPanel.handleSend rt leadId o st
  = match reply_verdict rt o with
    | Ok _ =>
        (Normal tt,
         state_after (SalesCoachPanel.setSending false
           (state_after (SalesCoachPanel.setError JNull st))), [post])
    | Raise e =>
        (Normal tt,
         state_after (SalesCoachPanel.setSending false
           (state_after (SalesCoachPanel.setError
                           (JStr (message_or rt e "Failed to send reply")) st))),
         [post; Console Error ""])
    end.
Proof.
  intros Hs T. cbv zeta. unfold SalesCoachPanel.handleSend, reply_verdict.
  destruct st as [ad lo se er sel ld]. cbn [SalesCoachPanel.selectedReply] in Hs.
  subst sel. run_panel. cbn [SalesCoachPanel.call_trim]. run_panel.
  rewrite (is_empty_false _ T). run_panel.
  destruct o as [m|res]; [reflexivity|].
  destruct (ok res); cbn [negb]; cbv iota; [|reflexivity].
  destruct (body res) as [| |data]; try reflexivity.
  destruct (get data (lit "ok")) as [k|e]; cbn [rbind]; run_panel; [|reflexivity].
  destruct (ToBoolean k); cbn [negb]; cbv iota; run_panel; [reflexivity|].
  destruct (logical_or (get data (lit "error")) (Ok (JStr (lit "Failed to send"))))
    as [text|e]; cbn [rbind]; run_panel; [|reflexivity].
  destruct (VisitBookingModal.ToString rt text) as [message|e]; reflexivity.
Qed.

(** The verdict is favourable exactly when the answer has a success
    status and a JSON body whose [ok] is truthy. *)
Lemma reply_verdict_ok (rt : Runtime) (o : FetchOutcome) :
  (exists u, reply_verdict rt o = Ok u) <->
  exists res data k,
    o = Responded res /\ ok res = true /\ body res = Json data /\
    get data "ok" = Ok k /\ ToBoolean k = true.
Proof.
  unfold reply_verdict. split.
  - intros [u H]. destruct o as [m|res]; [discriminate|].
    destruct (ok res) eqn:Hok; [|discriminate].
    destruct (body res) as [| |data] eqn:Hb; try discriminate.
    destruct (get data (lit "ok")) as [k|e] eqn:Hk; [|discriminate].
    cbn [rbind] in H. destruct (ToBoolean k) eqn:Tk.
    + exists res, data, k. repeat split; assumption.
    + cbn [negb] in H.
      destruct (logical_or _ _) as [text|]; cbn [rbind] in H; [|discriminate].
      destruct (VisitBookingModal.ToString rt text); discriminate.
  - intros (res & data & k & -> & Hok & Hb & Hk & Tk).
    rewrite Hok, Hb, Hk. cbn [rbind]. rewrite Tk. cbn [negb]. eauto.
Qed.

(** X21: [handleSend] of the panel.
    - A reply that is blank is not sent: nothing happens.
    - A reply that is not a text makes [handleSend] reject, with a
      [TypeError], before anything is written or sent.
    - Otherwise the reply is posted once, as it is in the box (not
      trimmed), the promise resolves, the sending flag ends off, and the
      reply stays in the box whatever the answer. No error is shown exactly
      when the answer has a success status and a JSON body whose [ok] is
      truthy; a status that is not a success status shows
      [Failed to send reply], a body with a falsy [ok] and no [error] shows
      [Failed to send]. *)
Theorem coach_handleSend_outcomes
  (rt : Runtime) (leadId : jsstring) (o : FetchOutcome)
  (st : SalesCoachPanel.PanelState) :
  let r := SalesCoachPanel.handleSend rt leadId o st in
  let st' := state_after r in
  (forall s, SalesCoachPanel.selectedReply st = JStr s -> trim s = [] ->
     r = (Normal tt, st, [])) /\
  (is_string (SalesCoachPanel.selectedReply st) = false ->
     r = (Throw TypeError, st, [])) /\
  (forall s, SalesCoachPanel.selectedReply st = JStr s -> trim s <> [] ->
     completion r = Normal tt /\
     requests (trace r) = [Fetch (api.POST_reply leadId (JStr s))] /\
     SalesCoachPanel.sending st' = false /\
     SalesCoachPanel.selectedReply st' = JStr s /\
     SalesCoachPanel.advice st' = SalesCoachPanel.advice st /\
     SalesCoachPanel.loading st' = SalesCoachPanel.loading st /\
     SalesCoachPanel.lead st' = SalesCoachPanel.lead st /\
     (SalesCoachPanel.error st' = JNull <->
        exists res data k,
          o = Responded res /\ ok res = true /\ body res = Json data /\
          get data "ok" = Ok k /\ ToBoolean k = true) /\
     (forall res, o = Responded res -> ok res = false ->
        SalesCoachPanel.error st' = JStr (lit "Failed to send reply")) /\
     (forall res props,
        o = Responded res -> ok res = true -> body res = Json (JObj props) ->
        ToBoolean (lookup "ok" props) = false ->
        ToBoolean (lookup "error" props) = false ->
        SalesCoachPanel.error st' = JStr (lit "Failed to send"))).
Proof.
  cbv zeta. split; [|split].
  - intros s Hs T. unfold SalesCoachPanel.handleSend.
    destruct st as [ad lo se er sel ld]. cbn [SalesCoachPanel.selectedReply] in Hs.
    subst sel. run_panel. cbn [SalesCoachPanel.call_trim]. run_panel.
    rewrite T. reflexivity.
  - intros Hs. unfold SalesCoachPanel.handleSend.
    destruct st as [ad lo se er sel ld]. cbn [SalesCoachPanel.selectedReply] in Hs.
    run_panel. destruct sel; try discriminate; reflexivity.
  - intros s Hs T.
    rewrite (coach_handleSend_answered rt leadId o st s Hs T).
    pose proof (reply_verdict_ok rt o) as V.
    destruct st as [ad lo se er sel ld]. cbn [SalesCoachPanel.selectedReply] in Hs.
    subst sel.
    destruct (reply_verdict rt o) as [u|e] eqn:Hv.
    + do 7 (split; [reflexivity|]). split; [|split].
      * split; [intros _; apply V; eauto|reflexivity].
      * intros res -> Hok. unfold reply_verdict in Hv. rewrite Hok in Hv. discriminate.
      * intros res props -> Hok Hb Tk _. exfalso.
        unfold reply_verdict in Hv. rewrite Hok, Hb in Hv. cbn [get rbind] in Hv.
        rewrite Tk in Hv. cbn [negb] in Hv.
        destruct (logical_or _ _) as [text|]; cbn [rbind] in Hv; [|discriminate].
        destruct (VisitBookingModal.ToString rt text); discriminate.
    + do 7 (split; [reflexivity|]). split; [|split].
      * split; [discriminate|]. intros H. apply V in H as [u H]. discriminate.
      * intros res -> Hok. unfold reply_verdict in Hv. rewrite Hok in Hv.
        injection Hv as <-. reflexivity.
      * intros res props -> Hok Hb Tk Te.
        unfold reply_verdict in Hv. rewrite Hok, Hb in Hv. cbn [get rbind] in Hv.
        rewrite Tk in Hv. cbn [negb] in Hv. unfold logical_or in Hv.
        cbn [rbind] in Hv. rewrite Te in Hv.
        cbn [rbind VisitBookingModal.ToString] in Hv. injection Hv as <-.
        reflexivity.
Qed.

Lemma coach_handleSend_outcomes_witness :
  SalesCoachPanel.handleSend SampleRuntime.rt Examples.L1 PanelExamples.declined
    PanelExamples.misfilled
  = (Throw TypeError, PanelExamples.misfilled, []) /\
  (let r := SalesCoachPanel.handleSend SampleRuntime.rt Examples.L1
              PanelExamples.declined PanelExamples.picked in
   requests (trace r) = [Fetch (api.POST_reply Examples.L1 (JStr (lit " Namaste ")))] /\
   SalesCoachPanel.selectedReply (state_after r) = JStr (lit " Namaste ") /\
   SalesCoachPanel.error (state_after r) = JStr (lit "Failed to send")).
Proof.
  split.
  - destruct (coach_handleSend_outcomes SampleRuntime.rt Examples.L1
                PanelExamples.declined PanelExamples.misfilled) as (_ & H & _).
    now apply H.
  - destruct (coach_handleSend_outcomes SampleRuntime.rt Examples.L1
                PanelExamples.declined PanelExamples.picked) as (_ & _ & H).
    destruct (H (lit " Namaste ") eq_refl)
      as (_ & Hreq & _ & Hsel & _ & _ & _ & _ & _ & Herr).
    { discriminate. }
    split; [exact Hreq|]. split; [exact Hsel|].
    apply (Herr {| status := 200; body := Json (JObj [(lit "ok", JBool false)]) |}
                [(lit "ok", JBool false)]); reflexivity.
Defined.

(* ================================================================== *)
(** ** The analytics dashboard: loading the summary *)

Ltac run_dashboard :=
  cbv beta iota zeta delta
    [async try_finally try_catch bind ret throw return_ modify read emit lift
     console fetch res_json api.fetchAnalyticsSummary
     DashboardPage.setData DashboardPage.setLoading
     DashboardPage.setError completion state_after trace];
  cbn [app fst snd body status
       DashboardPage.tab DashboardPage.data DashboardPage.loading
       DashboardPage.error].

(** X22: a load of the summary that was cancelled (the page was left
    before the answer came) writes nothing after the answer and reports
    nothing, whatever the answer is: only the loading flag, set when the
    load started, has changed. *)
Theorem dashboard_load_cancelled
  (rt : Runtime) (o : FetchOutcome) (st : DashboardPage.DashboardState) :
  DashboardPage.load rt true o st
  = (Normal tt, state_after (DashboardPage.setLoading true st),
     [Fetch api.GET_summary]).
Proof.
  unfold DashboardPage.load. destruct st. run_dashboard.
  destruct o as [msg|res]; [reflexivity|].
  destruct (ok res); [destruct (body res)|]; reflexivity.
Qed.

(** X23: a load of the summary that was not cancelled. The promise
    resolves, the page is no longer loading and the tab is the one chosen.
    - A status that is not a success status: the error line reads
      [Failed to load analytics] (the status is not in it), the data are
      kept, and no tab is drawn.
    - A success status with a JSON body: the body becomes the data and no
      error is shown; a tab is drawn exactly when the body and its
      [metrics] are truthy. So a body without [metrics] leaves the page
      with no loading line, no error line and no tab. *)
Theorem dashboard_load_outcome
  (rt : Runtime) (o : FetchOutcome) (st : DashboardPage.DashboardState) :
  let r := DashboardPage.load rt false o st in
  let st' := state_after r in
  completion r = Normal tt /\
  DashboardPage.shows_loading st' = false /\
  DashboardPage.tab st' = DashboardPage.tab st /\
  (forall res, o = Responded res -> ok res = false ->
     DashboardPage.error st' = Some (lit "Failed to load analytics") /\
     DashboardPage.data st' = DashboardPage.data st /\
     DashboardPage.shows_error st' = true /\
     DashboardPage.shows_tab st' = Ok false) /\
  (forall res data m,
     o = Responded res -> ok res = true -> body res = Json data ->
     get_opt data "metrics" = Ok m ->
     DashboardPage.data st' = data /\
     DashboardPage.error st' = None /\
     DashboardPage.shows_error st' = false /\
     DashboardPage.shows_tab st' = Ok (ToBoolean m && ToBoolean data)%bool).
Proof.
  cbv zeta. unfold DashboardPage.load. destruct st as [tb da lo er]. run_dashboard.
  destruct o as [msg|res].
  { do 3 (split; [reflexivity|]). split; [intros res [=]|intros res data m [=]]. }
  destruct (ok res) eqn:Hok; cbn [negb]; cbv iota.
  - destruct (body res) as [| |data] eqn:Hb; do 3 (split; [reflexivity|]);
      (split; [intros res' [= <-]; congruence|]);
      intros res' data' m [= <-] _ Hb' Hm; try congruence.
    rewrite Hb in Hb'. injection Hb' as <-.
    unfold DashboardPage.shows_error, DashboardPage.shows_tab,
      DashboardPage.metrics, and_then.
    run_dashboard. cbn [negb rbind]. rewrite Hm. cbn [rbind].
    repeat split. destruct (ToBoolean m); reflexivity.
  - do 3 (split; [reflexivity|]). split.
    + intros res' [= <-] _. repeat split.
    + intros res' data m [= <-] Hok'. congruence.
Qed.

Lemma dashboard_load_outcome_witness :
  let unauthorized := JObj [(lit "ok", JBool false);
                            (lit "error", JStr (lit "Unauthorized"))] in
  let st' := state_after (DashboardPage.load SampleRuntime.rt false
                            (Examples.respond 200 (Json unauthorized))
                            DashboardPage.initial_dashboard) in
  DashboardPage.shows_loading st' = false /\
  DashboardPage.shows_error st' = false /\
  DashboardPage.shows_tab st' = Ok false.
Proof.
  intros unauthorized st'.
  destruct (dashboard_load_outcome SampleRuntime.rt
              (Examples.respond 200 (Json unauthorized))
              DashboardPage.initial_dashboard) as (_ & Hl & _ & _ & H).
  destruct (H {| status := 200; body := Json unauthorized |} unauthorized JUndefined
              eq_refl eq_refl eq_refl eq_refl) as (_ & _ & He & Ht).
  split; [exact Hl|]. split; [exact He|exact Ht].
Defined.

(* ================================================================== *)
(** ** The analytics dashboard: the recent events *)

Lemma is_known_event_spec (type : JSValue) :
  is_known_event type = true <->
  exists k, In k DashboardPage.known_event_types /\ type = JStr k.
Proof.
  unfold is_known_event. rewrite existsb_exists.
  split; intros (k & Hk & H); exists k; (split; [exact Hk|]);
    now apply strict_equals_str.
Qed.

Lemma formatEventType_unknown (type : JSValue) :
  is_known_event type = false -> DashboardPage.formatEventType type = type.
Proof.
  unfold is_known_event, DashboardPage.known_event_types. cbn [existsb].
  intros H. repeat (apply orb_false_iff in H as [E H]; revert E). intros.
  unfold DashboardPage.formatEventType.
  repeat match goal with
  | E : strict_equals type ?k = false |- _ => rewrite E; clear E
  end.
  reflexivity.
Qed.

Lemma formatEventType_known (k : jsstring) :
  In k DashboardPage.known_event_types ->
  is_known_event (DashboardPage.formatEventType (JStr k)) = false /\
  DashboardPage.formatEventType (JStr k) <> JStr k.
Proof.
  unfold DashboardPage.known_event_types. cbn [In]. intros H.
  repeat (destruct H as [<-|H]; [split; [vm_compute; reflexivity|discriminate]|]).
  destruct H.
Qed.

(** X24: [formatEventType] replaces each of the nine types it knows by a
    label, which is not the type itself nor any other known type, and
    returns any other value as it is. So a value is left unchanged exactly
    when it is not a known type, and formatting twice is formatting
    once. *)
Theorem formatEventType_labels (type : JSValue) :
  let known v := exists k, In k DashboardPage.known_event_types /\ v = JStr k in
  (DashboardPage.formatEventType type = type <-> ~ known type) /\
  ~ known (DashboardPage.formatEventType type) /\
  DashboardPage.formatEventType (DashboardPage.formatEventType type)
  = DashboardPage.formatEventType type.
Proof.
  cbv zeta. destruct (is_known_event type) eqn:K.
  - pose proof K as K'. apply is_known_event_spec in K' as (k & Hk & ->).
    destruct (formatEventType_known k Hk) as [U N].
    split; [|split].
    + split; [intros E; now contradiction N|].
      intros C. exfalso. apply C. eauto.
    + intros C. apply is_known_event_spec in C. congruence.
    + now apply formatEventType_unknown.
  - assert (N : ~ exists k, In k DashboardPage.known_event_types /\ type = JStr k).
    { intros C. apply is_known_event_spec in C. congruence. }
    rewrite !(formatEventType_unknown type K).
    split; [|split]; [split; [intros _; exact N|reflexivity]|exact N|reflexivity].
Qed.

(* ================================================================== *)
(** ** The team page *)

Ltac run_team :=
  cbv beta iota zeta delta
    [async try_finally try_catch bind ret throw return_ modify read emit lift
     console fetch res_json TeamPage.setAgents TeamPage.setLoading
     TeamPage.setError completion state_after trace];
  cbn [app fst snd body status TeamPage.agents TeamPage.loading TeamPage.error].

(** X25: [loadStats] settles in one of two ways, and is never loading
    afterwards. Either the answer had a success status and a JSON body that
    is not [null]: then no error is shown and the agents are the [agents]
    of the body, or the empty list when the body has none. Or an error is
    shown and the agents are the ones from before. The agents are therefore
    never replaced by a value that is falsy: the render can always read
    their [length]. *)
Theorem loadStats_outcome
  (rt : Runtime) (o : FetchOutcome) (st : TeamPage.TeamState) :
  let r := TeamPage.loadStats rt o st in
  let st' := state_after r in
  completion r = Normal tt /\
  TeamPage.loading st' = false /\
  requests (trace r) = [Fetch TeamPage.GET_stats] /\
  ((TeamPage.error st' = None /\
    exists res data found,
      o = Responded res /\ ok res = true /\ body res = Json data /\
      get data "agents" = Ok found /\
      TeamPage.agents st' = if ToBoolean found then found else JArr []) \/
   (TeamPage.error st' <> None /\ TeamPage.agents st' = TeamPage.agents st)) /\
  (ToBoolean (TeamPage.agents st) = true -> ToBoolean (TeamPage.agents st') = true) /\
  (forall res, o = Responded res -> ok res = false ->
     TeamPage.error st' = Some (lit "API error: " ++ digits (status res))).
Proof.
  cbv zeta. unfold TeamPage.loadStats. destruct st as [ag lo er]. run_team.
  destruct o as [msg|res].
  { do 3 (split; [reflexivity|]). split; [right; split; [discriminate|reflexivity]|].
    split; [intros T; exact T|intros res [=]]. }
  destruct (ok res) eqn:Hok; cbn [negb]; cbv iota.
  2:{ do 3 (split; [reflexivity|]). split; [right; split; [discriminate|reflexivity]|].
      split; [intros T; exact T|]. intros res' [= <-] _. reflexivity. }
  destruct (body res) as [| |data] eqn:Hb.
  1,2: do 3 (split; [reflexivity|]);
       (split; [right; split; [discriminate|reflexivity]|]);
       (split; [intros T; exact T|intros res' [= <-]; congruence]).
  unfold logical_or.
  destruct (get data (lit "agents")) as [found|e] eqn:Hf; cbn [rbind]; run_team.
  - assert (E : (if ToBoolean found then Ok found else Ok (JArr []))
                = Ok (if ToBoolean found then found else JArr []))
      by (destruct (ToBoolean found); reflexivity).
    rewrite E. run_team.
    do 3 (split; [reflexivity|]). split; [|split].
    + left. split; [reflexivity|]. exists res, data, found. repeat split; assumption.
    + intros _. destruct (ToBoolean found) eqn:T; [exact T|reflexivity].
    + intros res' [= <-]. congruence.
  - do 3 (split; [reflexivity|]). split; [right; split; [discriminate|reflexivity]|].
    split; [intros T; exact T|intros res' [= <-]; congruence].
Qed.

Lemma loadStats_outcome_witness :
  TeamPage.error
    (state_after (TeamPage.loadStats SampleRuntime.rt (Examples.respond 403 NotJson)
                    TeamPage.initial_team))
  = Some (lit "API error: 403") /\
  ToBoolean
    (TeamPage.agents
       (state_after (TeamPage.loadStats SampleRuntime.rt
                       (Examples.respond 200 (Json (JObj [(lit "agents", JNull)])))
                       TeamPage.initial_team)))
  = true.
Proof.
  split.
  - destruct (loadStats_outcome SampleRuntime.rt (Examples.respond 403 NotJson)
                TeamPage.initial_team) as (_ & _ & _ & _ & _ & H).
    apply (H {| status := 403; body := NotJson |}); reflexivity.
  - destruct (loadStats_outcome SampleRuntime.rt
                (Examples.respond 200 (Json (JObj [(lit "agents", JNull)])))
                TeamPage.initial_team) as (_ & _ & _ & _ & H & _).
    now apply H.
Defined.

(* ================================================================== *)
(** ** Numbers: the length of a list *)

Section RoundingPositive.
Variables prec emax : Z.
Hypothesis prec_pos : (0 < prec)%Z.

Lemma shr_1_half (mrs : shr_record) :
  (0 <= shr_m mrs)%Z -> shr_m (shr_1 mrs) = (shr_m mrs / 2)%Z.
Proof.
  destruct mrs as [m r s]. simpl. intros H.
  destruct m as [|p|p]; [reflexivity| |lia].
  destruct p as [p|p|]; simpl.
  - apply Z.div_unique with (r := 1%Z); lia.
  - apply Z.div_unique with (r := 0%Z); lia.
  - reflexivity.
Qed.

Lemma iter_shr_1 (p : positive) (mrs : shr_record) :
  (0 <= shr_m mrs)%Z ->
  shr_m (iter_pos shr_1 p mrs) = (shr_m mrs / 2 ^ Zpos p)%Z.
Proof.
  assert (Nonneg : forall q r, (0 <= shr_m r)%Z -> (0 <= shr_m (iter_pos shr_1 q r))%Z).
  { intros q r Hr.
    apply (iter_pos_invariant (fun x => 0 <= shr_m x)%Z); [apply shr_1_nonneg|exact Hr]. }
  assert (Double : forall q, (2 ^ Zpos q * 2 ^ Zpos q = 2 ^ Zpos q~0)%Z).
  { intros q. replace (Zpos q~0) with (Zpos q + Zpos q)%Z by lia.
    now rewrite Z.pow_add_r by lia. }
  assert (Odd : forall q, (2 * (2 ^ Zpos q * 2 ^ Zpos q) = 2 ^ Zpos q~1)%Z).
  { intros q. rewrite Double.
    replace (Zpos q~1) with (Z.succ (Zpos q~0)) by lia.
    now rewrite Z.pow_succ_r by lia. }
  assert (Pow : forall q, (0 < 2 ^ Zpos q)%Z) by (intros q; apply Z.pow_pos_nonneg; lia).
  revert mrs. induction p as [p IH|p IH|]; intros mrs H; simpl iter_pos.
  - rewrite IH by (apply Nonneg, shr_1_nonneg, H).
    rewrite IH by (apply shr_1_nonneg, H).
    rewrite shr_1_half by exact H.
    pose proof (Pow p) as Hp.
    rewrite (Z.div_div _ (2 ^ Zpos p) (2 ^ Zpos p)) by lia.
    rewrite (Z.div_div _ 2 (2 ^ Zpos p * 2 ^ Zpos p)) by lia.
    now rewrite Odd.
  - rewrite IH by (apply Nonneg, H). rewrite IH by exact H.
    pose proof (Pow p) as Hp.
    rewrite (Z.div_div _ (2 ^ Zpos p) (2 ^ Zpos p)) by lia.
    now rewrite Double.
  - rewrite shr_1_half by exact H. reflexivity.
Qed.

(** A positive number has at least as many binary digits as its size. *)
Lemma digits2_pos_bound (p : positive) : (2 ^ (Zpos (digits2_pos p) - 1) <= Zpos p)%Z.
Proof.
  induction p as [p IH|p IH|]; simpl digits2_pos.
  - replace (Zpos (Pos.succ (digits2_pos p)) - 1)%Z
      with (Z.succ (Zpos (digits2_pos p) - 1)) by lia.
    rewrite Z.pow_succ_r by lia. lia.
  - replace (Zpos (Pos.succ (digits2_pos p)) - 1)%Z
      with (Z.succ (Zpos (digits2_pos p) - 1)) by lia.
    rewrite Z.pow_succ_r by lia. lia.
  - simpl. lia.
Qed.

(** Shifting a positive mantissa to its exponent keeps it positive, as
    long as the number is above the least exponent; the exponent reached is
    not below the least exponent. *)
Lemma shr_fexp_positive (m e : Z) (l : location) :
  (0 < m)%Z -> (SpecFloat.emin prec emax < Zdigits2 m + e)%Z ->
  (0 < shr_m (fst (shr_fexp prec emax m e l)))%Z /\
  (SpecFloat.emin prec emax <= snd (shr_fexp prec emax m e l))%Z.
Proof.
  intros Hm He. destruct m as [|p|p]; try lia.
  unfold shr_fexp, shr, SpecFloat.fexp in *. simpl Zdigits2 in *.
  pose proof (digits2_pos_bound p) as Hd.
  set (d := Zpos (digits2_pos p)) in *.
  assert (Hrec : shr_m (shr_record_of_loc (Zpos p) l) = Zpos p)
    by (destruct l as [|[| |]]; reflexivity).
  destruct (Z.max (d + e - prec) (SpecFloat.emin prec emax) - e)%Z as [|n|n] eqn:Hn;
    cbn [fst snd]; rewrite ?Hrec; try (split; lia).
  rewrite iter_shr_1 by (rewrite Hrec; lia). rewrite Hrec. split; [|lia].
  apply Z.div_str_pos. split; [apply Z.pow_pos_nonneg; lia|].
  apply Z.le_trans with (2 ^ (d - 1))%Z; [|exact Hd].
  apply Z.pow_le_mono_r; lia.
Qed.

(** Rounding a positive mantissa above the least exponent gives a number
    that is not zero and not NaN. *)
Lemma binary_round_aux_positive (sx : bool) (m e : Z) (l : location) :
  (0 < m)%Z -> (SpecFloat.emin prec emax < Zdigits2 m + e)%Z ->
  (exists m' e', binary_round_aux prec emax sx m e l = S754_finite sx m' e') \/
  binary_round_aux prec emax sx m e l = S754_infinity sx.
Proof.
  intros Hm He. unfold binary_round_aux.
  destruct (shr_fexp_positive m e l Hm He) as [H1 H1e].
  destruct (shr_fexp prec emax m e l) as [mrs' e']. cbn [fst snd] in H1, H1e.
  set (m1 := round_nearest_even (shr_m mrs') (loc_of_shr_record mrs')).
  assert (Hm1 : (0 < m1)%Z).
  { subst m1. unfold round_nearest_even.
    destruct (loc_of_shr_record mrs') as [|[| |]]; try destruct (Z.even _); lia. }
  clearbody m1.
  assert (Hd1 : (SpecFloat.emin prec emax < Zdigits2 m1 + e')%Z).
  { destruct m1 as [|p|p]; try lia. cbn [Zdigits2]. lia. }
  destruct (shr_fexp_positive m1 e' loc_Exact Hm1 Hd1) as [H2 _].
  destruct (shr_fexp prec emax m1 e' loc_Exact) as [mrs'' e'']. cbn [fst] in H2.
  destruct (shr_m mrs'') as [|p|p]; try lia.
  destruct (e'' <=? emax - prec)%Z; [left; eauto|now right].
Qed.

Lemma binary_normalize_positive (z : Z) :
  (0 < z)%Z -> (SpecFloat.emin prec emax <= 0)%Z ->
  (exists m' e', binary_normalize prec emax z 0 false = S754_finite false m' e') \/
  binary_normalize prec emax z 0 false = S754_infinity false.
Proof.
  intros Hz Hemin. destruct z as [|p|p]; try lia.
  unfold binary_normalize, binary_round, shl_align.
  destruct (SpecFloat.fexp prec emax (Zpos (digits2_pos p) + 0) - 0)%Z eqn:Hs.
  - apply binary_round_aux_positive; [lia|]. cbn [Zdigits2]. lia.
  - apply binary_round_aux_positive; [lia|]. cbn [Zdigits2]. lia.
  - apply binary_round_aux_positive; [lia|].
    unfold SpecFloat.fexp. cbn [Zdigits2]. lia.
Qed.
End RoundingPositive.

(** The length of a list that is not empty is a number that is not zero
    (for a list of fewer than 2^63 elements, beyond which the conversion
    wraps around; an array has fewer than 2^32). *)
Lemma Num_of_nat_positive (n : nat) :
  (0 < n)%nat -> (Z.of_nat n < 2 ^ 63)%Z ->
  PrimFloat.eqb (Num_of_nat n) 0%float = false /\
  ToBoolean (JNum (Num_of_nat n)) = true.
Proof.
  intros Hn Hb. unfold Num_of_nat.
  assert (Hz : Uint63.to_Z (Uint63.of_Z (Z.of_nat n)) = Z.of_nat n).
  { rewrite Uint63.of_Z_spec. apply Z.mod_small. change wB with (2 ^ 63)%Z. lia. }
  pose proof (FloatAxioms.of_uint63_spec (Uint63.of_Z (Z.of_nat n))) as S.
  rewrite Hz in S.
  assert (P : (exists m e, Prim2SF (PrimFloat.of_uint63 (of_Z (Z.of_nat n)))
                           = S754_finite false m e) \/
              Prim2SF (PrimFloat.of_uint63 (of_Z (Z.of_nat n))) = S754_infinity false).
  { rewrite S. apply binary_normalize_positive; [reflexivity|lia|].
    vm_compute. discriminate. }
  cbn [ToBoolean]. unfold PrimFloat.is_zero, PrimFloat.is_nan.
  rewrite !FloatAxioms.eqb_spec.
  change (Prim2SF 0%float) with (S754_zero false).
  change (Prim2SF PrimFloat.zero) with (S754_zero false).
  destruct P as [(m & e & ->)| ->].
  - split; [reflexivity|]. unfold SFeqb, SFcompare. rewrite Z.compare_refl.
    change (Pos.compare_cont Eq m m) with (Pos.compare m m).
    now rewrite Pos.compare_refl.
  - split; reflexivity.
Qed.

(* ================================================================== *)
(** ** The lead page: the notice and the bubbles *)

(** A list whose length reads as zero is empty. *)
Lemma length_zero (items : list JSValue) :
  (Z.of_nat (List.length items) < 2 ^ 32)%Z ->
  strict_equals (JNum (Num_of_nat (List.length items))) (JNum 0%float) = true ->
  items = [].
Proof.
  intros B H. destruct items as [|x r]; [reflexivity|]. exfalso.
  destruct (Num_of_nat_positive (List.length (x :: r))) as [E _].
  - simpl. lia.
  - lia.
  - cbn [strict_equals] in H. congruence.
Qed.

(** X26: the notice [No messages yet for this lead.] is never drawn above
    messages. On either file, in a state where the notice is shown, the
    bubbles the render draws (when it can draw them) are none. Arrays have
    fewer than 2^32 elements. *)
Theorem notice_excludes_bubbles (st : PageState) (bubbles : list (bool * JSValue)) :
  (forall items, get_opt (lead st) "messages" = Ok (JArr items) ->
                 (Z.of_nat (List.length items) < 2 ^ 32)%Z) ->
  PageA_view.empty_notice st = Ok true \/ PageB_view.empty_notice st = Ok true ->
  PageB.render_messages st = Ok bubbles ->
  bubbles = [].
Proof.
  intros Bound Notice Render. unfold PageB.render_messages in Render.
  destruct (get_opt_total (lead st) (lit "messages")) as [ms Hms].
  rewrite Hms in Render. cbn [rbind] in Render.
  destruct (is_nullish ms) eqn:Nms; [now injection Render as <-|].
  destruct ms as [| | | | |items|]; try discriminate.
  specialize (Bound items Hms).
  assert (E : items = []).
  { destruct Notice as [N|N].
    - unfold PageA_view.empty_notice, and_then in N. cbn [rbind] in N.
      destruct (negb (loading st)); [|discriminate].
      rewrite Hms in N. cbn [rbind get_opt is_nullish get] in N. revert N. literals.
      intros [= N]. now apply length_zero.
    - unfold PageB_view.empty_notice, and_then, or_else in N. cbn [rbind] in N.
      destruct (negb (loading st)); [|discriminate].
      unfold get_opt in Hms. destruct (is_nullish (lead st)) eqn:Nl; [discriminate|].
      destruct (ToBoolean (lead st)) eqn:Tl; cbn [negb] in N.
      + rewrite Hms in N. cbn [rbind ToBoolean get] in N. revert N. literals.
        intros [= N]. now apply length_zero.
      + destruct (lead st); try discriminate. }
  subst items. now injection Render as <-.
Qed.

Lemma notice_excludes_bubbles_witness :
  let st := state_after (PageB.fetchMessages SampleRuntime.rt Examples.L1
                           (Examples.respond 200 (Json (JObj [(lit "messages", JArr [])])))
                           Examples.loaded_page) in
  PageB_view.empty_notice st = Ok true /\ PageB.render_messages st = Ok [].
Proof.
  intros st.
  assert (N : PageB_view.empty_notice st = Ok true) by reflexivity.
  split; [exact N|].
  destruct (PageB.render_messages st) as [bubbles|e] eqn:R; [|discriminate].
  f_equal.
  apply (notice_excludes_bubbles st bubbles).
  - intros items H. vm_compute in H. injection H as <-. reflexivity.
  - right. exact N.
  - exact R.
Defined.

(* ================================================================== *)
(** ** The analytics dashboard: the list of recent events *)





(* ================================================================== *)
(** ** The visit banner: visits of the same date *)

Section Ties.
Variable rt : Runtime.

(** Sorting dated visits puts first the first of the latest. *)
Lemma sort_defined_first (l : list JSValue) :
  Forall (fun v => time_of rt v <> None) l -> l <> [] ->
  exists l', sort_defined (newest_first rt) l = Ok l' /\ l' <> [] /\
             first_of_latest rt l (first l').
Proof.
  induction l as [|x r IH]; intros D N; [now contradiction N|].
  inversion D as [|? ? Dx Dr]; subst.
  destruct (dated_time rt x Dx) as [tx Hx].
  destruct (Nat.eq_dec (List.length r) 0) as [Er|Er].
  - apply length_zero_iff_nil in Er. subst r.
    exists [x]. simpl. split; [reflexivity|]. split; [discriminate|].
    exists tx, [], []. repeat split; try assumption; intros w tw [].
  - assert (Nr : r <> []) by (intros ->; now contradiction Er).
    destruct (IH Dr Nr) as (r' & Hr' & Nr' & (t & before & after & E & Ht & Hb & Ha)).
    destruct r' as [|h tl]; [now contradiction Nr'|]. cbn [first] in Ht, Hb, Ha, E.
    cbn [sort_defined]. rewrite Hr'. cbn [rbind insert_sorted].
    rewrite (sort_compare_dated rt x h tx t Hx Ht). cbn [rbind].
    destruct (t - tx <=? 0)%Z eqn:C.
    + apply Z.leb_le in C. exists (x :: h :: tl).
      split; [reflexivity|]. split; [discriminate|]. cbn [first].
      exists tx, [], r. split; [reflexivity|]. split; [exact Hx|].
      split; [intros w tw []|]. intros w tw Hw Htw. rewrite E in Hw.
      apply in_app_iff in Hw as [Hw|[<-|Hw]].
      * specialize (Hb w tw Hw Htw). lia.
      * rewrite Ht in Htw. injection Htw as <-. lia.
      * specialize (Ha w tw Hw Htw). lia.
    + apply Z.leb_gt in C.
      assert (Dtl : Forall (fun v => time_of rt v <> None) tl).
      { apply Forall_forall. intros v Hv.
        apply (proj1 (Forall_forall _ r) Dr).
        apply (sort_defined_In _ _ _ Hr'). now right. }
      destruct (insert_sorted_members rt tl x Dx Dtl) as (tl' & -> & _).
      cbn [rbind]. exists (h :: tl'). split; [reflexivity|].
      split; [discriminate|]. cbn [first].
      exists t, (x :: before), after. rewrite E. split; [reflexivity|].
      split; [exact Ht|]. split; [|exact Ha].
      intros w tw [<-|Hw] Htw.
      * rewrite Hx in Htw. injection Htw as <-. lia.
      * exact (Hb w tw Hw Htw).
Qed.

Lemma array_sort_first (l : list JSValue) :
  Forall (fun v => time_of rt v <> None) l -> l <> [] ->
  exists l', array_sort (newest_first rt) l = Ok l' /\
             first_of_latest rt l (first l').
Proof.
  intros D N. unfold array_sort. destruct (dated_defined rt l D) as [-> ->].
  destruct (sort_defined_first l D N) as (l' & -> & _ & H).
  cbn [rbind]. rewrite app_nil_r. eauto.
Qed.
End Ties.

(** X28: which visit the banner shows when several visits of the lead
    have the latest date. On a payload [{ visits: [...] }] whose visits of
    the lead all have a date that can be read, the banner of either file is
    the first, in the order of the payload, of the visits with the latest
    date: the sort is stable. *)
Theorem banner_tie_goes_to_the_first
  (rt : Runtime) (leadId : jsstring) (res : Response)
  (props : list (jsstring * JSValue)) (visits : list JSValue) (st : PageState) :
  leadId <> [] ->
  ok res = true ->
  body res = Json (JObj props) ->
  lookup "visits" props = JArr visits ->
  Forall (fun v => is_nullish v = false) visits ->
  let candsA := candidates (PageA.belongs leadId) visits in
  let candsB := candidates (PageB.belongs leadId) visits in
  (candsA <> [] -> Forall (fun v => time_of rt v <> None) candsA ->
     first_of_latest rt candsA
       (latestVisit (state_after (PageA.loadVisitBanner rt leadId (Responded res) st)))) /\
  (candsB <> [] -> Forall (fun v => time_of rt v <> None) candsB ->
     first_of_latest rt candsB
       (latestVisit (state_after (PageB.fetchLatestVisit rt leadId (Responded res) st)))).
Proof.
  intros L Hok Hbody Hvisits D candsA candsB.
  rewrite (loadVisitBanner_payload rt leadId res props visits st Hok Hbody Hvisits D).
  rewrite (fetchLatestVisit_payload rt leadId res props visits st L Hok Hbody Hvisits D).
  fold candsA candsB. split.
  - intros N Dt. destruct (array_sort_first rt candsA Dt N) as (sorted & Hs & H).
    destruct candsA as [|c cs]; [now contradiction N|].
    rewrite Hs. exact H.
  - intros N Dt. destruct (array_sort_first rt candsB Dt N) as (sorted & Hs & H).
    destruct candsB as [|c cs]; [now contradiction N|].
    rewrite Hs. exact H.
Qed.

Lemma banner_tie_goes_to_the_first_witness :
  let visits := [Examples.visit_jan1; TieExamples.morning; TieExamples.evening] in
  let res := {| status := 200; body := Examples.visits_payload visits |} in
  first_of_latest SampleRuntime.rt visits
    (latestVisit (state_after (PageA.loadVisitBanner SampleRuntime.rt Examples.L1
                                 (Responded res) initial_page))) /\
  latestVisit (state_after (PageA.loadVisitBanner SampleRuntime.rt Examples.L1
                              (Responded res) initial_page))
  = TieExamples.morning.
Proof.
  intros visits res.
  destruct (banner_tie_goes_to_the_first SampleRuntime.rt Examples.L1 res
              [(lit "visits", JArr visits)] visits initial_page) as [HA _].
  - discriminate.
  - reflexivity.
  - reflexivity.
  - reflexivity.
  - repeat constructor.
  - split; [|reflexivity]. apply HA; [discriminate|].
    repeat constructor; discriminate.
Defined.

(* ================================================================== *)
(** ** The analytics dashboard: drawing the tab *)



